(** * healthcheck: the cached REST client, the usage statistics and the
      result renderers

    A shallow embedding of

    - [healthcheck/api_fetcher.py]            (class [ApiFetcher]),
    - [healthcheck/printer_funcs.py]          ([Color], [print_msg],
      [print_success], [print_error]),
    - the min/avg/max/dev blocks of
      [check_suites/suite_databases.py] ([check_databases_usage_001]) and
      [check_suites/suite_nodes.py] ([check_cpu_usage]),
    - [result_renderers/json_renderer.py] and
      [result_renderers/basic_renderer.py]   ([render_result]),

    followed by the properties of the specification that concern them.

    Conventions of the embedding.

    - A decoded JSON document is a [jvalue].  Python [int] and [float] are
      both [JNum] over the rationals [Q]; comparisons are exact, as they
      are in Python.  The arithmetic of the statistics blocks rounds, and
      can raise, as the interpreter decides: it is the parameter [arith] of
      the blocks.  [get_sum_of_values] adds counters, which are [int].
    - A Python exception is a [pyexc]: its class name, its [args] and the
      three attributes that [print_error] inspects.
    - Code that can raise lives in [result]; methods of [ApiFetcher] and the
      renderers, which also mutate the instance or print, live in the
      state-and-exception monad [M].  A raise keeps the mutations made so
      far, as in Python.
    - [http_get], [str()] and [json.dumps] are not part of the embedded
      sources; they are section variables. *)

From Stdlib Require Import String Ascii List ZArith QArith Qabs Qround Lia Lqa.
From stdpp Require Import base gmap strings.
Import ListNotations.

Open Scope string_scope.

(* ================================================================= *)
(** ** Python values, exceptions, and the [result] monad              *)
(* ================================================================= *)

#[warnings="-register-all"]
Inductive jvalue : Type :=
| JNull
| JBool (b : bool)
| JNum (q : Q)
| JStr (s : string)
| JArr (l : list jvalue)
| JObj (l : list (string * jvalue)).

(** A JSON object, decoded to a [dict] with string keys. *)
Abbreviation jobject := (list (string * jvalue)).

(** What an attribute [reason] of an exception can hold: a plain value
    (a [str] for [HTTPError]), or a nested [OSError]-like object, of which
    only the attribute [strerror] is ever read ([None] when it has no such
    attribute). *)
Inductive exc_reason_t : Type :=
| ReasonVal (v : jvalue)
| ReasonErr (strerror : option jvalue).

(** An exception instance.  The three [option] fields are attributes in the
    sense of [hasattr]: [None] means the attribute does not exist, [Some
    JNull] that it exists and holds Python's [None]. *)
Record pyexc : Type := mkExc {
  exc_class : string;
  exc_args : list jvalue;
  exc_reason : option exc_reason_t;
  exc_strerror : option jvalue;
  exc_stderr : option jvalue
}.

(** The built-in exceptions raised by the embedded code.  None of them has
    one of the three attributes. *)
Definition builtin_exc (cls : string) (args : list jvalue) : pyexc :=
  mkExc cls args None None None.

Definition ValueError (msg : string) := builtin_exc "ValueError" [JStr msg].
Definition TypeError (msg : string) := builtin_exc "TypeError" [JStr msg].
Definition ZeroDivisionError (msg : string) := builtin_exc "ZeroDivisionError" [JStr msg].
Definition AttributeError (msg : string) := builtin_exc "AttributeError" [JStr msg].
Definition IndexError (msg : string) := builtin_exc "IndexError" [JStr msg].
Definition KeyError (key : jvalue) := builtin_exc "KeyError" [key].
Definition NotImplementedError := builtin_exc "NotImplementedError" [].

Inductive result (A : Type) : Type :=
| Ok (a : A)
| Raise (e : pyexc).
Arguments Ok {A} a.
Arguments Raise {A} e.

Definition rbind {A B} (r : result A) (k : A -> result B) : result B :=
  match r with
  | Ok a => k a
  | Raise e => Raise e
  end.

Declare Scope result_scope.
Delimit Scope result_scope with result.
Notation "x <- e ;; k" := (rbind e (fun x => k))
  (at level 100, e at next level, right associativity) : result_scope.

Definition is_ok {A} (r : result A) : bool :=
  match r with Ok _ => true | Raise _ => false end.

Definition raises {A} (r : result A) (cls : string) : Prop :=
  exists e, r = Raise e /\ exc_class e = cls.

(** [[f(x) for x in l]]: evaluated left to right, the first raise wins. *)
Fixpoint mapM {A B} (f : A -> result B) (l : list A) : result (list B) :=
  match l with
  | [] => Ok []
  | x :: l' =>
      (y <- f x ;;
       ys <- mapM f l' ;;
       Ok (y :: ys))%result
  end.

(** *** Dictionaries *)

(** [d.get(k)], with [None] standing for Python's [None] default. *)
Fixpoint dict_get {A} (k : string) (d : list (string * A)) : option A :=
  match d with
  | [] => None
  | (k', v) :: d' => if String.eqb k k' then Some v else dict_get k d'
  end.

(** [d[k]] on a [dict]. *)
Definition dict_getitem (d : jobject) (k : string) : result jvalue :=
  match dict_get k d with
  | Some v => Ok v
  | None => Raise (KeyError (JStr k))
  end.

(** *** Numbers, truthiness, equality *)

(** [bool] is a subclass of [int]. *)
Definition num_of_bool (b : bool) : Q := if b then 1%Q else 0%Q.

Definition is_zero (q : Q) : bool := Qeq_bool q 0.

(** [bool(v)]. *)
Definition truthy (v : jvalue) : bool :=
  match v with
  | JNull => false
  | JBool b => b
  | JNum q => negb (is_zero q)
  | JStr s => negb (String.eqb s "")
  | JArr l => match l with [] => false | _ => true end
  | JObj l => match l with [] => false | _ => true end
  end.

(** Truthiness of the value of [i.get(k)]. *)
Definition get_truthy (k : string) (i : jobject) : bool :=
  match dict_get k i with
  | Some v => truthy v
  | None => false
  end.

(** [a == b] on decoded JSON. *)
Fixpoint py_eq (a b : jvalue) {struct a} : bool :=
  match a, b with
  | JNull, JNull => true
  | JBool x, JBool y => Bool.eqb x y
  | JBool x, JNum q => Qeq_bool (num_of_bool x) q
  | JNum q, JBool x => Qeq_bool q (num_of_bool x)
  | JNum p, JNum q => Qeq_bool p q
  | JStr s, JStr t => String.eqb s t
  | JArr l, JArr m =>
      (fix go (l m : list jvalue) {struct l} : bool :=
         match l, m with
         | [], [] => true
         | x :: l', y :: m' => py_eq x y && go l' m'
         | _, _ => false
         end) l m
  | JObj l, JObj m =>
      Nat.eqb (List.length l) (List.length m) &&
      (fix go (l : jobject) : bool :=
         match l with
         | [] => true
         | (k, v) :: l' =>
             match dict_get k m with
             | Some w => py_eq v w
             | None => false
             end && go l'
         end) l
  | _, _ => false
  end.

(** The operand of an arithmetic operator: a number, or [TypeError]. *)
Definition number (v : jvalue) : result Q :=
  match v with
  | JNum q => Ok q
  | JBool b => Ok (num_of_bool b)
  | _ => Raise (TypeError "unsupported operand type(s)")
  end.

(** *** Arithmetic on numbers

    A Python number is an [int] or a [float], and both are rationals.  The
    operations on [int] are exact.  Those that yield a [float] round to a
    binary double, and raise [OverflowError] where an [int] operand is too
    large for a double or where [pow] overflows; [sum] over floats adds in
    an order and with a compensation that depend on the interpreter.  Which
    number an operation yields is therefore not fixed here: the operations
    that the statistics blocks use are the fields of an [arith], and the
    blocks are embedded for every such arithmetic.  The values are the
    finite ones: [inf] and [nan], which a sum of doubles beyond the largest
    double yields, are not rationals and have no place in a field. *)
Record arith : Type := mkArith {
  f_sum : list Q -> result Q;        (* sum(l) *)
  f_add : Q -> Q -> result Q;        (* x + y *)
  f_sub : Q -> Q -> result Q;        (* x - y *)
  f_truediv : Q -> Q -> result Q;    (* x / y, for y that is not zero *)
  f_pow2 : Q -> result Q;            (* pow(x, 2) *)
  f_sqrt : Q -> result Q             (* math.sqrt(x) *)
}.

(** [a / b]. *)
Definition py_div (F : arith) (a b : Q) : result Q :=
  if is_zero b then Raise (ZeroDivisionError "division by zero")
  else f_truediv F a b.

(** [min(l)] and [max(l)]: the first smallest, the first largest. *)
Definition py_min (l : list Q) : result Q :=
  match l with
  | [] => Raise (ValueError "min() arg is an empty sequence")
  | x :: l' => Ok (fold_left (fun m y => if Qle_bool m y then m else y) l' x)
  end.

Definition py_max (l : list Q) : result Q :=
  match l with
  | [] => Raise (ValueError "max() arg is an empty sequence")
  | x :: l' => Ok (fold_left (fun m y => if Qle_bool y m then m else y) l' x)
  end.

(** [sum(l)] of a list of [int]: the exact sum. *)
Definition py_sum (l : list Q) : Q := fold_left Qplus l 0%Q.

(** [len(l)] as a number. *)
Definition py_len {A} (l : list A) : Q := inject_Z (Z.of_nat (List.length l)).

(* ================================================================= *)
(** ** The min/avg/max/dev aggregation of the usage checks            *)
(* ================================================================= *)

Module Stats.

(** The four numbers a usage check formats. *)
Record stats : Type := mkStats {
  minimum : Q;
  average : Q;
  maximum : Q;
  std_dev : Q
}.

(** [filter(lambda i: i.get(field), ints)]: the records that enter the
    sample of a field. *)
Definition filtered (field : string) (ints : list jobject) : list jobject :=
  List.filter (get_truthy field) ints.

(** [[i['total_req'] for i in filter(lambda i: i.get('total_req'), ints)]],
    read as numbers. *)
Definition total_req_sample (ints : list jobject) : result (list Q) :=
  mapM (fun i => v <- dict_getitem i "total_req" ;; number v)%result
       (filtered "total_req" ints).

(** [(1 - i['cpu_idle']) for i in filter(lambda x: x.get('cpu_idle'), ints)]. *)
Definition cpu_usage_sample (F : arith) (ints : list jobject) : result (list Q) :=
  mapM (fun i => v <- dict_getitem i "cpu_idle" ;; q <- number v ;; f_sub F 1 q)%result
       (filtered "cpu_idle" ints).

(** [functools.reduce(lambda x, y: x + pow(y - average, 2), sample, 0)]:
    from the left, one difference, one square and one addition for each
    element; the first operation that raises ends the reduction. *)
Definition reduce_q_sum (F : arith) (average : Q) (sample : list Q) : result Q :=
  fold_left
    (fun acc y => (x <- acc ;; d <- f_sub F y average ;; p <- f_pow2 F d ;; f_add F x p)%result)
    sample (Ok 0%Q).

(** [suite_databases.py], [check_databases_usage_001], lines 245-260, for
    the list [ints = shard_stats['intervals']].

    A value of the sample that is not a number makes the block raise
    [TypeError] (in [min], or at the latest in [sum]); the embedding raises
    it where the values are read. *)
Definition check_databases_usage_001_stats (F : arith) (ints : list jobject)
    : result stats :=
  ((* minimum = min([i['total_req'] for i in filter(lambda i: i.get('total_req'), ints)]) *)
   xs <- total_req_sample ints ;;
   minimum <- py_min xs ;;
   (* total_reqs = list(filter(lambda i: i.get('total_req'), ints)) *)
   let total_reqs := filtered "total_req" ints in
   (* sum_total_req = sum([i['total_req'] for i in total_reqs]) *)
   ys <- total_req_sample ints ;;
   sum_total_req <- f_sum F ys ;;
   (* average = sum_total_req / len(total_reqs) *)
   average <- py_div F sum_total_req (py_len total_reqs) ;;
   (* maximum = max([i['total_req'] for i in filter(lambda i: i.get('total_req'), ints)]) *)
   zs <- total_req_sample ints ;;
   maximum <- py_max zs ;;
   (* q_sum = functools.reduce(lambda x, y: x + pow(y['total_req'] - average, 2), total_reqs, 0) *)
   q_sum <- reduce_q_sum F average ys ;;
   (* std_dev = math.sqrt(q_sum / len(total_reqs)) *)
   arg <- py_div F q_sum (py_len total_reqs) ;;
   std_dev <- f_sqrt F arg ;;
   Ok (mkStats minimum average maximum std_dev))%result.

(** [suite_nodes.py], [check_cpu_usage], lines 200-216, for the list
    [ints = stat['intervals']].  The lambda of the reduction computes
    [1 - y['cpu_idle']] once more; an operation is a function of its
    operands, so the difference is the one the sample holds. *)
Definition check_cpu_usage_stats (F : arith) (ints : list jobject) : result stats :=
  ((* minimum = min((1 - i['cpu_idle']) for i in filter(lambda x: x.get('cpu_idle'), ints)) *)
   xs <- cpu_usage_sample F ints ;;
   minimum <- py_min xs ;;
   (* cpu_idles = list(filter(lambda x: x.get('cpu_idle'), ints)) *)
   let cpu_idles := filtered "cpu_idle" ints in
   (* sum_cpu_usage = sum((1 - i['cpu_idle']) for i in cpu_idles) *)
   ys <- cpu_usage_sample F ints ;;
   sum_cpu_usage <- f_sum F ys ;;
   (* average = sum_cpu_usage/len(cpu_idles) *)
   average <- py_div F sum_cpu_usage (py_len cpu_idles) ;;
   (* maximum = max((1 - i['cpu_idle']) for i in filter(lambda x: x.get('cpu_idle'), ints)) *)
   zs <- cpu_usage_sample F ints ;;
   maximum <- py_max zs ;;
   (* q_sum = functools.reduce(lambda x, y: x + pow((1 - y['cpu_idle']) - average, 2), cpu_idles, 0) *)
   q_sum <- reduce_q_sum F average ys ;;
   (* std_dev = math.sqrt(q_sum / len(cpu_idles)) *)
   arg <- py_div F q_sum (py_len cpu_idles) ;;
   std_dev <- f_sqrt F arg ;;
   Ok (mkStats minimum average maximum std_dev))%result.

(** *** The formulas of the specification, in an arithmetic *)

(** Arithmetic mean: the sum over the count. *)
Definition mean (F : arith) (xs : list Q) : result Q :=
  (s <- f_sum F xs ;; py_div F s (py_len xs))%result.

(** The squared distances of the elements to [m]. *)
Definition squared_distances (F : arith) (m : Q) (xs : list Q) : result (list Q) :=
  mapM (fun x => d <- f_sub F x m ;; f_pow2 F d)%result xs.

(** The terms added up one after the other, from 0. *)
Definition add_up (F : arith) (ts : list Q) : result Q :=
  fold_left (fun acc t => (x <- acc ;; f_add F x t)%result) ts (Ok 0%Q).

(** The square root of the sum of the squared distances to the mean over a
    divisor [n]. *)
Definition std_dev_over (F : arith) (n : Q) (xs : list Q) : result Q :=
  (m <- mean F xs ;;
   ts <- squared_distances F m xs ;;
   q <- add_up F ts ;;
   v <- py_div F q n ;;
   f_sqrt F v)%result.

(** The population standard deviation divides by the count. *)
Definition population_std_dev (F : arith) (xs : list Q) : result Q :=
  std_dev_over F (py_len xs) xs.

(** The sample standard deviation, which the specification excludes,
    divides by the count less one. *)
Definition sample_std_dev (F : arith) (xs : list Q) : result Q :=
  std_dev_over F (py_len xs - 1)%Q xs.

Definition is_minimum (m : Q) (xs : list Q) : Prop :=
  In m xs /\ forall x, In x xs -> (m <= x)%Q.

Definition is_maximum (m : Q) (xs : list Q) : Prop :=
  In m xs /\ forall x, In x xs -> (x <= m)%Q.

(** What the specification asks of the four numbers, for a sample [xs]. *)
Definition summarises (F : arith) (s : stats) (xs : list Q) : Prop :=
  is_minimum (minimum s) xs /\
  mean F xs = Ok (average s) /\
  is_maximum (maximum s) xs /\
  population_std_dev F xs = Ok (std_dev s).

(** *** Arithmetic that is accurate

    What binary doubles and Python's [int] guarantee where nothing
    overflows or underflows, for a unit of rounding [u]: sums and
    differences of integers of at most 53 bits are exact, a quotient is
    exact when it is such an integer, and quotients, squares, sums and
    square roots are within the relative error [u]. *)

Definition total (xs : list Q) : Q := fold_right Qplus 0%Q xs.

(** An integer of magnitude at most [2 ^ 53]. *)
Definition small_int (q : Q) : Prop :=
  exists z : Z, (q == inject_Z z)%Q /\ (Z.abs z <= 2 ^ 53)%Z.

(** [r] is [x] up to the relative error [u]. *)
Definition near (u r x : Q) : Prop := (Qabs (r - x) <= u * Qabs x)%Q.

(** [r] is the square root of [x] up to the relative error [u]. *)
Definition near_sqrt (u r x : Q) : Prop :=
  (0 <= r /\ (1 - u) * (1 - u) * x <= r * r /\ r * r <= (1 + u) * (1 + u) * x)%Q.

Record accurate (F : arith) (u : Q) : Prop := mkAccurate {
  sum_exact :
    forall l, Forall (fun x => small_int x /\ (0 <= x)%Q) l -> small_int (total l) ->
    exists r, f_sum F l = Ok r /\ (r == total l)%Q;
  sub_exact :
    forall a b, small_int a -> small_int b -> small_int (a - b)%Q ->
    exists r, f_sub F a b = Ok r /\ (r == a - b)%Q;
  truediv_near :
    forall a b, (1 <= a)%Q -> (a <= inject_Z (2 ^ 53))%Q -> small_int b -> (0 < b)%Q ->
    exists r, f_truediv F a b = Ok r /\ near u r (a / b)%Q /\
              (small_int (a / b)%Q -> (r == a / b)%Q);
  pow2_near :
    forall a, small_int a -> (Qabs a <= inject_Z (2 ^ 26))%Q ->
    exists r, f_pow2 F a = Ok r /\ near u r (a * a)%Q;
  add_near :
    forall a b, (0 <= a)%Q -> (a <= inject_Z (2 ^ 52))%Q ->
                (0 <= b)%Q -> (b <= inject_Z (2 ^ 52))%Q ->
    exists r, f_add F a b = Ok r /\ near u r (a + b)%Q;
  sqrt_near :
    forall x, (1 <= x)%Q -> (x <= inject_Z (2 ^ 53))%Q ->
    exists r, f_sqrt F x = Ok r /\ near_sqrt u r x
}.

(** *** Sample inputs *)

(** An interval record that carries one number under one field. *)
Definition interval (field : string) (q : Q) : jobject := [(field, JNum q)].

(** The square root rounded down to a multiple of [2 ^ -30]. *)
Definition sqrt_down (x : Q) : Q :=
  (inject_Z (Z.sqrt (Qfloor (x * inject_Z (4 ^ 30)))) / inject_Z (2 ^ 30))%Q.

(** Sample arithmetic: sums, differences, quotients and squares of
    rationals are exact, the square root is [sqrt_down]. *)
Definition rational_arith : arith :=
  mkArith (fun l => Ok (total l))
          (fun a b => Ok (a + b)%Q)
          (fun a b => Ok (a - b)%Q)
          (fun a b => Ok (a / b)%Q)
          (fun a => Ok (a * a)%Q)
          (fun x => Ok (sqrt_down x)).

End Stats.

(* ================================================================= *)
(** ** Effects: the state-and-exception monad                         *)
(* ================================================================= *)

(** What the process does to the outside, in order.  [HttpGet] records a
    call of [http_get] and whether it returned a response ([true]) or raised
    ([false]).  [BuildUids] is not an effect of the program: it marks each
    execution of the assignment [self.uids = {...}] in [get_uid], so that
    builds can be counted. *)
Inductive stream : Type := Stdout | Stderr.

Inductive event : Type :=
| Print (f : stream) (line : string)
| HttpGet (url user pass : string) (returned : bool)
| BuildUids.

Definition M (S A : Type) : Type := S -> result A * S.

Definition ret {S A} (a : A) : M S A := fun s => (Ok a, s).

Definition bind {S A B} (m : M S A) (k : A -> M S B) : M S B :=
  fun s =>
    match m s with
    | (Ok a, s') => k a s'
    | (Raise e, s') => (Raise e, s')
    end.

Definition lift {S A} (r : result A) : M S A := fun s => (r, s).

Definition get_state {S} : M S S := fun s => (Ok s, s).

Definition modify {S} (f : S -> S) : M S unit := fun s => (Ok tt, f s).

(** [try: body  except Exception as e: handler(e)]. *)
Definition try_except {S A} (body : M S A) (handler : pyexc -> M S A) : M S A :=
  fun s =>
    match body s with
    | (Ok a, s') => (Ok a, s')
    | (Raise e, s') => handler e s'
    end.

Declare Scope monad_scope.
Delimit Scope monad_scope with monad.
Notation "x <- e ;; k" := (bind e (fun x => k))
  (at level 100, e at next level, right associativity) : monad_scope.
Notation "e ;; k" := (bind e (fun _ => k))
  (at level 100, right associativity) : monad_scope.

(** [print(line, file=f)]. *)
Definition print (f : stream) (line : string) : M (list event) unit :=
  modify (fun t => (t ++ [Print f line])%list).

(* ================================================================= *)
(** ** [printer_funcs.py]                                             *)
(* ================================================================= *)

Module Color.

Definition esc : string := String (ascii_of_nat 27) "".

Definition black (_text : string) : string := esc ++ "[0;30m" ++ _text ++ esc ++ "[0m".
Definition red (_text : string) : string := esc ++ "[0;31m" ++ _text ++ esc ++ "[0m".
Definition green (_text : string) : string := esc ++ "[0;32m" ++ _text ++ esc ++ "[0m".
Definition yellow (_text : string) : string := esc ++ "[0;33m" ++ _text ++ esc ++ "[0m".
Definition blue (_text : string) : string := esc ++ "[0;34m" ++ _text ++ esc ++ "[0m".
Definition magenta (_text : string) : string := esc ++ "[0;35m" ++ _text ++ esc ++ "[0m".
Definition cyan (_text : string) : string := esc ++ "[0;36m" ++ _text ++ esc ++ "[0m".
Definition white (_text : string) : string := esc ++ "[0;37m" ++ _text ++ esc ++ "[0m".

End Color.

(** [sep.join(parts)] on a list of strings. *)
Fixpoint join (sep : string) (parts : list string) : string :=
  match parts with
  | [] => ""
  | [p] => p
  | p :: rest => p ++ sep ++ join sep rest
  end.

(** [sep.join(parts)] on a list of values: [TypeError] unless every item is
    a [str]. *)
Definition expect_str (v : jvalue) : result string :=
  match v with
  | JStr s => Ok s
  | _ => Raise (TypeError "sequence item: expected str instance")
  end.

Definition py_join (sep : string) (parts : list jvalue) : result string :=
  (ss <- mapM expect_str parts ;; Ok (join sep ss))%result.

(** [str(v)], also what an f-string or [format] inserts for [v]: a string
    is inserted as it is, [py_str] renders the other values. *)
Definition format_value (py_str : jvalue -> string) (v : jvalue) : string :=
  match v with
  | JStr s => s
  | _ => py_str v
  end.

Module Printer.

Definition print_msg (_msg : string) : M (list event) unit :=
  print Stderr (Color.white _msg).

Definition print_success (_msg : string) : M (list event) unit :=
  print Stderr (Color.green _msg).

Definition print_warning (_msg : string) : M (list event) unit :=
  print Stderr (Color.yellow _msg).

(** The list [parts] of [print_error] once the exception has been looked at:
    lines 97-109.  An exception instance is truthy. *)
Definition print_error_parts (_msg : string) (_ex : option pyexc) : result (list jvalue) :=
  let parts := [JStr _msg] in
  match _ex with
  | None => Ok parts
  | Some ex =>
      match exc_reason ex with
      | Some reason =>                                   (* hasattr(_ex, 'reason') *)
          match reason with
          | ReasonVal (JStr s) => Ok (parts ++ [JStr s])%list (* isinstance(_ex.reason, str) *)
          | ReasonVal _ | ReasonErr None =>              (* _ex.reason.strerror *)
              Raise (AttributeError "object has no attribute 'strerror'")
          | ReasonErr (Some v) => Ok (parts ++ [v])%list
          end
      | None =>
          match exc_strerror ex with
          | Some v => Ok (parts ++ [v])%list                  (* hasattr(_ex, 'strerror') *)
          | None =>
              match exc_stderr ex with
              | Some v => Ok (parts ++ [v])%list              (* hasattr(_ex, 'stderr') *)
              | None =>
                  match exc_args ex with                 (* _ex.args[0] *)
                  | a :: _ => Ok (parts ++ [a])%list
                  | [] => Raise (IndexError "tuple index out of range")
                  end
              end
          end
      end
  end.

Definition print_error (_msg : string) (_ex : option pyexc) : M (list event) unit :=
  (parts <- lift (print_error_parts _msg _ex) ;;
   text <- lift (py_join " " parts) ;;
   print Stderr (Color.red text))%monad.

End Printer.

(* ================================================================= *)
(** ** [api_fetcher.py]                                               *)
(* ================================================================= *)

(** [c in s] for a one-character string [c]. *)
Fixpoint contains_char (c : ascii) (s : string) : bool :=
  match s with
  | EmptyString => false
  | String c' s' => if Ascii.eqb c c' then true else contains_char c s'
  end.

(** [v[k]] for a string [k]: only a [dict] can be subscripted by a [str]. *)
Definition py_getitem (v : jvalue) (k : string) : result jvalue :=
  match v with
  | JObj d => dict_getitem d k
  | JArr _ => Raise (TypeError "list indices must be integers or slices, not str")
  | JStr _ => Raise (TypeError "string indices must be integers")
  | _ => Raise (TypeError "object is not subscriptable")
  end.

Fixpoint chars (s : string) : list jvalue :=
  match s with
  | EmptyString => []
  | String c s' => JStr (String c "") :: chars s'
  end.

(** [iter(v)], run to the end: the items of a list, the keys of a [dict],
    the characters of a [str]. *)
Definition py_iter (v : jvalue) : result (list jvalue) :=
  match v with
  | JArr l => Ok l
  | JObj d => Ok (map (fun kv => JStr (fst kv)) d)
  | JStr s => Ok (chars s)
  | _ => Raise (TypeError "object is not iterable")
  end.

(** [len(v)]. *)
Definition py_len_of (v : jvalue) : result nat :=
  match v with
  | JArr l => Ok (List.length l)
  | JObj d => Ok (List.length d)
  | JStr s => Ok (String.length s)
  | _ => Raise (TypeError "object has no len()")
  end.

(** [[x for x in l if p(x)]] for a predicate that can raise. *)
Fixpoint filterM {A} (p : A -> result bool) (l : list A) : result (list A) :=
  match l with
  | [] => Ok []
  | x :: l' =>
      (b <- p x ;;
       xs <- filterM p l' ;;
       Ok (if b then x :: xs else xs))%result
  end.

(** A [dict] whose keys are values: [self.uids].  Lists and dicts cannot be
    keys. *)
Definition hashable (v : jvalue) : bool :=
  match v with
  | JArr _ | JObj _ => false
  | _ => true
  end.

Fixpoint vdict_get (k : jvalue) (d : list (jvalue * jvalue)) : option jvalue :=
  match d with
  | [] => None
  | (k', v) :: d' => if py_eq k' k then Some v else vdict_get k d'
  end.

Fixpoint vdict_set (k v : jvalue) (d : list (jvalue * jvalue)) : list (jvalue * jvalue) :=
  match d with
  | [] => [(k, v)]
  | (k', v') :: d' => if py_eq k' k then (k', v) :: d' else (k', v') :: vdict_set k v d'
  end.

Definition vdict_getitem (d : list (jvalue * jvalue)) (k : jvalue) : result jvalue :=
  if hashable k then
    match vdict_get k d with
    | Some v => Ok v
    | None => Raise (KeyError k)
    end
  else Raise (TypeError "unhashable type").

Module Api.

Record config : Type := mkConfig {
  api_addr : string;   (* _config['api']['addr'] *)
  api_user : string;   (* _config['api']['user'] *)
  api_pass : string    (* _config['api']['pass'] *)
}.

Record ApiFetcher : Type := mkApiFetcher {
  addr : string;
  username : string;
  password : string;
  cache : gmap string jvalue;
  uids : list (jvalue * jvalue);
  connected : option bool
}.

(** [__init__]. *)
Definition init (_config : config) : ApiFetcher :=
  mkApiFetcher (api_addr _config) (api_user _config) (api_pass _config) ∅ [] None.

(** The instance together with what the process has done so far. *)
#[projections(primitive)]
Record world : Type := mkWorld {
  self : ApiFetcher;
  trace : list event
}.

Definition start (_config : config) : world := mkWorld (init _config) [].

Definition set_cache (c : gmap string jvalue) (w : world) : world :=
  let s := self w in
  mkWorld (mkApiFetcher (addr s) (username s) (password s) c (uids s) (connected s)) (trace w).

Definition set_uids (u : list (jvalue * jvalue)) (w : world) : world :=
  let s := self w in
  mkWorld (mkApiFetcher (addr s) (username s) (password s) (cache s) u (connected s)) (trace w).

Definition set_connected (b : option bool) (w : world) : world :=
  let s := self w in
  mkWorld (mkApiFetcher (addr s) (username s) (password s) (cache s) (uids s) b) (trace w).

(** Run a printing action on the trace of the world. *)
Definition io {A} (m : M (list event) A) : M world A :=
  fun w => let (r, t) := m (trace w) in (r, mkWorld (self w) t).

Definition is_request (e : event) : bool :=
  match e with HttpGet _ _ _ _ => true | _ => false end.

(** The GET requests of a trace, those for one URL, and those for one URL
    that returned a response. *)
Definition requests (t : list event) : list event := List.filter is_request t.

Definition is_request_for (url : string) (e : event) : bool :=
  match e with HttpGet u _ _ _ => String.eqb u url | _ => false end.

Definition is_response_for (url : string) (e : event) : bool :=
  match e with HttpGet u _ _ ok => String.eqb u url && ok | _ => false end.

Definition requests_for (url : string) (t : list event) : nat :=
  List.length (List.filter (is_request_for url) t).

Definition responses_for (url : string) (t : list event) : nat :=
  List.length (List.filter (is_response_for url) t).

Definition is_build (e : event) : bool :=
  match e with BuildUids => true | _ => false end.

Definition builds (t : list event) : nat := List.length (List.filter is_build t).

Section WithNetwork.

(** [common_funcs.http_get(url, user, pass)]: performs the authenticated GET
    and returns the decoded JSON body, or raises.  Its answer to the [n]-th
    request of the process ([n] counted from 0) is [http_get n url user
    pass]. *)
Variable http_get : nat -> string -> string -> string -> result jvalue.

(** [str(v)] for a value that is not a string. *)
Variable py_str : jvalue -> string.

Definition call_http_get (url user pass : string) : M world jvalue :=
  fun w =>
    let r := http_get (List.length (requests (trace w))) url user pass in
    (r, mkWorld (self w) (trace w ++ [HttpGet url user pass (is_ok r)])%list).

(** The URL of a topic, lines 133-136. *)
Definition url_of (addr _topic : string) : string :=
  if contains_char ":" addr
  then "https://" ++ addr ++ "/v1/" ++ _topic
  else "https://" ++ addr ++ ":9443/v1/" ++ _topic.

Definition _fetch (_topic : string) : M world jvalue :=
  (w <- get_state ;;
   match cache (self w) !! _topic with
   | Some v => ret v                                   (* return self.cache[_topic] *)
   | None =>
       let url := url_of (addr (self w)) _topic in
       rsp <- call_http_get url (username (self w)) (password (self w)) ;;
       modify (fun w => set_cache (<[_topic := rsp]> (cache (self w))) w) ;;
       ret rsp
   end)%monad.

Definition get (_topic : string) : M world jvalue := _fetch _topic.

(** [filter(lambda x: x[_key] == _value, self._fetch(_topic))]: the call
    fetches and takes the iterator of the resource; the predicate runs when
    the caller consumes the filter object, which is the inner [result]. *)
Definition get_with_value (_topic _key : string) (_value : jvalue)
  : M world (result (list jvalue)) :=
  (rsp <- _fetch _topic ;;
   items <- lift (py_iter rsp) ;;
   ret (filterM (fun x => v <- py_getitem x _key ;; Ok (py_eq v _value))%result items))%monad.

Definition get_value (_topic _key : string) : M world jvalue :=
  (rsp <- _fetch _topic ;;
   lift (py_getitem rsp _key))%monad.

Definition get_values (_topic _key : string) : M world (list jvalue) :=
  (rsp <- _fetch _topic ;;
   items <- lift (py_iter rsp) ;;
   lift (mapM (fun node => py_getitem node _key) items))%monad.

Definition get_number_of_values (_topic : string) : M world nat :=
  (rsp <- _fetch _topic ;;
   lift (py_len_of rsp))%monad.

Definition get_sum_of_values (_topic _key : string) : M world Q :=
  (rsp <- _fetch _topic ;;
   items <- lift (py_iter rsp) ;;
   vs <- lift (mapM (fun node => py_getitem node _key) items) ;;
   qs <- lift (mapM number vs) ;;
   ret (py_sum qs))%monad.

(** [{node['addr']: node['uid'] for node in nodes}]. *)
Fixpoint uids_of (nodes : list jvalue) (d : list (jvalue * jvalue))
  : result (list (jvalue * jvalue)) :=
  match nodes with
  | [] => Ok d
  | node :: rest =>
      (a <- py_getitem node "addr" ;;
       u <- py_getitem node "uid" ;;
       if hashable a then uids_of rest (vdict_set a u d)
       else Raise (TypeError "unhashable type"))%result
  end.

Definition get_uid (_internal_addr : jvalue) : M world jvalue :=
  (w <- get_state ;;
   match uids (self w) with
   | [] =>                                              (* if not self.uids: *)
       nodes <- get "nodes" ;;
       items <- lift (py_iter nodes) ;;
       d <- lift (uids_of items []) ;;
       modify (set_uids d) ;;
       io (modify (fun t => t ++ [BuildUids])%list)
   | _ :: _ => ret tt
   end ;;
   w <- get_state ;;
   lift (vdict_getitem (uids (self w)) _internal_addr))%monad.

Definition check_connection : M world unit :=
  (w <- get_state ;;
   match connected (self w) with
   | Some _ => ret tt                                   (* if self.connected is not None: return *)
   | None =>
       io (Printer.print_msg "checking API connection ...") ;;
       try_except
         (addr <- get_value "cluster" "name" ;;
          io (Printer.print_success ("- successfully connected to " ++ format_value py_str addr)) ;;
          modify (set_connected (Some true)))
         (fun e =>
            io (Printer.print_error "could not connect to Redis Enterprise REST-API:" (Some e)) ;;
            modify (set_connected (Some false))) ;;
       io (Printer.print_msg "")
   end)%monad.

(** The six readers serve a topic from the value [v]: each returns what it
    computes from [v], and leaves the world, trace included, as it was. *)
Definition served_from (_topic : string) (v : jvalue) (w : world) : Prop :=
  get _topic w = (Ok v, w) /\
  (forall k, get_value _topic k w = (py_getitem v k, w)) /\
  (forall k,
     get_values _topic k w
     = ((items <- py_iter v ;; mapM (fun node => py_getitem node k) items)%result, w)) /\
  (forall k x,
     get_with_value _topic k x w
     = ((items <- py_iter v ;;
         Ok (filterM (fun y => u <- py_getitem y k ;; Ok (py_eq u x)) items))%result, w)) /\
  get_number_of_values _topic w = (py_len_of v, w) /\
  (forall k,
     get_sum_of_values _topic k w
     = ((items <- py_iter v ;;
         vs <- mapM (fun node => py_getitem node k) items ;;
         qs <- mapM number vs ;;
         Ok (py_sum qs))%result, w)).

(** A client of the instance: the calls it makes on it, one after the
    other.  A call that raises leaves the instance as the raise found it, and
    the client goes on with the next call. *)
Inductive call : Type :=
| Get (_topic : string)
| GetWithValue (_topic _key : string) (_value : jvalue)
| GetValue (_topic _key : string)
| GetValues (_topic _key : string)
| GetNumberOfValues (_topic : string)
| GetSumOfValues (_topic _key : string)
| GetUid (_internal_addr : jvalue)
| CheckConnection.

Definition run_call (c : call) (w : world) : world :=
  match c with
  | Get t => snd (get t w)
  | GetWithValue t k v => snd (get_with_value t k v w)
  | GetValue t k => snd (get_value t k w)
  | GetValues t k => snd (get_values t k w)
  | GetNumberOfValues t => snd (get_number_of_values t w)
  | GetSumOfValues t k => snd (get_sum_of_values t k w)
  | GetUid a => snd (get_uid a w)
  | CheckConnection => snd (check_connection w)
  end.

Definition run_calls (cs : list call) (w : world) : world :=
  fold_left (fun w c => run_call c w) cs w.

End WithNetwork.

(** *** What a call can do to the world

    Whatever the network answers, a call changes the world only by the
    following steps.  A request is made only for a topic that is not in the
    cache; the index is assigned only when it is empty, from the cached
    [nodes]. *)

Definition emit (e : event) (w : world) : world :=
  mkWorld (self w) (trace w ++ [e])%list.

Inductive step : world -> world -> Prop :=
| step_request_failed w t :
    cache (self w) !! t = None ->
    step w (emit (HttpGet (url_of (addr (self w)) t)
                          (username (self w)) (password (self w)) false) w)
| step_response w t rsp :
    cache (self w) !! t = None ->
    step w (set_cache (<[t := rsp]> (cache (self w)))
              (emit (HttpGet (url_of (addr (self w)) t)
                             (username (self w)) (password (self w)) true) w))
| step_print w f line :
    step w (emit (Print f line) w)
| step_connected w b :
    step w (set_connected b w)
| step_build w nodes items d :
    uids (self w) = [] ->
    cache (self w) !! "nodes" = Some nodes ->
    py_iter nodes = Ok items ->
    uids_of items [] = Ok d ->
    step w (emit BuildUids (set_uids d w)).

Definition steps : world -> world -> Prop := rtc step.

(** The invariant behind the cache: for every topic the trace holds one
    response if the topic is cached, and none if it is not. *)
Definition cache_inv (w : world) : Prop :=
  forall t,
    responses_for (url_of (addr (self w)) t) (trace w)
    = match cache (self w) !! t with Some _ => 1 | None => 0 end.

(** The invariant behind the index: a non-empty index was built once, and
    while the index is empty either no build has happened or the cached
    nodes give an empty index. *)
Definition uids_inv (w : world) : Prop :=
  match uids (self w) with
  | _ :: _ => builds (trace w) = 1
  | [] =>
      builds (trace w) = 0 \/
      exists nodes items,
        cache (self w) !! "nodes" = Some nodes /\
        py_iter nodes = Ok items /\ uids_of items [] = Ok []
  end.

(** *** The wording of the specification on ports

    A host string carries an explicit port when a colon follows the host
    proper: anywhere in a name or an IPv4 address, after the closing bracket
    in a bracketed IPv6 literal. *)

(** What follows the last closing bracket; the whole string when there is
    none. *)
Fixpoint after_bracket (s : string) : string :=
  match s with
  | EmptyString => ""
  | String c s' =>
      if contains_char "]" s' then after_bracket s'
      else if Ascii.eqb c "]" then s' else s
  end.

Definition has_explicit_port (host : string) : bool :=
  contains_char ":" (after_bracket host).

(** *** Sample inputs *)

Definition sample_config : config := mkConfig "cluster.local" "admin" "secret".

Definition no_str : jvalue -> string := fun _ => "".

(** A network that lets the first request time out and answers the later
    ones with one node. *)
Definition flaky_net (n : nat) (url user pass : string) : result jvalue :=
  match n with
  | O => Raise (mkExc "URLError" [JStr "timed out"] (Some (ReasonVal (JStr "timed out"))) None None)
  | S _ => Ok (JArr [JObj [("addr", JStr "10.0.0.1"); ("uid", JNum 1)]])
  end.

(** A cluster that answers every topic, and lists one node. *)
Definition one_node_net (n : nat) (url user pass : string) : result jvalue :=
  if String.eqb url "https://cluster.local:9443/v1/cluster"
  then Ok (JObj [("name", JStr "cluster.local")])
  else Ok (JArr [JObj [("addr", JStr "10.0.0.1"); ("uid", JNum 1)]]).

(** A cluster whose [nodes] topic is the empty list. *)
Definition no_node_net (n : nat) (url user pass : string) : result jvalue :=
  Ok (JArr []).

(** A network on which every request ends with the peer closing the
    connection: [http.client.RemoteDisconnected], an [OSError] built from one
    argument, whose attribute [strerror] exists and is [None]. *)
Definition RemoteDisconnected : pyexc :=
  mkExc "RemoteDisconnected"
        [JStr "Remote end closed connection without response"]
        None (Some JNull) None.

Definition disconnecting_net (n : nat) (url user pass : string) : result jvalue :=
  Raise RemoteDisconnected.

End Api.

(* ================================================================= *)
(** ** [result_renderers]                                             *)
(* ================================================================= *)

(** The first element of an outcome tuple, as far as [render_result] tells
    values apart.  [MException] is the class [Exception] itself; [MInt] and
    [MObject] are the other values a check could put there (a number, an
    exception instance, another class, ...). *)
Inductive marker : Type :=
| MBool (b : bool)
| MNone
| MStr (s : string)
| MException
| MInt (z : Z)
| MObject (name : string).

(** The tuple a check returns: [(marker, info)] or [(marker, info, desc)];
    [desc] is [Some] exactly when [len(_result) == 3]. *)
Record outcome : Type := mkOutcome {
  o_marker : marker;
  o_info : jobject;
  o_desc : option string
}.

(** The check function, of which the renderers read [__doc__].  Every check
    of the suites has a docstring: [__doc__] is a string, and so is the
    description of an outcome that has one. *)
Record check : Type := mkCheck { doc : string }.

(** [_result[0] == ''], [is True], [is False], [is None], [is Exception]. *)
Definition eq_empty_str (m : marker) : bool :=
  match m with MStr s => String.eqb s "" | _ => false end.
Definition is_True (m : marker) : bool :=
  match m with MBool true => true | _ => false end.
Definition is_False (m : marker) : bool :=
  match m with MBool false => true | _ => false end.
Definition is_None (m : marker) : bool :=
  match m with MNone => true | _ => false end.
Definition is_Exception (m : marker) : bool :=
  match m with MException => true | _ => false end.

Definition newline : ascii := ascii_of_nat 10.

(** [s.split('\n')[0]], and also what the group of the pattern
    [Remedy: (.* )] matches at the start of [s]: the characters before the
    first newline. *)
Fixpoint upto_newline (s : string) : string :=
  match s with
  | EmptyString => ""
  | String c s' => if Ascii.eqb c newline then "" else String c (upto_newline s')
  end.

Fixpoint drop (n : nat) (s : string) : string :=
  match n, s with
  | S n', String _ s' => drop n' s'
  | _, _ => s
  end.

(** [re.findall(pattern, s, re.MULTILINE)] for that pattern: the groups of the
    successive matches, left to right.  [skip] characters of [s] belong to
    the previous match. *)
Fixpoint findall_from (skip : nat) (s : string) : list string :=
  match s with
  | EmptyString => []
  | String _ s' =>
      match skip with
      | S n => findall_from n s'
      | O =>
          if String.prefix "Remedy: " s then
            let group := upto_newline (drop 8 s) in
            group :: findall_from (7 + String.length group) s'
          else findall_from 0 s'
      end
  end.

Definition findall_remedy (s : string) : list string := findall_from 0 s.

(** [_result[2] if len(_result) == 3 else _func.__doc__]. *)
Definition doc_text (_result : outcome) (_func : check) : string :=
  match o_desc _result with
  | Some d => d
  | None => doc _func
  end.

Module JsonRenderer.

Section WithDumps.

(** [json.dumps]. *)
Variable json_dumps : jvalue -> string.

(** The dict [to_print] when [render_result] reaches [print], lines 12-33. *)
Definition to_print (_result : outcome) (_func : check) : result jobject :=
  let to_print := [("desc", JStr (upto_newline (doc_text _result _func)))] in
  let remedy : option (list string) := None in
  (st <-
     (if eq_empty_str (o_marker _result) then
        Ok (to_print ++ [("status", JStr "SKIPPED")], remedy)%list
      else if is_True (o_marker _result) then
        Ok (to_print ++ [("status", JStr "SUCCEEDED")], remedy)%list
      else if is_False (o_marker _result) then
        let doc := doc_text _result _func in
        Ok (to_print ++ [("status", JStr "FAILED")], Some (findall_remedy doc))%list
      else if is_None (o_marker _result) then
        Ok (to_print ++ [("status", JStr "NO RESULT")], remedy)%list
      else if is_Exception (o_marker _result) then
        Ok (to_print ++ [("status", JStr "ERROR")], remedy)%list
      else Raise NotImplementedError) ;;
   let '(to_print, remedy) := st in
   let to_print :=
     match remedy with
     | Some (r :: _) => (to_print ++ [("remedy", JStr r)])%list    (* if remedy: *)
     | _ => to_print
     end in
   Ok (to_print ++ [("info", JObj (o_info _result))])%list)%result.

Definition render_result (_result : outcome) (_func : check) : M (list event) unit :=
  (to_print <- lift (to_print _result _func) ;;
   print Stdout (json_dumps (JObj to_print)))%monad.

End WithDumps.

End JsonRenderer.

Module BasicRenderer.

Section WithStr.

Variable py_str : jvalue -> string.

(** The list [to_print] when [render_result] reaches [print], lines 13-35. *)
Definition to_print (_result : outcome) (_func : check) : result (list string) :=
  let doc := upto_newline (doc_text _result _func) in
  let remedy : option (list string) := None in
  (st <-
     (if eq_empty_str (o_marker _result) then
        Ok (["[ ]"; doc; "[SKIPPED]"], remedy)
      else if is_True (o_marker _result) then
        Ok ([Color.green "[+]"; doc; Color.green "[SUCCEEDED]"], remedy)
      else if is_False (o_marker _result) then
        let to_print := [Color.red "[-]"; doc; Color.red "[FAILED]"] in
        let doc := doc_text _result _func in
        Ok (to_print, Some (findall_remedy doc))
      else if is_None (o_marker _result) then
        Ok ([Color.yellow "[~]"; doc; Color.yellow "[NO RESULT]"], remedy)
      else if is_Exception (o_marker _result) then
        Ok ([Color.magenta "[*]"; doc; Color.magenta "[ERROR]"], remedy)
      else Raise NotImplementedError) ;;
   let '(to_print, remedy) := st in
   let to_print :=
     (to_print ++
      [join ", " (map (fun kv => (fst kv ++ ": " ++ format_value py_str (snd kv))%string)
                      (o_info _result))])%list in
   match remedy with
   | Some (r :: _) => Ok (to_print ++ [join " " [Color.cyan "Remedy:"; r]])%list
   | _ => Ok to_print
   end)%result.

(** ['{} {} {} {} {}'.format( *to_print)], or the same with four fields. *)
Definition render_result (_result : outcome) (_func : check) : M (list event) unit :=
  (to_print <- lift (to_print _result _func) ;;
   print Stdout (join " " to_print))%monad.

End WithStr.

End BasicRenderer.

(** *** The status enumeration of the specification *)

Inductive status : Type := Succeeded | Failed | NoResult | Skipped | Errored.

(** Status normalization as the specification words it: boolean true,
    boolean false, the absent boolean, the empty marker, the error marker;
    no status for another marker. *)
Definition normalize (m : marker) : option status :=
  match m with
  | MBool true => Some Succeeded
  | MBool false => Some Failed
  | MNone => Some NoResult
  | MStr "" => Some Skipped
  | MException => Some Errored
  | _ => None
  end.

(** How each renderer writes a status. *)
Definition json_status (st : status) : string :=
  match st with
  | Succeeded => "SUCCEEDED"
  | Failed => "FAILED"
  | NoResult => "NO RESULT"
  | Skipped => "SKIPPED"
  | Errored => "ERROR"
  end.

Definition basic_status (st : status) : string :=
  match st with
  | Succeeded => Color.green "[SUCCEEDED]"
  | Failed => Color.red "[FAILED]"
  | NoResult => Color.yellow "[NO RESULT]"
  | Skipped => "[SKIPPED]"
  | Errored => Color.magenta "[ERROR]"
  end.

(** The text has a line with [Remedy: ] in it. *)
Definition has_remedy_line (text : string) : Prop :=
  exists pre post, text = pre ++ "Remedy: " ++ post.

(** [pre] is where the first [Remedy: ] of the text starts. *)
Definition first_remedy_at (pre post text : string) : Prop :=
  text = pre ++ "Remedy: " ++ post /\
  forall pre' post', text = pre' ++ "Remedy: " ++ post' ->
                     String.length pre <= String.length pre'.

(** The remedy a rendering carries, if any: the key [remedy] of the JSON
    object, the fifth field of the text line. *)
Definition json_remedy (to_print : jobject) : option jvalue :=
  dict_get "remedy" to_print.

Definition basic_remedy (to_print : list string) : option string :=
  nth_error to_print 4.

Definition basic_glyph (st : status) : string :=
  match st with
  | Succeeded => Color.green "[+]"
  | Failed => Color.red "[-]"
  | NoResult => Color.yellow "[~]"
  | Skipped => "[ ]"
  | Errored => Color.magenta "[*]"
  end.

(** The remedy of a rendering: [remedy[0]] when the status is Failed and
    [re.findall] found something, nothing otherwise. *)
Definition remedy_of (st : status) (text : string) : option string :=
  match st with
  | Failed => hd_error (findall_remedy text)
  | _ => None
  end.

(** *** Sample inputs *)

Definition nl : string := String newline "".

(** The docstring of [check_databases_config_001], first line and remedy
    line. *)
Definition dc_001 : check :=
  mkCheck ("DC-001: Check database configuration." ++ nl ++ nl ++
           "        Remedy: Adapt your database configuration in the UI or per REST-API." ++ nl).

(** A check whose documentation has the remedy line of the specification's
    example. *)
Definition shard_check : check :=
  mkCheck ("check shard placement" ++ nl ++ nl ++ "Remedy: move shards" ++ nl).

(** A check without a remedy line. *)
Definition plain_check : check := mkCheck "check open TCP ports of each node".

(* ================================================================= *)
(** ** Further embedded code                                          *)
(* ================================================================= *)

(** *** The other min/avg/max/dev blocks *)

Module MoreStats.

Import Stats.

(** The statements every block shares, for the sample [S] it reads three
    times and the count [n] of the filtered records. *)
Definition aggregate (F : arith) (S : result (list Q)) (n : Q) : result stats :=
  (xs <- S ;;
   minimum <- py_min xs ;;
   ys <- S ;;
   total <- f_sum F ys ;;
   average <- py_div F total n ;;
   zs <- S ;;
   maximum <- py_max zs ;;
   q_sum <- reduce_q_sum F average ys ;;
   arg <- py_div F q_sum n ;;
   std_dev <- f_sqrt F arg ;;
   Ok (mkStats minimum average maximum std_dev))%result.

(** [[i[field] for i in filter(lambda i: i.get(field), ints)]], read as
    numbers. *)
Definition field_sample (field : string) (ints : list jobject) : result (list Q) :=
  mapM (fun i => v <- dict_getitem i field ;; number v)%result
       (filtered field ints).

(** A block whose sample is the field itself. *)
Definition field_stats (F : arith) (field : string) (ints : list jobject) : result stats :=
  aggregate F (field_sample field ints) (py_len (filtered field ints)).

(** [suite_databases.py], [check_databases_usage_002], lines 297-312: the
    block of lines 245-260 with [used_memory] for [total_req]. *)
Definition check_databases_usage_002_stats (F : arith) : list jobject -> result stats :=
  field_stats F "used_memory".

(** [suite_nodes.py], [check_ram_usage], lines 243-259. *)
Definition check_ram_usage_stats (F : arith) : list jobject -> result stats :=
  field_stats F "free_memory".

(** [suite_nodes.py], [check_ephemeral_storage_usage], lines 288-309. *)
Definition check_ephemeral_storage_usage_stats (F : arith) : list jobject -> result stats :=
  field_stats F "ephemeral_storage_avail".

(** [suite_nodes.py], [check_persistent_storage_usage], lines 336-357. *)
Definition check_persistent_storage_usage_stats (F : arith) : list jobject -> result stats :=
  field_stats F "persistent_storage_avail".

(** The six blocks, each with its sample and the field it filters on. *)
Inductive block : Type :=
| TotalReq | UsedMemory | CpuUsage | FreeMemory | EphemeralAvail | PersistentAvail.

Definition block_stats (F : arith) (b : block) : list jobject -> result stats :=
  match b with
  | TotalReq => check_databases_usage_001_stats F
  | UsedMemory => check_databases_usage_002_stats F
  | CpuUsage => check_cpu_usage_stats F
  | FreeMemory => check_ram_usage_stats F
  | EphemeralAvail => check_ephemeral_storage_usage_stats F
  | PersistentAvail => check_persistent_storage_usage_stats F
  end.

Definition block_field (b : block) : string :=
  match b with
  | TotalReq => "total_req"
  | UsedMemory => "used_memory"
  | CpuUsage => "cpu_idle"
  | FreeMemory => "free_memory"
  | EphemeralAvail => "ephemeral_storage_avail"
  | PersistentAvail => "persistent_storage_avail"
  end.

Definition block_sample (F : arith) (b : block) (ints : list jobject) : result (list Q) :=
  match b with
  | CpuUsage => cpu_usage_sample F ints
  | _ => field_sample (block_field b) ints
  end.

(** The value a record holds under the field is a number. *)
Definition numeric_field (field : string) (r : jobject) : Prop :=
  exists v q, dict_get field r = Some v /\ number v = Ok q.

End MoreStats.

(** *** Reading the client's results *)

Module ApiSpec.

(** The number of GET requests made so far. *)
Definition n_requests (w : Api.world) : nat :=
  List.length (Api.requests (Api.trace w)).

(** [w'] has at most one request more than [w]. *)
Definition at_most_one_more (w w' : Api.world) : Prop :=
  exists k, k <= 1 /\ n_requests w' = n_requests w + k.

(** A node as the REST API lists it: an object with a string [addr] and a
    [uid]. *)
Definition addressed (node : jvalue) : Prop :=
  exists a u, py_getitem node "addr" = Ok (JStr a) /\ py_getitem node "uid" = Ok u.

(** The uid of the last node of the list whose [addr] is [a]. *)
Fixpoint uid_of_addr (a : string) (nodes : list jvalue) : option jvalue :=
  match nodes with
  | [] => None
  | node :: rest =>
      match uid_of_addr a rest with
      | Some u => Some u
      | None =>
          match py_getitem node "addr", py_getitem node "uid" with
          | Ok (JStr b), Ok u => if String.eqb b a then Some u else None
          | _, _ => None
          end
      end
  end.

(** A [dict] all of whose keys are strings. *)
Definition string_keyed (d : list (jvalue * jvalue)) : Prop :=
  Forall (fun kv => exists b, fst kv = JStr b) d.


End ApiSpec.

(** A stand-in for [json.dumps] and [str] on sample inputs whose rendering
    does not depend on them. *)
Definition no_dumps : jvalue -> string := fun _ => "".

(** *** The detail of an error message

    Where [print_error] takes the detail from, by precedence: the attribute
    [reason] when the exception has one (the reason itself when it is a
    string, its attribute [strerror] otherwise), else the attribute
    [strerror], else the attribute [stderr], else the first of [args].
    [None] when what is looked up is missing. *)
Module PrinterSpec.

Definition reason_detail (reason : exc_reason_t) : option jvalue :=
  match reason with
  | ReasonVal (JStr s) => Some (JStr s)
  | ReasonVal _ => None
  | ReasonErr strerror => strerror
  end.

Definition detail (ex : pyexc) : option jvalue :=
  match exc_reason ex, exc_strerror ex, exc_stderr ex with
  | Some reason, _, _ => reason_detail reason
  | None, Some v, _ => Some v
  | None, None, Some v => Some v
  | None, None, None => hd_error (exc_args ex)
  end.

(** An [OSError] raised with an error number and a text. *)
Definition connection_refused : pyexc :=
  mkExc "ConnectionRefusedError" [JNum 111; JStr "Connection refused"]
        None (Some (JStr "Connection refused")) None.

End PrinterSpec.

(** *** Checks of the suites that use the client alone *)

(** [all(vs)] and [any(vs)]. *)
Definition py_all (vs : list jvalue) : bool := forallb truthy vs.
Definition py_any (vs : list jvalue) : bool := existsb truthy vs.

(** [v[0]]. *)
Definition py_index0 (v : jvalue) : result jvalue :=
  match v with
  | JArr (x :: _) => Ok x
  | JArr [] => Raise (IndexError "list index out of range")
  | JStr (String c _) => Ok (JStr (String c ""))
  | JStr EmptyString => Raise (IndexError "string index out of range")
  | JObj _ => Raise (KeyError (JNum 0))
  | _ => Raise (TypeError "object is not subscriptable")
  end.

(** [s.split(sep)] for a one-character separator. *)
Fixpoint split_on (sep : ascii) (s : string) : list string :=
  match s with
  | EmptyString => [""]
  | String c s' =>
      if Ascii.eqb c sep then "" :: split_on sep s'
      else match split_on sep s' with
           | p :: ps => String c p :: ps
           | [] => [String c ""]
           end
  end.

(** [v.split('@')[1]]: only a [str] has [split]. *)
Definition after_at (v : jvalue) : result string :=
  match v with
  | JStr s =>
      match nth_error (split_on "@" s) 1 with
      | Some part => Ok part
      | None => Raise (IndexError "list index out of range")
      end
  | _ => Raise (AttributeError "object has no attribute 'split'")
  end.

(** [d[k] = v] on a [dict] with string keys: the value of an existing key
    is replaced where it stands, a new key goes to the end. *)
Fixpoint dict_set {A} (k : string) (v : A) (d : list (string * A)) : list (string * A) :=
  match d with
  | [] => [(k, v)]
  | (k', v') :: d' => if String.eqb k' k then (k', v) :: d' else (k', v') :: dict_set k v d'
  end.

(** The same on a [dict] whose keys are values and whose values are of any
    type. *)
Fixpoint kdict_get {A} (k : jvalue) (d : list (jvalue * A)) : option A :=
  match d with
  | [] => None
  | (k', v) :: d' => if py_eq k' k then Some v else kdict_get k d'
  end.

Fixpoint kdict_set {A} (k : jvalue) (v : A) (d : list (jvalue * A)) : list (jvalue * A) :=
  match d with
  | [] => [(k, v)]
  | (k', v') :: d' => if py_eq k' k then (k', v) :: d' else (k', v') :: kdict_set k v d'
  end.

(** A key of a [dict] must be hashable. *)
Definition as_key (v : jvalue) : result jvalue :=
  if hashable v then Ok v else Raise (TypeError "unhashable type").

Module Checks.

(** What a check returns: [(marker, info)] or [(marker, info, desc)]. *)
Record report : Type := mkReport {
  r_marker : marker;
  r_info : list (jvalue * jvalue);
  r_desc : option string
}.

(** A filter object, like every object without [__bool__] and [__len__], is
    truthy. *)
Definition filter_object_truthy : bool := true.

Section WithNetwork.

Variable http_get : nat -> string -> string -> string -> result jvalue.
Variable py_str : jvalue -> string.

(** [int(v)]. *)
Variable py_int : jvalue -> result jvalue.

(** **** [suite_nodes.py], [check_software_version], lines 36-42 *)

(** [{f'node:{node_id}': software_version for node_id, software_version in
    zip(node_ids, software_versions)}]. *)
Definition node_kwargs (pairs : list (jvalue * jvalue)) : list (jvalue * jvalue) :=
  fold_left
    (fun d p => vdict_set (JStr ("node:" ++ format_value py_str (fst p))) (snd p) d)
    pairs [].

Definition check_software_version : M Api.world report :=
  (node_ids <- Api.get_values http_get "nodes" "uid" ;;
   software_versions <- Api.get_values http_get "nodes" "software_version" ;;
   let kwargs := node_kwargs (combine node_ids software_versions) in
   ret (mkReport MNone kwargs None))%monad.

(** **** [suite_databases.py], [check_databases_config_001], lines 20-56

    [_params] is [None] or a parameter map: a [dict] from [__default__] and
    from names of databases to [dict]s of expected values. *)

(** [common_funcs.to_gb]. *)
Variable to_gb : jvalue -> result jvalue.

(** The tuple appended for a database when no parameters are passed. *)
Definition show_config (bdb : jvalue) : result report :=
  (uid <- py_getitem bdb "uid" ;;
   memory_size <- py_getitem bdb "memory_size" ;;
   gb <- to_gb memory_size ;;
   shards_count <- py_getitem bdb "shards_count" ;;
   replication <- py_getitem bdb "replication" ;;
   oss_cluster <- py_getitem bdb "oss_cluster" ;;
   crdt <- py_getitem bdb "crdt" ;;
   name <- py_getitem bdb "name" ;;
   Ok (mkReport MNone
         [(JStr "uid", uid);
          (JStr "memory limit", JStr (format_value py_str gb ++ " GB"));
          (JStr "master shards", shards_count);
          (JStr "HA", replication);
          (JStr "OSS cluster", oss_cluster);
          (JStr "CRDB", crdt)]
         (Some ("DC-001: Get configuration of '" ++ format_value py_str name ++ "'."))))%result.

(** [values.update(other)]. *)
Definition dict_update (values other : jobject) : jobject :=
  fold_left (fun d kv => dict_set (fst kv) (snd kv) d) other values.

(** [values = dict(_params['__default__'])], updated with
    [_params[bdb['name']]] if [bdb['name'] in _params]; the keys of
    [_params] are strings, so that only a string can be among them. *)
Definition expected_values (_params : list (string * jobject)) (bdb : jvalue)
  : result jobject :=
  (values <- match dict_get "__default__" _params with
             | Some d => Ok d
             | None => Raise (KeyError (JStr "__default__"))
             end ;;
   name <- py_getitem bdb "name" ;;
   key <- as_key name ;;
   match key with
   | JStr s =>
       match dict_get s _params with
       | Some other => Ok (dict_update values other)
       | None => Ok values
       end
   | _ => Ok values
   end)%result.

(** The loop over [values.items()]. *)
Fixpoint deviations (bdb : jvalue) (values info : jobject) : result jobject :=
  match values with
  | [] => Ok info
  | (k, v) :: rest =>
      (actual <- py_getitem bdb k ;;
       if py_eq v actual then deviations bdb rest info
       else
         actual <- py_getitem bdb k ;;
         deviations bdb rest (dict_set k actual info))%result
  end.

(** The tuple appended for a database when parameters are passed. *)
Definition compare_config (_params : list (string * jobject)) (bdb : jvalue)
  : result report :=
  (values <- expected_values _params bdb ;;
   info <- deviations bdb values [] ;;
   name <- py_getitem bdb "name" ;;
   Ok (mkReport (MBool (match info with [] => true | _ :: _ => false end))
         (map (fun kv => (JStr (fst kv), snd kv)) info)
         (Some ("check configuration of '" ++ format_value py_str name ++ "'"))))%result.

Definition check_databases_config_001 (_params : option (list (string * jobject)))
  : M Api.world (list report) :=
  (bdbs <- Api.get http_get "bdbs" ;;
   items <- lift (py_iter bdbs) ;;
   match _params with
   | None | Some [] =>                                  (* if not _params *)
       lift (mapM show_config items)
   | Some ((_ :: _) as _params) =>
       lift (mapM (compare_config _params) items)
   end)%monad.

(** **** [suite_databases.py], [check_databases_config_003], lines 76-111 *)

(** The predicate of [endpoint_nodes]:
    [node['addr'] == bdb['endpoints'][0]['addr'][0] and node['uid']]. *)
Definition on_endpoint (bdb node : jvalue) : result bool :=
  (addr <- py_getitem node "addr" ;;
   endpoints <- py_getitem bdb "endpoints" ;;
   endpoint <- py_index0 endpoints ;;
   endpoint_addr <- py_getitem endpoint "addr" ;;
   endpoint_addr0 <- py_index0 endpoint_addr ;;
   if py_eq addr endpoint_addr0 then
     uid <- py_getitem node "uid" ;;
     Ok (truthy uid)
   else Ok false)%result.

(** What [list(map(..., filter(..., filter(..., shards))))] does with one
    shard: the filters and the map are lazy, so each shard goes through the
    two predicates and the formatting before the next one is looked at.

    [master_shards]: [shard['bdb_uid'] == bdb['uid'] and shard['role'] == 'master'];
    [shards_not_on_endpoint]: [int(shard['node_uid']) != endpoint_nodes[0]['uid']];
    [result]: ['shard:{}'.format(shard['uid'])]. *)
Definition shard_off_endpoint (bdb endpoint_node shard : jvalue)
  : result (option jvalue) :=
  (bdb_uid <- py_getitem shard "bdb_uid" ;;
   uid <- py_getitem bdb "uid" ;;
   is_master <- (if py_eq bdb_uid uid then
                   role <- py_getitem shard "role" ;;
                   Ok (py_eq role (JStr "master"))
                 else Ok false) ;;
   if (is_master : bool) then
     node_uid <- py_getitem shard "node_uid" ;;
     node_uid <- py_int node_uid ;;
     endpoint_uid <- py_getitem endpoint_node "uid" ;;
     if negb (py_eq node_uid endpoint_uid) then
       shard_uid <- py_getitem shard "uid" ;;
       Ok (Some (JStr ("shard:" ++ format_value py_str shard_uid)))
     else Ok None
   else Ok None)%result.

Fixpoint shards_off_endpoint (bdb endpoint_node : jvalue) (shards : list jvalue)
  : result (list jvalue) :=
  match shards with
  | [] => Ok []
  | shard :: rest =>
      (line <- shard_off_endpoint bdb endpoint_node shard ;;
       lines <- shards_off_endpoint bdb endpoint_node rest ;;
       Ok (match line with Some l => l :: lines | None => lines end))%result
  end.

(** [info[bdb['name']] = value], the value being computed already. *)
Definition note (bdb value : jvalue) (info : list (jvalue * jvalue))
  : result (list (jvalue * jvalue)) :=
  (name <- py_getitem bdb "name" ;;
   key <- as_key name ;;
   Ok (vdict_set key value info))%result.

(** The body of the loop, for one dense database. *)
Definition dense_body (nodes bdb : jvalue) (info : list (jvalue * jvalue))
  : M Api.world (list (jvalue * jvalue)) :=
  (proxy_policy <- lift (py_getitem bdb "proxy_policy") ;;
   if negb (py_eq proxy_policy (JStr "single")) then
     lift (proxy_policy <- py_getitem bdb "proxy_policy" ;;
           note bdb (JStr ("proxy policy set to '" ++ format_value py_str proxy_policy
                           ++ "' instead of 'single'")) info)%result
   else
     node_items <- lift (py_iter nodes) ;;
     endpoint_nodes <- lift (filterM (on_endpoint bdb) node_items) ;;
     match endpoint_nodes with
     | [] => lift (note bdb (JStr "no endpoint node found") info)
     | endpoint_node :: _ =>
         shards <- Api.get http_get "shards" ;;
         shard_items <- lift (py_iter shards) ;;
         result <- lift (shards_off_endpoint bdb endpoint_node shard_items) ;;
         match result with
         | [] => ret info
         | _ :: _ => lift (note bdb (JArr result) info)
         end
     end)%monad.

(** The loop over [dense_bdbs], a filter object: the predicate
    [x['shards_placement'] == 'dense'] runs on a database when the loop
    comes to it. *)
Fixpoint dense_loop (nodes : jvalue) (bdbs : list jvalue) (info : list (jvalue * jvalue))
  : M Api.world (list (jvalue * jvalue)) :=
  match bdbs with
  | [] => ret info
  | bdb :: rest =>
      (shards_placement <- lift (py_getitem bdb "shards_placement") ;;
       info <- (if py_eq shards_placement (JStr "dense")
                then dense_body nodes bdb info
                else ret info) ;;
       dense_loop nodes rest info)%monad
  end.

(** [dense_bdbs] is a filter object, so [not dense_bdbs] is false and the
    early return is never taken. *)
Definition check_databases_config_003 : M Api.world report :=
  (nodes <- Api.get http_get "nodes" ;;
   bdbs <- Api.get http_get "bdbs" ;;
   dense_bdbs <- lift (py_iter bdbs) ;;
   if negb filter_object_truthy then ret (mkReport (MStr "") [] None)
   else
     info <- dense_loop nodes dense_bdbs [] ;;
     ret (mkReport (MBool (negb (py_any (map snd info)))) info None))%monad.

(** **** [suite_databases.py], [check_database_config_004], lines 113-121 *)

(** [{bdb['name']: bdb['module_list'] or None for bdb in bdbs}]. *)
Fixpoint modules_info (bdbs : list jvalue) (info : list (jvalue * jvalue))
  : result (list (jvalue * jvalue)) :=
  match bdbs with
  | [] => Ok info
  | bdb :: rest =>
      (name <- py_getitem bdb "name" ;;
       module_list <- py_getitem bdb "module_list" ;;
       key <- as_key name ;;
       modules_info rest
         (vdict_set key (if truthy module_list then module_list else JNull) info))%result
  end.

Definition check_database_config_004 : M Api.world report :=
  (bdbs <- Api.get http_get "bdbs" ;;
   items <- lift (py_iter bdbs) ;;
   info <- lift (modules_info items []) ;;
   ret (mkReport MNone info None))%monad.

(** **** [suite_databases.py], [check_databases_config_002], lines 58-74 *)

(** The loop over [filter(lambda x: x['oss_cluster'], bdbs)].  In
    [info[bdb['name']] = a and b] the right side is evaluated first, and
    [b] only when [a] holds. *)
Fixpoint oss_info (bdbs : list jvalue) (info : list (jvalue * jvalue))
  : result (list (jvalue * jvalue)) :=
  match bdbs with
  | [] => Ok info
  | bdb :: rest =>
      (oss_cluster <- py_getitem bdb "oss_cluster" ;;
       if truthy oss_cluster then
         shards_placement <- py_getitem bdb "shards_placement" ;;
         ok <- (if py_eq shards_placement (JStr "sparse") then
                  proxy_policy <- py_getitem bdb "proxy_policy" ;;
                  Ok (py_eq proxy_policy (JStr "all-master-shards"))
                else Ok false) ;;
         name <- py_getitem bdb "name" ;;
         key <- as_key name ;;
         oss_info rest (vdict_set key (JBool ok) info)
       else oss_info rest info)%result
  end.

(** [all(info.values()) if info.values() else '']. *)
Definition all_or_skip (info : list (jvalue * jvalue)) : marker :=
  match info with
  | [] => MStr ""
  | _ :: _ => MBool (py_all (map snd info))
  end.

Definition check_databases_config_002 : M Api.world report :=
  (bdbs <- Api.get http_get "bdbs" ;;
   items <- lift (py_iter bdbs) ;;
   info <- lift (oss_info items []) ;;
   ret (mkReport (all_or_skip info) info None))%monad.

(** **** [suite_databases.py], [check_databases_status_001] (lines 123-151)
    and [check_databases_status_002] (lines 153-181)

    The two differ in the keys they read: [replica_sources] and
    [replica_sync], [crdt_sources] and [crdt_sync]. *)

(** The loop over the sources of one database.  In
    [info[bdb['name']][address] = {...}] the dict on the right is built
    first, then [info[bdb['name']]] is looked up. *)
Fixpoint sources_loop (bdb : jvalue) (sources : list jvalue)
    (info : list (jvalue * jobject)) : result (list (jvalue * jobject)) :=
  match sources with
  | [] => Ok info
  | source :: rest =>
      (uri <- py_getitem source "uri" ;;
       address <- after_at uri ;;
       status <- py_getitem source "status" ;;
       lag <- py_getitem source "lag" ;;
       compression <- py_getitem source "compression" ;;
       name <- py_getitem bdb "name" ;;
       key <- as_key name ;;
       match kdict_get key info with
       | None => Raise (KeyError key)
       | Some entry =>
           let value := JObj [("status", status); ("lag", lag);
                              ("compression", compression)] in
           sources_loop bdb rest (kdict_set key (dict_set address value entry) info)
       end)%result
  end.

Fixpoint sources_info (sources_key sync_key : string) (bdbs : list jvalue)
    (info : list (jvalue * jobject)) : result (list (jvalue * jobject)) :=
  match bdbs with
  | [] => Ok info
  | bdb :: rest =>
      (sources <- py_getitem bdb sources_key ;;
       info <- (if truthy sources then
                  sync <- py_getitem bdb sync_key ;;
                  name <- py_getitem bdb "name" ;;
                  key <- as_key name ;;
                  Ok (kdict_set key [(sync_key, sync)] info)
                else Ok info) ;;
       items <- py_iter sources ;;
       info <- sources_loop bdb items info ;;
       sources_info sources_key sync_key rest info)%result
  end.

(** [all(filter(lambda x: x[0] == 'in-sync', map(lambda x: list(x.values()),
    info.values()))) if info else '']. *)
Definition in_sync_marker (info : list (jvalue * jobject)) : result marker :=
  match info with
  | [] => Ok (MStr "")
  | _ :: _ =>
      (kept <- filterM (fun x => x0 <- py_index0 x ;; Ok (py_eq x0 (JStr "in-sync")))
                       (map (fun kv => JArr (map snd (snd kv))) info) ;;
       Ok (MBool (py_all kept)))%result
  end.

Definition check_sources (sources_key sync_key : string) : M Api.world report :=
  (bdbs <- Api.get http_get "bdbs" ;;
   items <- lift (py_iter bdbs) ;;
   info <- lift (sources_info sources_key sync_key items []) ;;
   marker <- lift (in_sync_marker info) ;;
   ret (mkReport marker (map (fun kv => (fst kv, JObj (snd kv))) info) None))%monad.

Definition check_databases_status_001 : M Api.world report :=
  check_sources "replica_sources" "replica_sync".

Definition check_databases_status_002 : M Api.world report :=
  check_sources "crdt_sources" "crdt_sync".

(** **** [suite_databases.py], [check_databases_usage_001] (lines 227-277)
    and [check_databases_usage_002] (lines 279-327)

    The two differ in the block that aggregates the intervals, in the limits
    the maximum is compared with, in the function that formats the numbers
    and in the text of the description. *)

(** What [format] inserts for [to_kops(x)] and for [to_gb(x)], [x] being
    one of the four numbers of a block ([common_funcs.to_kops] and
    [common_funcs.to_gb]); [common_funcs.GB]. *)
Variable kops_text : Q -> string.
Variable gb_text : Q -> string.
Variable GB : Q.

(** The arithmetic of the blocks. *)
Variable F : arith.

(** [bdb['name']], as the key of a [dict]. *)
Definition name_key (bdb : jvalue) : result jvalue :=
  (name <- py_getitem bdb "name" ;; as_key name)%result.

(** [d[key]] on a [dict] whose keys are values. *)
Definition kdict_getitem {A} (d : list (jvalue * A)) (key : jvalue) : result A :=
  match kdict_get key d with
  | Some v => Ok v
  | None => Raise (KeyError key)
  end.

(** The intervals as the block reads them: the first statement of the block
    calls [i.get] on every item of [ints], which only a [dict] has. *)
Definition as_interval (i : jvalue) : result jobject :=
  match i with
  | JObj d => Ok d
  | _ => Raise (AttributeError "object has no attribute 'get'")
  end.

Definition as_intervals (ints : jvalue) : result (list jobject) :=
  (items <- py_iter ints ;; mapM as_interval items)%result.

(** Lines 262-267: [maximum > 5000], [maximum > 17500], [maximum > 25000]. *)
Definition throughput_exceeded (bdb : jvalue) (maximum : Q) : result bool :=
  (bigstore <- py_getitem bdb "bigstore" ;;
   if truthy bigstore then Ok (negb (Qle_bool maximum 5000))
   else
     crdt_sync <- py_getitem bdb "crdt_sync" ;;
     if negb (py_eq crdt_sync (JStr "disabled")) then Ok (negb (Qle_bool maximum 17500))
     else Ok (negb (Qle_bool maximum 25000)))%result.

(** Lines 314-317: [maximum > (50 * GB)], [maximum > (25 * GB)]. *)
Definition memory_exceeded (bdb : jvalue) (maximum : Q) : result bool :=
  (bigstore <- py_getitem bdb "bigstore" ;;
   if truthy bigstore then Ok (negb (Qle_bool maximum (50 * GB)))
   else Ok (negb (Qle_bool maximum (25 * GB))))%result.

(** ['{}/{}/{}/{} Kops'.format(to_kops(minimum), to_kops(average),
    to_kops(maximum), to_kops(std_dev))], and the same with [to_gb]. *)
Definition kops_line (s : Stats.stats) : string :=
  kops_text (Stats.minimum s) ++ "/" ++ kops_text (Stats.average s) ++ "/" ++
  kops_text (Stats.maximum s) ++ "/" ++ kops_text (Stats.std_dev s) ++ " Kops".

Definition gb_line (s : Stats.stats) : string :=
  gb_text (Stats.minimum s) ++ "/" ++ gb_text (Stats.average s) ++ "/" ++
  gb_text (Stats.maximum s) ++ "/" ++ gb_text (Stats.std_dev s) ++ " GB".

Section Usage.

Variable block : list jobject -> result Stats.stats.
Variable exceeded : jvalue -> Q -> result bool.
Variable line : Stats.stats -> string.
Variable desc : string -> string.

(** The body of the inner loop, for one shard of a database. *)
Definition usage_shard (bdb shard_uid : jvalue)
    (results : list (jvalue * bool)) (info : list (jvalue * jobject))
  : M Api.world (list (jvalue * bool) * list (jvalue * jobject)) :=
  (shard_stats <- Api.get http_get ("shards/stats/" ++ format_value py_str shard_uid) ;;
   ints <- lift (py_getitem shard_stats "intervals") ;;
   ints <- lift (as_intervals ints) ;;
   s <- lift (block ints) ;;
   result <- lift (exceeded bdb (Stats.maximum s)) ;;
   (* results[bdb['name']] = result *)
   key <- lift (name_key bdb) ;;
   let results := kdict_set key result results in
   (* if bdb['name'] not in info: info[bdb['name']] = {} *)
   key <- lift (name_key bdb) ;;
   info <- match kdict_get key info with
           | Some _ => ret info
           | None => key <- lift (name_key bdb) ;; ret (kdict_set key [] info)
           end ;;
   (* info[bdb['name']][f'shard:{shard_uid} ({shard_stats["role"]})'] = '...'.format(...) *)
   let text := line s in
   key <- lift (name_key bdb) ;;
   entry <- lift (kdict_getitem info key) ;;
   role <- lift (py_getitem shard_stats "role") ;;
   let shard_name :=
     "shard:" ++ format_value py_str shard_uid ++ " (" ++ format_value py_str role ++ ")" in
   ret (results, kdict_set key (dict_set shard_name (JStr text) entry) info))%monad.

Fixpoint usage_shards (bdb : jvalue) (shard_uids : list jvalue)
    (results : list (jvalue * bool)) (info : list (jvalue * jobject))
  : M Api.world (list (jvalue * bool) * list (jvalue * jobject)) :=
  match shard_uids with
  | [] => ret (results, info)
  | shard_uid :: rest =>
      (st <- usage_shard bdb shard_uid results info ;;
       usage_shards bdb rest (fst st) (snd st))%monad
  end.

Fixpoint usage_bdbs (bdbs : list jvalue)
    (results : list (jvalue * bool)) (info : list (jvalue * jobject))
  : M Api.world (list (jvalue * bool) * list (jvalue * jobject)) :=
  match bdbs with
  | [] => ret (results, info)
  | bdb :: rest =>
      (shard_list <- lift (py_getitem bdb "shard_list") ;;
       shard_uids <- lift (py_iter shard_list) ;;
       st <- usage_shards bdb shard_uids results info ;;
       usage_bdbs rest (fst st) (snd st))%monad
  end.

(** One tuple of the list that is returned:
    [(not results[bdb['name']], info[bdb['name']], f"...'{bdb['name']}'...")]. *)
Definition usage_result (results : list (jvalue * bool)) (info : list (jvalue * jobject))
    (bdb : jvalue) : result report :=
  (key <- name_key bdb ;;
   result <- kdict_getitem results key ;;
   key <- name_key bdb ;;
   entry <- kdict_getitem info key ;;
   name <- py_getitem bdb "name" ;;
   Ok (mkReport (MBool (negb result))
         (map (fun kv => (JStr (fst kv), snd kv)) entry)
         (Some (desc (format_value py_str name)))))%result.

Definition usage_check : M Api.world (list report) :=
  (bdbs <- Api.get http_get "bdbs" ;;
   items <- lift (py_iter bdbs) ;;
   st <- usage_bdbs items [] [] ;;
   lift (mapM (usage_result (fst st) (snd st)) items))%monad.

End Usage.

Definition check_databases_usage_001 : M Api.world (list report) :=
  usage_check (Stats.check_databases_usage_001_stats F) throughput_exceeded kops_line
    (fun name => "DU-001: Check throughput of '" ++ name ++ "' (min/avg/max/dev).").

Definition check_databases_usage_002 : M Api.world (list report) :=
  usage_check (MoreStats.check_databases_usage_002_stats F) memory_exceeded gb_line
    (fun name => "DU-002: Check memory usage of '" ++ name ++ "' (min/avg/max/dev).").

End WithNetwork.

End Checks.

(** *** Reading the checks' results *)

Module CheckSpec.

(** The field of a database is there and truthy. *)
Definition truthy_field (field : string) (bdb : jvalue) : Prop :=
  exists v, py_getitem bdb field = Ok v /\ truthy v = true.

(** A database has the OSS cluster API enabled. *)
Definition oss_enabled (bdb : jvalue) : Prop := truthy_field "oss_cluster" bdb.

(** Its shards placement is sparse and its proxy policy all-master-shards. *)
Definition oss_well_configured (bdb : jvalue) : Prop :=
  exists sp pp,
    py_getitem bdb "shards_placement" = Ok sp /\ py_eq sp (JStr "sparse") = true /\
    py_getitem bdb "proxy_policy" = Ok pp /\ py_eq pp (JStr "all-master-shards") = true.

(** The name of a database is a key of the info. *)
Definition listed (info : list (jvalue * jvalue)) (bdb : jvalue) : Prop :=
  exists name v, py_getitem bdb "name" = Ok name /\ vdict_get name info = Some v.

(** An entry of the info was written for a database of the list: its key
    equals the name of the database, its value is the module list of the
    database, or [None] in place of a falsy one. *)
Definition from_database (bdbs : list jvalue) (kv : jvalue * jvalue) : Prop :=
  exists bdb name module_list,
    In bdb bdbs /\
    py_getitem bdb "name" = Ok name /\ py_eq (fst kv) name = true /\
    py_getitem bdb "module_list" = Ok module_list /\
    snd kv = (if truthy module_list then module_list else JNull).

(** A network that answers every topic with one database, whose replica
    source is out of sync and whose replication is stopped. *)
Definition stale_replica_net (n : nat) (url user pass : string) : result jvalue :=
  Ok (JArr [JObj [("name", JStr "db1");
                  ("replica_sync", JStr "stopped");
                  ("replica_sources",
                   JArr [JObj [("uri", JStr "redis://admin@10.0.0.5:12000");
                               ("status", JStr "out-of-sync");
                               ("lag", JNum 100);
                               ("compression", JNum 0)]]);
                  ("crdt_sync", JStr "disabled");
                  ("crdt_sources", JArr []);
                  ("oss_cluster", JBool true);
                  ("shards_placement", JStr "dense");
                  ("proxy_policy", JStr "single");
                  ("module_list", JArr [])]]).

(** The database has the expected value at a key. *)
Definition agrees (bdb : jvalue) (kv : string * jvalue) : Prop :=
  exists actual, py_getitem bdb (fst kv) = Ok actual /\ py_eq (snd kv) actual = true.

(** An entry of the info of a comparison: the key is one of the expected
    ones, the value is what the database has there, and it differs from the
    expected one. *)
Definition deviation (bdb : jvalue) (values : jobject) (kv : string * jvalue) : Prop :=
  exists expected,
    In (fst kv, expected) values /\
    py_getitem bdb (fst kv) = Ok (snd kv) /\ py_eq expected (snd kv) = false.

(** What one result of a comparison says about its database. *)
Definition compared (_params : list (string * jobject)) (bdb : jvalue)
    (r : Checks.report) : Prop :=
  exists values info,
    Checks.expected_values _params bdb = Ok values /\
    Checks.r_info r = map (fun kv => (JStr (fst kv), snd kv)) info /\
    Forall (deviation bdb values) info /\
    (info = [] <-> Forall (agrees bdb) values) /\
    Checks.r_marker r = MBool (match info with [] => true | _ :: _ => false end).

(** Parameters that expect the OSS cluster API to be disabled everywhere,
    and dense shards placement for [db1]. *)
Definition sample_params : list (string * jobject) :=
  [("__default__", [("oss_cluster", JBool false)]);
   ("db1", [("shards_placement", JStr "dense")])].

(** The topic of the statistics of a shard. *)
Definition shard_topic (py_str : jvalue -> string) (shard_uid : jvalue) : string :=
  "shards/stats/" ++ format_value py_str shard_uid.

(** [b] is what the limit of the database says about the maximum of one
    shard, computed from the statistics of the shard that are in the
    cache. *)
Definition verdict_of (py_str : jvalue -> string)
    (block : list jobject -> result Stats.stats) (exceeded : jvalue -> Q -> result bool)
    (bdb shard_uid : jvalue) (w : Api.world) (b : bool) : Prop :=
  exists shard_stats v ints s,
    Api.cache (Api.self w) !! shard_topic py_str shard_uid = Some shard_stats /\
    py_getitem shard_stats "intervals" = Ok v /\ Checks.as_intervals v = Ok ints /\
    block ints = Ok s /\ exceeded bdb (Stats.maximum s) = Ok b.

(** The shards a database lists. *)
Definition shards_of (bdb : jvalue) (shard_uids : list jvalue) : Prop :=
  exists shard_list,
    py_getitem bdb "shard_list" = Ok shard_list /\ py_iter shard_list = Ok shard_uids.

(** The database has a name other than [key]. *)
Definition other_name (key : jvalue) (bdb : jvalue) : Prop :=
  exists key', Checks.name_key bdb = Ok key' /\ py_eq key' key = false.

(** The key [key] of the results stands for the name of a database of the
    list that lists a shard. *)
Definition named_with_shards (bdbs : list jvalue) (key : jvalue) : Prop :=
  exists bdb key' shard_uid shard_uids,
    In bdb bdbs /\ Checks.name_key bdb = Ok key' /\ py_eq key key' = true /\
    shards_of bdb (shard_uid :: shard_uids).

(** Some database of the list has the name of [bdb] and lists a shard. *)
Definition has_shards_by_name (bdbs : list jvalue) (bdb : jvalue) : Prop :=
  exists bdb' key key' shard_uid shard_uids,
    In bdb' bdbs /\ Checks.name_key bdb = Ok key /\ Checks.name_key bdb' = Ok key' /\
    py_eq key' key = true /\ shards_of bdb' (shard_uid :: shard_uids).

(** A cluster with one database of two shards: the first shard serves
    30000 requests per second, the second one 10. *)
Definition hot_then_cool_net (n : nat) (url user pass : string) : result jvalue :=
  if String.eqb url "https://cluster.local:9443/v1/bdbs" then
    Ok (JArr [JObj [("name", JStr "db1"); ("shard_list", JArr [JNum 1; JNum 2]);
                    ("bigstore", JBool false); ("crdt_sync", JStr "disabled")]])
  else if String.eqb url "https://cluster.local:9443/v1/shards/stats/1" then
    Ok (JObj [("intervals", JArr [JObj [("total_req", JNum 30000)]]);
              ("role", JStr "master")])
  else
    Ok (JObj [("intervals", JArr [JObj [("total_req", JNum 10)]]);
              ("role", JStr "slave")]).

(** A database that lists no shard, and a cluster with this database
    alone. *)
Definition shardless_db : jvalue :=
  JObj [("name", JStr "db1"); ("shard_list", JArr []);
        ("bigstore", JBool false); ("crdt_sync", JStr "disabled")].

Definition shardless_net (n : nat) (url user pass : string) : result jvalue :=
  Ok (JArr [shardless_db]).

(** [str] on the shard uids of [hot_then_cool_net]. *)
Definition uid_str (v : jvalue) : string :=
  match v with
  | JNum q => if Qeq_bool q 1 then "1" else "2"
  | _ => ""
  end.

(** The shards placement of a database is dense. *)
Definition dense (bdb : jvalue) : Prop :=
  exists sp, py_getitem bdb "shards_placement" = Ok sp /\ py_eq sp (JStr "dense") = true.

(** A cluster of two nodes with one dense database, whose endpoint is on the
    first node and whose master shard is on the second. *)
Definition dense_net (n : nat) (url user pass : string) : result jvalue :=
  if String.eqb url "https://cluster.local:9443/v1/nodes" then
    Ok (JArr [JObj [("addr", JStr "10.0.0.1"); ("uid", JNum 1)];
              JObj [("addr", JStr "10.0.0.2"); ("uid", JNum 2)]])
  else if String.eqb url "https://cluster.local:9443/v1/bdbs" then
    Ok (JArr [JObj [("name", JStr "db1"); ("uid", JNum 1);
                    ("shards_placement", JStr "dense");
                    ("proxy_policy", JStr "single");
                    ("endpoints", JArr [JObj [("addr", JArr [JStr "10.0.0.1"])]])]])
  else
    Ok (JArr [JObj [("uid", JNum 7); ("bdb_uid", JNum 1); ("role", JStr "master");
                    ("node_uid", JStr "2")]]).

(** [int] on the node uids that the shards of [dense_net] carry. *)
Definition int_of_uid (v : jvalue) : result jvalue :=
  match v with
  | JStr "1" => Ok (JNum 1)
  | JStr "2" => Ok (JNum 2)
  | _ => Raise (ValueError "invalid literal for int() with base 10")
  end.

(** A cluster of two nodes that run different versions. *)
Definition two_version_net (n : nat) (url user pass : string) : result jvalue :=
  Ok (JArr [JObj [("addr", JStr "10.0.0.1"); ("uid", JNum 1);
                  ("software_version", JStr "6.2.4-54")];
            JObj [("addr", JStr "10.0.0.2"); ("uid", JNum 2);
                  ("software_version", JStr "6.0.20-97")]]).

End CheckSpec.

(* ================================================================= *)
(** * Properties                                                      *)
(* ================================================================= *)

(** ** Generalities on [result] *)

Lemma raises_not_ok {A} (r : result A) cls : raises r cls -> is_ok r = false.
Proof. intros (e & -> & _). reflexivity. Qed.

Lemma mapM_length {A B} (f : A -> result B) l ys :
  mapM f l = Ok ys -> List.length ys = List.length l.
Proof.
  revert ys. induction l as [|x l IH]; intros ys; simpl.
  - intros [= <-]. reflexivity.
  - destruct (f x) as [y|e]; simpl; [|discriminate].
    destruct (mapM f l) as [ys'|e]; simpl; [|discriminate].
    intros [= <-]. simpl. f_equal. now apply IH.
Qed.

(** ** The aggregation *)

Section StatsFacts.

Import Stats.

Local Open Scope Q_scope.

Variable F : arith.

Lemma is_zero_len {A} (l : list A) : l <> [] -> is_zero (py_len l) = false.
Proof.
  intros Hl. unfold is_zero, py_len.
  destruct (Qeq_bool _ 0) eqn:E; [|reflexivity].
  apply Qeq_bool_iff in E. unfold Qeq in E. simpl in E.
  destruct l; [congruence|]. simpl in E. lia.
Qed.

Lemma py_len_eq {A B} (l : list A) (l' : list B) :
  List.length l = List.length l' -> py_len l = py_len l'.
Proof. unfold py_len. now intros ->. Qed.

Lemma fold_min_spec l a :
  let r := fold_left (fun m y => if Qle_bool m y then m else y) l a in
  (r = a \/ In r l) /\ r <= a /\ forall x, In x l -> r <= x.
Proof.
  revert a. induction l as [|y l IH]; intros a; simpl.
  - split; [now left|]. split; [apply Qle_refl|]. intros x [].
  - destruct (Qle_bool a y) eqn:E.
    + apply Qle_bool_iff in E.
      destruct (IH a) as (Hin & Hle & Hall).
      split; [destruct Hin; auto|]. split; [exact Hle|].
      intros x [<-|Hx]; [eapply Qle_trans; eauto | auto].
    + assert (Hlt : y <= a).
      { apply Qlt_le_weak, Qnot_le_lt. intros H. apply Qle_bool_iff in H. congruence. }
      destruct (IH y) as (Hin & Hle & Hall).
      split; [destruct Hin as [->|]; auto|].
      split; [eapply Qle_trans; eauto|].
      intros x [<-|Hx]; auto.
Qed.

Lemma fold_max_spec l a :
  let r := fold_left (fun m y => if Qle_bool y m then m else y) l a in
  (r = a \/ In r l) /\ a <= r /\ forall x, In x l -> x <= r.
Proof.
  revert a. induction l as [|y l IH]; intros a; simpl.
  - split; [now left|]. split; [apply Qle_refl|]. intros x [].
  - destruct (Qle_bool y a) eqn:E.
    + apply Qle_bool_iff in E.
      destruct (IH a) as (Hin & Hle & Hall).
      split; [destruct Hin; auto|]. split; [exact Hle|].
      intros x [<-|Hx]; [eapply Qle_trans; eauto | auto].
    + assert (Hlt : a <= y).
      { apply Qlt_le_weak, Qnot_le_lt. intros H. apply Qle_bool_iff in H. congruence. }
      destruct (IH y) as (Hin & Hle & Hall).
      split; [destruct Hin as [->|]; auto|].
      split; [eapply Qle_trans; eauto|].
      intros x [<-|Hx]; auto.
Qed.

Lemma py_min_spec xs : xs <> [] -> exists m, py_min xs = Ok m /\ is_minimum m xs.
Proof.
  destruct xs as [|x l]; [congruence|]. intros _. eexists. split; [reflexivity|].
  destruct (fold_min_spec l x) as (Hin & Hle & Hall). split.
  - destruct Hin as [->|]; [now left | now right].
  - intros y [<-|Hy]; auto.
Qed.

Lemma py_max_spec xs : xs <> [] -> exists m, py_max xs = Ok m /\ is_maximum m xs.
Proof.
  destruct xs as [|x l]; [congruence|]. intros _. eexists. split; [reflexivity|].
  destruct (fold_max_spec l x) as (Hin & Hle & Hall). split.
  - destruct Hin as [->|]; [now left | now right].
  - intros y [<-|Hy]; auto.
Qed.

(** *** The reduction and the sum of the squared distances *)

Lemma fold_reduce_raise avg l e :
  fold_left
    (fun acc y => (x <- acc ;; d <- f_sub F y avg ;; p <- f_pow2 F d ;; f_add F x p)%result)
    l (Raise e) = Raise e.
Proof. induction l as [|y l IH]; simpl; auto. Qed.

Lemma fold_add_raise l e :
  fold_left (fun acc t => (x <- acc ;; f_add F x t)%result) l (Raise e) = Raise e.
Proof. induction l as [|y l IH]; simpl; auto. Qed.

Lemma fold_reduce_from avg l a q :
  fold_left
    (fun acc y => (x <- acc ;; d <- f_sub F y avg ;; p <- f_pow2 F d ;; f_add F x p)%result)
    l (Ok a) = Ok q <->
  exists ts,
    squared_distances F avg l = Ok ts /\
    fold_left (fun acc t => (x <- acc ;; f_add F x t)%result) ts (Ok a) = Ok q.
Proof.
  unfold squared_distances. revert a. induction l as [|y l IH]; intros a; simpl.
  - split.
    + intros H. exists []. auto.
    + intros (ts & [= <-] & H). exact H.
  - destruct (f_sub F y avg) as [d|e]; simpl.
    2:{ rewrite fold_reduce_raise. split; [discriminate|].
        intros (ts & H & _). discriminate. }
    destruct (f_pow2 F d) as [p|e]; simpl.
    2:{ rewrite fold_reduce_raise. split; [discriminate|].
        intros (ts & H & _). discriminate. }
    destruct (f_add F a p) as [x|e] eqn:E; simpl.
    + rewrite IH. split.
      * intros (ts & Hts & H). exists (p :: ts). rewrite Hts. simpl. rewrite E. auto.
      * intros (ts & Hts & H).
        destruct (mapM _ l) as [ts'|]; simpl in Hts; [|discriminate].
        injection Hts as <-. simpl in H. rewrite E in H. eauto.
    + rewrite fold_reduce_raise. split; [discriminate|].
      intros (ts & Hts & H).
      destruct (mapM _ l) as [ts'|]; simpl in Hts; [|discriminate].
      injection Hts as <-. simpl in H. rewrite E, fold_add_raise in H. discriminate.
Qed.

(** The reduction returns the sum of the squared distances, added up from
    the left, and returns whenever those return. *)
Lemma reduce_q_sum_spec avg xs q :
  reduce_q_sum F avg xs = Ok q <->
  exists ts, squared_distances F avg xs = Ok ts /\ add_up F ts = Ok q.
Proof. apply fold_reduce_from. Qed.

(** *** The shape every block shares, once the sample [S] and the count [n]
    of the filtered records are fixed *)

Lemma block_summarises (S : result (list Q)) (n : Q) xs s :
  S = Ok xs -> n = py_len xs ->
  (xs <- S ;;
   minimum <- py_min xs ;;
   ys <- S ;;
   total <- f_sum F ys ;;
   average <- py_div F total n ;;
   zs <- S ;;
   maximum <- py_max zs ;;
   q_sum <- reduce_q_sum F average ys ;;
   arg <- py_div F q_sum n ;;
   std_dev <- f_sqrt F arg ;;
   Ok (mkStats minimum average maximum std_dev))%result = Ok s ->
  summarises F s xs.
Proof.
  intros -> -> H. simpl in H.
  destruct xs as [|x0 l0] eqn:Exs; [discriminate|]. rewrite <- Exs in *.
  assert (Hne : xs <> []) by (rewrite Exs; discriminate).
  destruct (py_min_spec xs Hne) as (mn & Hmn & Hmin).
  destruct (py_max_spec xs Hne) as (mx & Hmx & Hmax).
  rewrite Hmn in H. simpl in H.
  destruct (f_sum F xs) as [t|] eqn:Et; simpl in H; [|discriminate].
  destruct (py_div F t (py_len xs)) as [avg|] eqn:Eavg; simpl in H; [|discriminate].
  rewrite Hmx in H. simpl in H.
  destruct (reduce_q_sum F avg xs) as [q|] eqn:Eq; simpl in H; [|discriminate].
  destruct (py_div F q (py_len xs)) as [arg|] eqn:Earg; simpl in H; [|discriminate].
  destruct (f_sqrt F arg) as [sd|] eqn:Esd; simpl in H; [|discriminate].
  injection H as <-. apply reduce_q_sum_spec in Eq. destruct Eq as (ts & Hts & Hq).
  unfold summarises, population_std_dev, std_dev_over, mean. simpl.
  rewrite Et. simpl. rewrite Eavg. simpl. rewrite Hts. simpl. rewrite Hq. simpl.
  rewrite Earg. simpl. auto.
Qed.

Lemma block_returns (S : result (list Q)) (n : Q) xs :
  S = Ok xs -> n = py_len xs -> xs <> [] ->
  is_ok (population_std_dev F xs) = true ->
  is_ok
    (xs <- S ;;
     minimum <- py_min xs ;;
     ys <- S ;;
     total <- f_sum F ys ;;
     average <- py_div F total n ;;
     zs <- S ;;
     maximum <- py_max zs ;;
     q_sum <- reduce_q_sum F average ys ;;
     arg <- py_div F q_sum n ;;
     std_dev <- f_sqrt F arg ;;
     Ok (mkStats minimum average maximum std_dev))%result = true.
Proof.
  intros -> -> Hne H. simpl.
  destruct (py_min_spec xs Hne) as (mn & -> & _).
  destruct (py_max_spec xs Hne) as (mx & Hmx & _). simpl.
  unfold population_std_dev, std_dev_over, mean in H.
  destruct (f_sum F xs) as [t|]; simpl in *; [|discriminate].
  destruct (py_div F t (py_len xs)) as [avg|]; simpl in *; [|discriminate].
  rewrite Hmx. simpl.
  destruct (squared_distances F avg xs) as [ts|] eqn:Ets; simpl in H; [|discriminate].
  destruct (add_up F ts) as [q|] eqn:Eq; simpl in H; [|discriminate].
  assert (Hr : reduce_q_sum F avg xs = Ok q) by (apply reduce_q_sum_spec; eauto).
  rewrite Hr. simpl.
  destruct (py_div F q (py_len xs)) as [arg|]; simpl in *; [|discriminate].
  destruct (f_sqrt F arg); simpl in *; [reflexivity | discriminate].
Qed.

Lemma block_empty (S : result (list Q)) (n : Q) :
  S = Ok [] ->
  raises
    (xs <- S ;;
     minimum <- py_min xs ;;
     ys <- S ;;
     total <- f_sum F ys ;;
     average <- py_div F total n ;;
     zs <- S ;;
     maximum <- py_max zs ;;
     q_sum <- reduce_q_sum F average ys ;;
     arg <- py_div F q_sum n ;;
     std_dev <- f_sqrt F arg ;;
     Ok (mkStats minimum average maximum std_dev))%result
    "ValueError".
Proof. intros ->. simpl. eexists. split; reflexivity. Qed.

Lemma filtered_In field ints r :
  In r (filtered field ints) <->
  In r ints /\ exists v, dict_get field r = Some v /\ truthy v = true.
Proof.
  unfold filtered. rewrite filter_In. unfold get_truthy.
  split; intros [Hin H]; (split; [exact Hin|]).
  - destruct (dict_get field r) as [v|]; [eauto | discriminate].
  - destruct H as (v & -> & Hv). exact Hv.
Qed.

Lemma truthy_number q : truthy (JNum q) = true <-> ~ q == 0.
Proof.
  simpl. unfold is_zero. split.
  - intros H Hq. apply Qeq_bool_iff in Hq. rewrite Hq in H. discriminate.
  - intros H. destruct (Qeq_bool q 0) eqn:E; [|reflexivity].
    apply Qeq_bool_iff in E. contradiction.
Qed.

(** *** Accurate arithmetic on the sample 10, 20, 30 *)

Lemma near_bounds u U r x lo hi :
  0 <= u -> u <= U -> U <= 1 -> 0 <= lo -> lo <= x -> x <= hi ->
  near u r x -> (1 - U) * lo <= r /\ r <= (1 + U) * hi.
Proof.
  intros Hu HU H1 Hlo Hx Hhi H. unfold near in H.
  rewrite (Qabs_pos x) in H by lra.
  apply Qabs_Qle_condition in H. destruct H as [Ha Hb].
  split; nra.
Qed.

Lemma near_zero u r x : x == 0 -> near u r x -> r == 0.
Proof.
  intros Hx H. unfold near in H. rewrite Hx in H.
  assert (E : u * Qabs 0 == 0) by (change (Qabs 0) with 0; ring). rewrite E in H.
  apply Qabs_Qle_condition in H. lra.
Qed.

Lemma near_refl u x : 0 <= u -> near u x x.
Proof.
  intros Hu. unfold near.
  assert (E : x - x == 0) by ring. rewrite E. change (Qabs 0) with 0.
  pose proof (Qabs_nonneg x). nra.
Qed.

Lemma small_int_of (q : Q) (z : Z) :
  q == inject_Z z -> (Z.abs z <= 2 ^ 53)%Z -> small_int q.
Proof. intros H1 H2. exists z. auto. Qed.

Variable u : Q.
Hypothesis u_nonneg : 0 <= u.
Hypothesis u_small : u <= 1 # 16384.
Hypothesis F_accurate : accurate F u.

(** The mean is 20, and the sum of the squared distances is 200 up to the
    error of three squares and three additions. *)
Lemma sample_mean_and_squares :
  exists avg ts q,
    mean F [10; 20; 30] = Ok avg /\ avg == 20 /\
    squared_distances F avg [10; 20; 30] = Ok ts /\
    add_up F ts = Ok q /\ 199.94 <= q /\ q <= 200.06.
Proof.
  destruct F_accurate as [Hsum Hsub Hdiv Hpow Hadd Hsqrt].
  (* the sum *)
  destruct (Hsum [10; 20; 30]) as (t & Et & Ht).
  { repeat constructor;
      first [ apply (small_int_of _ 10); [reflexivity | vm_compute; discriminate]
            | apply (small_int_of _ 20); [reflexivity | vm_compute; discriminate]
            | apply (small_int_of _ 30); [reflexivity | vm_compute; discriminate]
            | discriminate ]. }
  { apply (small_int_of _ 60); [reflexivity | vm_compute; discriminate]. }
  assert (Ht' : t == 60) by (rewrite Ht; reflexivity).
  (* the mean *)
  destruct (Hdiv t 3) as (avg & Eavg & _ & Havg).
  { lra. } { rewrite Ht'. vm_compute. discriminate. }
  { apply (small_int_of _ 3); [reflexivity | vm_compute; discriminate]. }
  { reflexivity. }
  assert (Havg' : avg == 20).
  { rewrite Havg.
    - rewrite Ht'. reflexivity.
    - apply (small_int_of _ 20); [rewrite Ht'; reflexivity | vm_compute; discriminate]. }
  assert (Savg : small_int avg)
    by (apply (small_int_of _ 20); [exact Havg' | vm_compute; discriminate]).
  (* the three differences *)
  destruct (Hsub 10 avg) as (d1 & Ed1 & Hd1); [| exact Savg | |].
  { apply (small_int_of _ 10); [reflexivity | vm_compute; discriminate]. }
  { apply (small_int_of _ (-10)); [rewrite Havg'; reflexivity | vm_compute; discriminate]. }
  destruct (Hsub 20 avg) as (d2 & Ed2 & Hd2); [| exact Savg | |].
  { apply (small_int_of _ 20); [reflexivity | vm_compute; discriminate]. }
  { apply (small_int_of _ 0); [rewrite Havg'; reflexivity | vm_compute; discriminate]. }
  destruct (Hsub 30 avg) as (d3 & Ed3 & Hd3); [| exact Savg | |].
  { apply (small_int_of _ 30); [reflexivity | vm_compute; discriminate]. }
  { apply (small_int_of _ 10); [rewrite Havg'; reflexivity | vm_compute; discriminate]. }
  assert (Hd1' : d1 == -10) by (rewrite Hd1, Havg'; reflexivity).
  assert (Hd2' : d2 == 0) by (rewrite Hd2, Havg'; reflexivity).
  assert (Hd3' : d3 == 10) by (rewrite Hd3, Havg'; reflexivity).
  (* the three squares *)
  destruct (Hpow d1) as (p1 & Ep1 & Hp1).
  { apply (small_int_of _ (-10)); [exact Hd1' | vm_compute; discriminate]. }
  { rewrite Hd1'. vm_compute. discriminate. }
  destruct (Hpow d2) as (p2 & Ep2 & Hp2).
  { apply (small_int_of _ 0); [exact Hd2' | vm_compute; discriminate]. }
  { rewrite Hd2'. vm_compute. discriminate. }
  destruct (Hpow d3) as (p3 & Ep3 & Hp3).
  { apply (small_int_of _ 10); [exact Hd3' | vm_compute; discriminate]. }
  { rewrite Hd3'. vm_compute. discriminate. }
  assert (B1 : 99.99 <= p1 /\ p1 <= 100.01).
  { destruct (near_bounds u (1 # 16384) p1 (d1 * d1) 100 100) as [A B];
      try assumption; try (rewrite Hd1'; lra); lra. }
  assert (B2 : p2 == 0).
  { apply (near_zero u p2 (d2 * d2)); [rewrite Hd2'; reflexivity | exact Hp2]. }
  assert (B3 : 99.99 <= p3 /\ p3 <= 100.01).
  { destruct (near_bounds u (1 # 16384) p3 (d3 * d3) 100 100) as [A B];
      try assumption; try (rewrite Hd3'; lra); lra. }
  (* the three additions *)
  assert (P52 : inject_Z (2 ^ 52) == 4503599627370496) by reflexivity.
  destruct (Hadd 0 p1) as (a1 & Ea1 & Ha1); try (rewrite ?P52; lra).
  assert (A1 : 99.98 <= a1 /\ a1 <= 100.02).
  { destruct (near_bounds u (1 # 16384) a1 (0 + p1) 99.99 100.01) as [A B];
      try assumption; lra. }
  destruct (Hadd a1 p2) as (a2 & Ea2 & Ha2); try (rewrite ?P52; lra).
  assert (A2 : 99.97 <= a2 /\ a2 <= 100.03).
  { destruct (near_bounds u (1 # 16384) a2 (a1 + p2) 99.98 100.02) as [A B];
      try assumption; lra. }
  destruct (Hadd a2 p3) as (a3 & Ea3 & Ha3); try (rewrite ?P52; lra).
  assert (A3 : 199.94 <= a3 /\ a3 <= 200.06).
  { destruct (near_bounds u (1 # 16384) a3 (a2 + p3) 199.96 200.04) as [A B];
      try assumption; lra. }
  exists avg, [p1; p2; p3], a3.
  split.
  { unfold mean. rewrite Et. simpl. exact Eavg. }
  split; [exact Havg'|]. split.
  { unfold squared_distances. simpl. rewrite Ed1. simpl. rewrite Ep1. simpl.
    rewrite Ed2. simpl. rewrite Ep2. simpl. rewrite Ed3. simpl. rewrite Ep3.
    reflexivity. }
  split; [|lra].
  unfold add_up. simpl. rewrite Ea1. simpl. rewrite Ea2. simpl. exact Ea3.
Qed.

(** The square root of the sum over the count is between 8.16 and 8.17;
    over the count less one it would be between 9.99 and 10.01. *)
Lemma sample_std_devs :
  (exists r, population_std_dev F [10; 20; 30] = Ok r /\ 8.16 < r /\ r < 8.17) /\
  (exists t, sample_std_dev F [10; 20; 30] = Ok t /\ 9.99 < t /\ t < 10.01).
Proof.
  destruct sample_mean_and_squares as (avg & ts & q & Em & _ & Ets & Eq & Hlo & Hhi).
  destruct F_accurate as [_ _ Hdiv _ _ Hsqrt].
  assert (P53 : inject_Z (2 ^ 53) == 9007199254740992) by reflexivity.
  split.
  - destruct (Hdiv q 3) as (v & Ev & Hv & _); try (rewrite ?P53; lra).
    { apply (small_int_of _ 3); [reflexivity | vm_compute; discriminate]. }
    assert (V : 66.64 <= v /\ v <= 66.70).
    { destruct (near_bounds u (1 # 16384) v (q / 3) 66.646 66.687) as [A B];
        try assumption; try lra.
      - apply Qle_shift_div_l; lra.
      - apply Qle_shift_div_r; lra. }
    destruct (Hsqrt v) as (r & Er & Hr0 & Hr1 & Hr2); try (rewrite ?P53; lra).
    exists r. split.
    + unfold population_std_dev, std_dev_over. rewrite Em. simpl. rewrite Ets. simpl.
      rewrite Eq. simpl.
      change (py_div F q (py_len [10; 20; 30])) with (f_truediv F q 3).
      rewrite Ev. exact Er.
    + split; nra.
  - destruct (Hdiv q 2) as (v & Ev & Hv & _); try (rewrite ?P53; lra).
    { apply (small_int_of _ 2); [reflexivity | vm_compute; discriminate]. }
    assert (V : 99.96 <= v /\ v <= 100.04).
    { destruct (near_bounds u (1 # 16384) v (q / 2) 99.97 100.03) as [A B];
        try assumption; try lra.
      - apply Qle_shift_div_l; lra.
      - apply Qle_shift_div_r; lra. }
    destruct (Hsqrt v) as (t & Et & Ht0 & Ht1 & Ht2); try (rewrite ?P53; lra).
    exists t. split.
    + unfold sample_std_dev, std_dev_over. rewrite Em. simpl. rewrite Ets. simpl.
      rewrite Eq. simpl.
      change (py_div F q (py_len [10; 20; 30] - 1)) with (f_truediv F q 2).
      rewrite Ev. exact Et.
    + split; nra.
Qed.

End StatsFacts.

(** *** The sample arithmetic is accurate *)

Section RationalArith.

Import Stats.

Local Open Scope Q_scope.

Lemma sqrt_down_near (x : Q) :
  1 <= x -> near_sqrt (1 # 16384) (sqrt_down x) x.
Proof.
  intros Hx. unfold near_sqrt, sqrt_down.
  set (y := x * inject_Z (4 ^ 30)).
  set (s := Z.sqrt (Qfloor y)).
  assert (K : inject_Z (4 ^ 30) == inject_Z (2 ^ 30) * inject_Z (2 ^ 30)) by reflexivity.
  assert (K0 : 1 <= inject_Z (2 ^ 30)) by (vm_compute; discriminate).
  assert (Hy : 0 <= y) by (unfold y; rewrite K; nra).
  assert (Hf : (0 <= Qfloor y)%Z).
  { rewrite <- (Qfloor_Z 0). apply Qfloor_resp_le. exact Hy. }
  pose proof (Z.sqrt_spec _ Hf) as Hs. cbv zeta in Hs. fold s in Hs.
  pose proof (Z.sqrt_nonneg (Qfloor y)) as Hs0. fold s in Hs0.
  assert (A : inject_Z s * inject_Z s <= y).
  { eapply Qle_trans; [|apply Qfloor_le]. rewrite <- inject_Z_mult.
    rewrite <- Zle_Qle. lia. }
  assert (B : y < (inject_Z s + 1) * (inject_Z s + 1)).
  { eapply Qlt_le_trans; [apply Qlt_floor|].
    change 1 with (inject_Z 1). rewrite <- !inject_Z_plus, <- inject_Z_mult.
    rewrite <- Zle_Qle. lia. }
  assert (S0 : 0 <= inject_Z s) by (change 0 with (inject_Z 0); rewrite <- Zle_Qle; lia).
  set (k := inject_Z (2 ^ 30)) in *.
  set (r := inject_Z s / k).
  assert (Hr : inject_Z s == r * k) by (unfold r; field; lra).
  assert (Hk : k == 1073741824) by reflexivity.
  unfold y in A, B. rewrite K in A, B. rewrite Hr in A, B, S0.
  assert (R0 : 0 <= r) by nra.
  split; [exact R0|].
  assert (A' : r * r <= x).
  { assert (E : r * k * (r * k) == (r * r) * (k * k)) by ring. rewrite E in A.
    assert (E' : x * (k * k) == x * (k * k)) by ring.
    apply (Qmult_le_r _ _ (k * k)); [nra | exact A]. }
  assert (B' : x < (r + 1 / k) * (r + 1 / k)).
  { apply (Qmult_lt_r _ _ (k * k)); [nra|].
    assert (E : (r + 1 / k) * (r + 1 / k) * (k * k) == (r * k + 1) * (r * k + 1))
      by (field; lra).
    rewrite E. exact B. }
  assert (D : 1 / k <= 1 # 16384).
  { rewrite Hk. vm_compute. discriminate. }
  assert (D0 : 0 < 1 / k) by (rewrite Hk; reflexivity).
  set (dl := 1 / k) in *.
  assert (G : 1 < r + dl) by nra.
  split; [|nra].
  assert (L : (1 - (1 # 16384)) * (r + dl) <= r) by nra.
  assert (L' : (1 - (1 # 16384)) * (r + dl) * ((1 - (1 # 16384)) * (r + dl)) <= r * r)
    by nra.
  nra.
Qed.

Lemma rational_arith_accurate : accurate rational_arith (1 # 16384).
Proof.
  assert (U : 0 <= 1 # 16384) by discriminate.
  constructor; simpl.
  - intros l _ _. eexists. split; reflexivity.
  - intros a b _ _ _. eexists. split; reflexivity.
  - intros a b _ _ _ _. eexists. split; [reflexivity|]. split.
    + now apply near_refl.
    + reflexivity.
  - intros a _ _. eexists. split; [reflexivity|]. now apply near_refl.
  - intros a b _ _ _ _. eexists. split; [reflexivity|]. now apply near_refl.
  - intros x Hx _. eexists. split; [reflexivity|]. now apply sqrt_down_near.
Qed.

End RationalArith.

(** C2.  When no interval record passes the filter of the field, the block
    of [check_databases_usage_001] and the block of [check_cpu_usage] raise
    [ValueError] (the [min] of an empty sequence): neither returns numbers. *)
Theorem C2_empty_sample_raises (F : arith) (ints : list jobject) :
  (Stats.filtered "total_req" ints = [] ->
   raises (Stats.check_databases_usage_001_stats F ints) "ValueError" /\
   is_ok (Stats.check_databases_usage_001_stats F ints) = false) /\
  (Stats.filtered "cpu_idle" ints = [] ->
   raises (Stats.check_cpu_usage_stats F ints) "ValueError" /\
   is_ok (Stats.check_cpu_usage_stats F ints) = false).
Proof.
  split; intros H.
  - assert (R : raises (Stats.check_databases_usage_001_stats F ints) "ValueError").
    { apply block_empty. unfold Stats.total_req_sample. now rewrite H. }
    split; [exact R | exact (raises_not_ok _ _ R)].
  - assert (R : raises (Stats.check_cpu_usage_stats F ints) "ValueError").
    { apply block_empty. unfold Stats.cpu_usage_sample. now rewrite H. }
    split; [exact R | exact (raises_not_ok _ _ R)].
Qed.

Lemma C2_witness :
  let ints := [Stats.interval "total_req" 0; Stats.interval "cpu_idle" 0; []] in
  (raises (Stats.check_databases_usage_001_stats Stats.rational_arith ints) "ValueError" /\
   is_ok (Stats.check_databases_usage_001_stats Stats.rational_arith ints) = false) /\
  (raises (Stats.check_cpu_usage_stats Stats.rational_arith ints) "ValueError" /\
   is_ok (Stats.check_cpu_usage_stats Stats.rational_arith ints) = false).
Proof.
  intros ints. destruct (C2_empty_sample_raises Stats.rational_arith ints) as [H1 H2].
  split; [apply H1 | apply H2]; reflexivity.
Defined.

(** C3, as the specification states it, fails: a record whose [total_req]
    is present with the value 0 is left out of the sample.  With the
    records 0 and 10 the minimum is 10 whatever the arithmetic, and the
    block does return with the sample arithmetic; with the record 0 alone
    the block raises. *)
Lemma C3_counterexample :
  ~ (forall (field : string) (ints : list jobject) (r : jobject),
       In r ints -> dict_get field r <> None ->
       In r (Stats.filtered field ints)) /\
  (forall (F : arith) (s : Stats.stats),
     Stats.check_databases_usage_001_stats F
       [Stats.interval "total_req" 0; Stats.interval "total_req" 10] = Ok s ->
     Stats.minimum s = 10%Q) /\
  (exists s, Stats.check_databases_usage_001_stats Stats.rational_arith
               [Stats.interval "total_req" 0; Stats.interval "total_req" 10] = Ok s /\
             Stats.minimum s = 10%Q) /\
  (forall F : arith,
     is_ok (Stats.check_databases_usage_001_stats F [Stats.interval "total_req" 0])
     = false).
Proof.
  split; [|split; [|split]].
  - intros H.
    specialize (H "total_req" [Stats.interval "total_req" 0] (Stats.interval "total_req" 0)).
    simpl in H. destruct H; [now left | discriminate].
  - intros F s H. cbv [Stats.check_databases_usage_001_stats] in H.
    change (Stats.total_req_sample
              [Stats.interval "total_req" 0; Stats.interval "total_req" 10])
      with (@Ok (list Q) [10%Q]) in H.
    simpl in H.
    destruct (f_sum F [10%Q]); simpl in H; [|discriminate].
    destruct (py_div F _ _); simpl in H; [|discriminate].
    destruct (Stats.reduce_q_sum F _ _); simpl in H; [|discriminate].
    destruct (py_div F _ _); simpl in H; [|discriminate].
    destruct (f_sqrt F _); simpl in H; [|discriminate].
    injection H as <-. reflexivity.
  - eexists. split; [vm_compute; reflexivity | reflexivity].
  - intros F. reflexivity.
Qed.

(** C3, amended.  The filter is on truthiness: a record enters the sample of
    a field exactly when the field is present and its value is truthy; a
    number is truthy exactly when it is not zero; a record without the
    field, and a record whose field is 0, stay out. *)
Theorem C3_filter_is_truthiness :
  (forall (field : string) (ints : list jobject) (r : jobject),
     In r (Stats.filtered field ints) <->
     In r ints /\ exists v, dict_get field r = Some v /\ truthy v = true) /\
  (forall q : Q, truthy (JNum q) = true <-> ~ (q == 0)%Q) /\
  (forall (field : string) (ints : list jobject) (r : jobject),
     dict_get field r = None -> ~ In r (Stats.filtered field ints)) /\
  (forall (field : string) (ints : list jobject) (r : jobject) (q : Q),
     dict_get field r = Some (JNum q) -> (q == 0)%Q ->
     ~ In r (Stats.filtered field ints)).
Proof.
  split; [exact filtered_In|]. split; [exact truthy_number|]. split.
  - intros field ints r Hnone Hin. apply filtered_In in Hin.
    destruct Hin as (_ & v & Hv & _). congruence.
  - intros field ints r q Hq Hz Hin. apply filtered_In in Hin.
    destruct Hin as (_ & v & Hv & Ht). rewrite Hq in Hv. injection Hv as <-.
    apply truthy_number in Ht. contradiction.
Qed.

Lemma C3_witness :
  let zero := Stats.interval "total_req" 0 in
  let other := Stats.interval "used_memory" 5 in
  ~ In other (Stats.filtered "total_req" [zero; other]) /\
  ~ In zero (Stats.filtered "total_req" [zero; other]).
Proof.
  intros zero other.
  destruct C3_filter_is_truthiness as (_ & _ & Habsent & Hzero). split.
  - apply Habsent. reflexivity.
  - apply (Hzero "total_req" [zero; other] zero 0%Q); reflexivity.
Defined.

(** C4.  Whatever the arithmetic of the interpreter, what the two blocks
    return for a sample is its minimum, its maximum, its mean (the sum over
    the count) and its population standard deviation: the square root of the
    sum of the squared distances to the mean over the count [n], each
    operation being the one of that arithmetic; and the blocks return
    whenever the sample is not empty and these operations return.  Where the
    arithmetic is accurate, as that of binary doubles is, the blocks return
    10, 20, 30 and a number between 8.16 and 8.17 on the sample 10, 20, 30,
    whereas the sum over [n - 1] would give a number between 9.99 and
    10.01. *)
Theorem C4_population_std_dev (F : arith) :
  (forall (ints : list jobject) (xs : list Q) (s : Stats.stats),
     (Stats.total_req_sample ints = Ok xs ->
      Stats.check_databases_usage_001_stats F ints = Ok s ->
      Stats.summarises F s xs) /\
     (Stats.cpu_usage_sample F ints = Ok xs ->
      Stats.check_cpu_usage_stats F ints = Ok s ->
      Stats.summarises F s xs)) /\
  (forall (ints : list jobject) (xs : list Q),
     xs <> [] -> is_ok (Stats.population_std_dev F xs) = true ->
     (Stats.total_req_sample ints = Ok xs ->
      is_ok (Stats.check_databases_usage_001_stats F ints) = true) /\
     (Stats.cpu_usage_sample F ints = Ok xs ->
      is_ok (Stats.check_cpu_usage_stats F ints) = true)) /\
  (forall u : Q,
     (0 <= u)%Q -> (u <= 1 # 16384)%Q -> Stats.accurate F u ->
     (exists s,
        Stats.check_databases_usage_001_stats F
          [Stats.interval "total_req" 10; Stats.interval "total_req" 20;
           Stats.interval "total_req" 30] = Ok s /\
        Stats.minimum s = 10%Q /\ (Stats.average s == 20)%Q /\
        Stats.maximum s = 30%Q /\
        (8.16 < Stats.std_dev s)%Q /\ (Stats.std_dev s < 8.17)%Q) /\
     (exists t,
        Stats.sample_std_dev F [10; 20; 30]%Q = Ok t /\
        (9.99 < t)%Q /\ (t < 10.01)%Q)).
Proof.
  split; [|split].
  - intros ints xs s. split; intros HS H.
    + apply (block_summarises F _ _ xs s HS (py_len_eq _ _ (eq_sym (mapM_length _ _ _ HS)))).
      exact H.
    + apply (block_summarises F _ _ xs s HS (py_len_eq _ _ (eq_sym (mapM_length _ _ _ HS)))).
      exact H.
  - intros ints xs Hne Hok. split; intros HS.
    + apply (block_returns F _ _ xs HS (py_len_eq _ _ (eq_sym (mapM_length _ _ _ HS))) Hne Hok).
    + apply (block_returns F _ _ xs HS (py_len_eq _ _ (eq_sym (mapM_length _ _ _ HS))) Hne Hok).
  - intros u Hu0 Hu1 Hacc.
    destruct (sample_std_devs F u Hu0 Hu1 Hacc) as [(r & Er & Hr) Hsample].
    split; [|exact Hsample].
    destruct (sample_mean_and_squares F u Hu0 Hu1 Hacc) as (avg & _ & _ & Em & Havg & _).
    set (ints := [Stats.interval "total_req" 10; Stats.interval "total_req" 20;
                  Stats.interval "total_req" 30]).
    assert (HS : Stats.total_req_sample ints = Ok [10; 20; 30]%Q) by reflexivity.
    assert (Hret : is_ok (Stats.check_databases_usage_001_stats F ints) = true).
    { apply (block_returns F _ _ [10; 20; 30]%Q HS); [reflexivity | discriminate |].
      now rewrite Er. }
    destruct (Stats.check_databases_usage_001_stats F ints) as [s|] eqn:Es; [|discriminate].
    exists s. split; [reflexivity|].
    assert (Hsum : Stats.summarises F s [10; 20; 30]%Q).
    { exact (block_summarises F _ (py_len (Stats.filtered "total_req" ints))
               [10; 20; 30]%Q s HS eq_refl Es). }
    destruct Hsum as ((Hmin & Hle) & Hmean & (Hmax & Hge) & Hdev).
    rewrite Em in Hmean. injection Hmean as <-. rewrite Er in Hdev. injection Hdev as <-.
    split; [|split; [exact Havg|split; [|exact Hr]]].
    + specialize (Hle 10%Q (or_introl eq_refl)).
      destruct Hmin as [E|[E|[E|[]]]]; rewrite <- E in *; [reflexivity | |];
        vm_compute in Hle; now destruct Hle.
    + specialize (Hge 30%Q (or_intror (or_intror (or_introl eq_refl)))).
      destruct Hmax as [E|[E|[E|[]]]]; rewrite <- E in *; [| |reflexivity];
        vm_compute in Hge; now destruct Hge.
Qed.

Lemma C4_witness :
  let ints := [Stats.interval "total_req" 10; Stats.interval "total_req" 20;
               Stats.interval "total_req" 30] in
  (forall s,
     Stats.check_databases_usage_001_stats Stats.rational_arith ints = Ok s ->
     Stats.summarises Stats.rational_arith s [10; 20; 30]%Q) /\
  is_ok (Stats.check_databases_usage_001_stats Stats.rational_arith ints) = true /\
  (exists s,
     Stats.check_databases_usage_001_stats Stats.rational_arith ints = Ok s /\
     Stats.minimum s = 10%Q /\ (Stats.average s == 20)%Q /\
     Stats.maximum s = 30%Q /\
     (8.16 < Stats.std_dev s)%Q /\ (Stats.std_dev s < 8.17)%Q).
Proof.
  intros ints.
  destruct (C4_population_std_dev Stats.rational_arith) as (H1 & H2 & H3).
  split; [|split].
  - intros s. apply (H1 ints [10; 20; 30]%Q s). reflexivity.
  - apply (H2 ints [10; 20; 30]%Q); [discriminate | reflexivity | reflexivity].
  - apply (H3 (1 # 16384)%Q); [discriminate | apply Qle_refl | exact rational_arith_accurate].
Defined.

(** ** The renderers *)

Section RendererFacts.

Lemma prefix_app p s : String.prefix p s = true <-> exists t, s = p ++ t.
Proof.
  revert s. induction p as [|a p IH]; intros s; simpl.
  - split; [intros _; now exists s | intros _; now destruct s].
  - destruct s as [|b s]; [split; [discriminate | intros (t & [=])]|].
    simpl. destruct (ascii_dec a b) as [->|Hab].
    + rewrite IH. split; intros (t & Ht); exists t; [now rewrite Ht | now injection Ht].
    + split; [discriminate | intros (t & Ht); injection Ht; intros; congruence].
Qed.

(** No remedy is found exactly when the text has no remedy line. *)
Lemma findall_nil s : findall_remedy s = [] <-> ~ has_remedy_line s.
Proof.
  unfold findall_remedy, has_remedy_line.
  induction s as [|c s IH].
  - simpl. split; [|reflexivity]. intros _ (pre & post & H).
    destruct pre; discriminate.
  - cbn [findall_from]. destruct (String.prefix "Remedy: " (String c s)) eqn:E.
    + split; [discriminate|]. intros H. exfalso. apply H.
      apply prefix_app in E. destruct E as (t & Ht). now exists "", t.
    + rewrite IH. split; intros H (pre & post & Heq); apply H.
      * destruct pre as [|c' pre].
        -- exfalso. assert (String.prefix "Remedy: " (String c s) = true) as E'
             by (apply prefix_app; now exists post). congruence.
        -- exists pre, post. simpl in Heq. now injection Heq.
      * exists (String c pre), post. simpl. now rewrite Heq.
Qed.

(** The first remedy found is the rest of the line after the first
    [Remedy: ] of the text. *)
Lemma findall_first s r :
  hd_error (findall_remedy s) = Some r <->
  exists pre post, first_remedy_at pre post s /\ r = upto_newline post.
Proof.
  unfold findall_remedy, first_remedy_at. revert r.
  induction s as [|c s IH]; intros r.
  - simpl. split; [discriminate|]. intros (pre & post & [H _] & _).
    destruct pre; discriminate.
  - cbn [findall_from]. destruct (String.prefix "Remedy: " (String c s)) eqn:E.
    + pose proof E as E'. apply prefix_app in E'. destruct E' as (t & Ht).
      rewrite Ht. cbn [hd_error]. split.
      * intros [= <-]. exists "", t. split; [split|].
        -- reflexivity.
        -- intros; simpl; lia.
        -- reflexivity.
      * intros (pre & post & [Heq Hmin] & ->).
        specialize (Hmin "" t eq_refl). destruct pre; [|simpl in Hmin; lia].
        apply (f_equal (drop 8)) in Heq. change (t = post) in Heq. now rewrite Heq.
    + rewrite IH. split.
      * intros (pre & post & [Heq Hmin] & ->).
        exists (String c pre), post. split; [split|reflexivity].
        -- simpl. now rewrite Heq.
        -- intros pre' post' H'. destruct pre' as [|c' pre'].
           ++ exfalso. assert (String.prefix "Remedy: " (String c s) = true) as E'
                by (apply prefix_app; now exists post'). congruence.
           ++ simpl in H'. injection H' as _ H'. specialize (Hmin _ _ H').
              simpl. lia.
      * intros (pre & post & [Heq Hmin] & ->).
        destruct pre as [|c' pre].
        -- exfalso. assert (String.prefix "Remedy: " (String c s) = true) as E'
             by (apply prefix_app; now exists post). congruence.
        -- simpl in Heq. injection Heq as _ Heq.
           exists pre, post. split; [split|reflexivity]; [exact Heq|].
           intros pre' post' H'.
           specialize (Hmin (String c pre') post'). simpl in Hmin.
           rewrite H' in Hmin. specialize (Hmin eq_refl). lia.
Qed.

Lemma remedy_line_dec s : has_remedy_line s \/ ~ has_remedy_line s.
Proof.
  destruct (findall_remedy s) eqn:E.
  - right. now apply findall_nil.
  - left. destruct (findall_first s s0) as [H _].
    destruct H as (pre & post & [Heq _] & _); [now rewrite E|].
    now exists pre, post.
Qed.

(** What [to_print] holds, by status. *)
Lemma json_to_print_eq (o : outcome) (f : check) :
  JsonRenderer.to_print o f =
  match normalize (o_marker o) with
  | None => Raise NotImplementedError
  | Some st =>
      Ok ([("desc", JStr (upto_newline (doc_text o f)));
           ("status", JStr (json_status st))]
          ++ match remedy_of st (doc_text o f) with
             | Some r => [("remedy", JStr r)]
             | None => []
             end
          ++ [("info", JObj (o_info o))])%list
  end.
Proof.
  destruct o as [m info d]. unfold JsonRenderer.to_print. simpl.
  destruct m as [[|]| |s| |z|n]; simpl; try reflexivity.
  - destruct (findall_remedy _); reflexivity.
  - destruct s; reflexivity.
Qed.

Lemma basic_to_print_eq (py_str : jvalue -> string) (o : outcome) (f : check) :
  BasicRenderer.to_print py_str o f =
  match normalize (o_marker o) with
  | None => Raise NotImplementedError
  | Some st =>
      Ok ([basic_glyph st; upto_newline (doc_text o f); basic_status st;
           join ", " (map (fun kv => (fst kv ++ ": " ++ format_value py_str (snd kv))%string)
                          (o_info o))]
          ++ match remedy_of st (doc_text o f) with
             | Some r => [join " " [Color.cyan "Remedy:"; r]]
             | None => []
             end)%list
  end.
Proof.
  destruct o as [m info d]. unfold BasicRenderer.to_print. simpl.
  destruct m as [[|]| |s| |z|n]; simpl; try reflexivity.
  - destruct (findall_remedy _); reflexivity.
  - destruct s; reflexivity.
Qed.

Lemma normalize_failed m : normalize m = Some Failed <-> m = MBool false.
Proof.
  split; [|now intros ->].
  destruct m as [[|]| |s| |z|n]; simpl; try discriminate; auto.
  destruct s; discriminate.
Qed.

Lemma remedy_of_some st text r :
  remedy_of st text = Some r <->
  st = Failed /\ exists pre post, first_remedy_at pre post text /\ r = upto_newline post.
Proof.
  destruct st; simpl; try (split; [discriminate | intros [[=] _]]).
  rewrite findall_first. split; [intros H; split; auto | now intros [_ H]].
Qed.

Lemma remedy_of_none st text :
  remedy_of st text = None <-> ~ (st = Failed /\ has_remedy_line text).
Proof.
  destruct st; simpl; try (split; [intros _ [[=] _] | reflexivity]).
  destruct (findall_remedy text) as [|r l] eqn:E; simpl.
  - apply findall_nil in E. split; [intros _ [_ H]; contradiction | reflexivity].
  - split; [discriminate|]. intros H. exfalso. apply H. split; [reflexivity|].
    destruct (remedy_line_dec text) as [Hy|Hn]; [exact Hy|].
    apply findall_nil in Hn. congruence.
Qed.

End RendererFacts.

(** The text scanned for the remedy is the description of the outcome when
    the outcome has three elements, and the documentation of the check
    otherwise ([doc_text]).  For a result that is rendered, a remedy is
    attached exactly when the marker is [False] and that text has
    [Remedy: ] in it; the remedy is then the rest of the line after the first
    [Remedy: ]. *)
Lemma remedy_from_scanned_text
    (py_str : jvalue -> string) (o : outcome) (f : check)
    (jp : jobject) (bp : list string) :
  JsonRenderer.to_print o f = Ok jp ->
  BasicRenderer.to_print py_str o f = Ok bp ->
  (forall r,
     json_remedy jp = Some (JStr r) <->
     o_marker o = MBool false /\
     exists pre post, first_remedy_at pre post (doc_text o f) /\ r = upto_newline post) /\
  (forall r,
     basic_remedy bp = Some (join " " [Color.cyan "Remedy:"; r]) <->
     o_marker o = MBool false /\
     exists pre post, first_remedy_at pre post (doc_text o f) /\ r = upto_newline post) /\
  (json_remedy jp = None <->
   ~ (o_marker o = MBool false /\ has_remedy_line (doc_text o f))) /\
  (basic_remedy bp = None <->
   ~ (o_marker o = MBool false /\ has_remedy_line (doc_text o f))).
Proof.
  rewrite json_to_print_eq, basic_to_print_eq.
  destruct (normalize (o_marker o)) as [st|] eqn:Hst; [|discriminate].
  intros [= <-] [= <-].
  assert (Hf : st = Failed <-> o_marker o = MBool false).
  { rewrite <- normalize_failed, Hst. split; [now intros -> | now intros [= ->]]. }
  set (text := doc_text o f) in *.
  assert (HS : forall r,
             remedy_of st text = Some r <->
             o_marker o = MBool false /\
             exists pre post, first_remedy_at pre post text /\ r = upto_newline post).
  { intros r. rewrite remedy_of_some, Hf. reflexivity. }
  assert (HN : remedy_of st text = None <->
               ~ (o_marker o = MBool false /\ has_remedy_line text)).
  { rewrite remedy_of_none, Hf. reflexivity. }
  split; [|split; [|split]].
  - intros r. rewrite <- HS.
    destruct (remedy_of st text); cbn; split; congruence.
  - intros r. rewrite <- HS.
    destruct (remedy_of st text) as [r0|]; cbn; split; try congruence.
    intros H. apply (f_equal (option_map (drop 19))) in H. cbv in H. congruence.
  - rewrite <- HN.
    destruct (remedy_of st text); cbn; split; congruence.
  - rewrite <- HN.
    destruct (remedy_of st text); cbn; split; congruence.
Qed.

(** C5.  The remedy that a check documents is lost as soon as its outcome
    carries a description.  With a description, what either renderer builds
    does not depend on the check at all.  [check_databases_config_001]
    documents the remedy "Adapt your database configuration in the UI or
    per REST-API." and returns outcomes of three elements: its false outcome
    is rendered without a remedy, whereas the same outcome without the
    description is rendered with the documented one. *)
Theorem C5_documented_remedy_is_dropped (py_str : jvalue -> string) :
  (forall (m : marker) (info : jobject) (desc : string) (f f' : check),
     JsonRenderer.to_print (mkOutcome m info (Some desc)) f
     = JsonRenderer.to_print (mkOutcome m info (Some desc)) f' /\
     BasicRenderer.to_print py_str (mkOutcome m info (Some desc)) f
     = BasicRenderer.to_print py_str (mkOutcome m info (Some desc)) f') /\
  (let info := [("oss_cluster", JBool true)] in
   let three := mkOutcome (MBool false) info (Some "check configuration of 'db1'") in
   let two := mkOutcome (MBool false) info None in
   let documented := "Adapt your database configuration in the UI or per REST-API." in
   findall_remedy (doc dc_001) = [documented] /\
   (exists tp, JsonRenderer.to_print three dc_001 = Ok tp /\ json_remedy tp = None) /\
   (exists tp, BasicRenderer.to_print py_str three dc_001 = Ok tp /\
               basic_remedy tp = None) /\
   (exists tp, JsonRenderer.to_print two dc_001 = Ok tp /\
               json_remedy tp = Some (JStr documented)) /\
   (exists tp, BasicRenderer.to_print py_str two dc_001 = Ok tp /\
               basic_remedy tp = Some (join " " [Color.cyan "Remedy:"; documented]))).
Proof.
  split.
  - intros m info desc f f'. split; reflexivity.
  - cbv zeta. split; [reflexivity|].
    repeat split; eexists; (split; [reflexivity|]); reflexivity.
Qed.

(** C6.  Both [render_result] classify a marker as the normalization of the
    specification does.  For a marker that has a status, both return and
    print one line that carries that status: the value of the key [status]
    of the JSON object, the first and the third field of the text line; the
    five statuses are written in five different ways.  For a marker
    without a status both raise [NotImplementedError] and print nothing. *)
Theorem C6_renderers_classify_alike
    (json_dumps py_str : jvalue -> string) (o : outcome) (f : check)
    (t : list event) :
  match normalize (o_marker o) with
  | Some st =>
      (exists tp,
         JsonRenderer.render_result json_dumps o f t
         = (Ok tt, (t ++ [Print Stdout (json_dumps (JObj tp))])%list) /\
         dict_get "status" tp = Some (JStr (json_status st))) /\
      (exists tp,
         BasicRenderer.render_result py_str o f t
         = (Ok tt, (t ++ [Print Stdout (join " " tp)])%list) /\
         nth_error tp 0 = Some (basic_glyph st) /\
         nth_error tp 2 = Some (basic_status st))
  | None =>
      JsonRenderer.render_result json_dumps o f t = (Raise NotImplementedError, t) /\
      BasicRenderer.render_result py_str o f t = (Raise NotImplementedError, t)
  end /\
  (forall st st' : status,
     json_status st = json_status st' \/ basic_status st = basic_status st' \/
     basic_glyph st = basic_glyph st' ->
     st = st').
Proof.
  split.
  - unfold JsonRenderer.render_result, BasicRenderer.render_result, bind, lift.
    rewrite json_to_print_eq, basic_to_print_eq.
    destruct (normalize (o_marker o)) as [st|]; [|split; reflexivity].
    split; eexists; (split; [reflexivity|]); [reflexivity | split; reflexivity].
  - intros st st' [H|[H|H]]; destruct st, st'; (reflexivity || (vm_compute in H; discriminate)).
Qed.

(** C10.  For an outcome whose marker is none of [True], [False], [None],
    the empty string and [Exception], [render_result] of either renderer
    raises [NotImplementedError] and has printed nothing. *)
Theorem C10_unknown_marker_not_rendered
    (json_dumps py_str : jvalue -> string) (o : outcome) (f : check)
    (t : list event) :
  o_marker o <> MBool true -> o_marker o <> MBool false ->
  o_marker o <> MNone -> o_marker o <> MStr "" -> o_marker o <> MException ->
  JsonRenderer.render_result json_dumps o f t = (Raise NotImplementedError, t) /\
  BasicRenderer.render_result py_str o f t = (Raise NotImplementedError, t).
Proof.
  intros H1 H2 H3 H4 H5.
  assert (Hn : normalize (o_marker o) = None).
  { destruct (o_marker o) as [[|]| |s| |z|n]; try congruence; try reflexivity.
    destruct s; [congruence | reflexivity]. }
  unfold JsonRenderer.render_result, BasicRenderer.render_result, bind, lift.
  rewrite json_to_print_eq, basic_to_print_eq, Hn. split; reflexivity.
Qed.

Lemma C10_witness :
  let o := mkOutcome (MInt 1) [("open", JStr "all")] None in
  JsonRenderer.render_result (fun _ => "") o plain_check []
    = (Raise NotImplementedError, []) /\
  BasicRenderer.render_result (fun _ => "") o plain_check []
    = (Raise NotImplementedError, []).
Proof.
  intros o.
  apply (C10_unknown_marker_not_rendered (fun _ => "") (fun _ => "") o plain_check []);
    discriminate.
Defined.

(** ** The cached client *)

Section ApiFacts.

Import Api.

Variable http_get : nat -> string -> string -> string -> result jvalue.
Variable py_str : jvalue -> string.

(** *** [_fetch] *)

Lemma fetch_hit (t : string) (w : world) (v : jvalue) :
  cache (self w) !! t = Some v -> _fetch http_get t w = (Ok v, w).
Proof. intros H. unfold _fetch, bind, get_state, ret. now rewrite H. Qed.

Lemma fetch_miss (t : string) (w : world) :
  cache (self w) !! t = None ->
  let url := url_of (addr (self w)) t in
  let answer := http_get (List.length (requests (trace w))) url
                         (username (self w)) (password (self w)) in
  _fetch http_get t w =
  (answer,
   match answer with
   | Ok rsp =>
       set_cache (<[t := rsp]> (cache (self w)))
         (emit (HttpGet url (username (self w)) (password (self w)) true) w)
   | Raise _ =>
       emit (HttpGet url (username (self w)) (password (self w)) false) w
   end).
Proof.
  intros H url answer. unfold _fetch, bind, get_state. rewrite H.
  unfold call_http_get. fold url. fold answer.
  destruct answer as [rsp|e]; reflexivity.
Qed.

Lemma fetch_steps (t : string) (w : world) : steps w (snd (_fetch http_get t w)).
Proof.
  destruct (cache (self w) !! t) as [v|] eqn:H.
  - rewrite (fetch_hit _ _ _ H). apply rtc_refl.
  - rewrite (fetch_miss _ _ H). simpl.
    destruct (http_get _ _ _ _); apply rtc_once; now constructor.
Qed.

Lemma fetch_ok (t : string) (w w' : world) (v : jvalue) :
  _fetch http_get t w = (Ok v, w') ->
  cache (self w') !! t = Some v /\ uids (self w') = uids (self w) /\
  connected (self w') = connected (self w).
Proof.
  destruct (cache (self w) !! t) as [v0|] eqn:H.
  - rewrite (fetch_hit _ _ _ H). intros [= <- <-]. auto.
  - rewrite (fetch_miss _ _ H). simpl.
    destruct (http_get _ _ _ _) as [rsp|e]; [|discriminate].
    intros [= <- <-]. simpl. split; [apply lookup_insert_eq | auto].
Qed.

(** A projection after [_fetch] does nothing more to the world. *)
Lemma snd_ret {A} (a : A) (w : world) : snd (ret a w) = w.
Proof. reflexivity. Qed.

Lemma snd_lift {A} (r : result A) (w : world) : snd (lift r w) = w.
Proof. reflexivity. Qed.

Lemma snd_bind_pure {A B} (m : M world A) (k : A -> M world B) (w : world) :
  (forall a w', snd (k a w') = w') -> snd (bind m k w) = snd (m w).
Proof. intros Hk. unfold bind. destruct (m w) as [[a|e] w']; [apply Hk | reflexivity]. Qed.

Lemma snd_bind_lift {A B} (m : M world A) (f : A -> result B) (w : world) :
  snd (bind m (fun a => lift (f a)) w) = snd (m w).
Proof. apply snd_bind_pure. reflexivity. Qed.

(** *** The six readers, on a cached topic *)

Lemma readers_hit (t : string) (w : world) (v : jvalue) :
  cache (self w) !! t = Some v -> served_from http_get t v w.
Proof.
  intros H. pose proof (fetch_hit t w v H) as F.
  unfold served_from, get, get_value, get_values, get_with_value,
    get_number_of_values, get_sum_of_values, bind, lift, ret.
  rewrite F. repeat split; try reflexivity; intros.
  - destruct (py_iter v); reflexivity.
  - destruct (py_iter v); reflexivity.
  - destruct (py_iter v) as [items|]; simpl; [|reflexivity].
    destruct (mapM _ items) as [vs|]; simpl; [|reflexivity].
    destruct (mapM number vs); reflexivity.
Qed.

(** *** Every call is a sequence of steps *)

Lemma reader_steps (c : call) (w : world) :
  match c with
  | GetUid _ | CheckConnection => True
  | _ => steps w (run_call http_get py_str c w)
  end.
Proof.
  destruct c; simpl; trivial;
    unfold get, get_with_value, get_value, get_values, get_number_of_values,
      get_sum_of_values;
    try apply fetch_steps;
    (rewrite snd_bind_pure; [apply fetch_steps|]);
    intros;
    repeat first [ apply snd_ret | apply snd_lift
                 | rewrite snd_bind_pure; [|intros] ].
Qed.

(** *** [get_uid] *)

Lemma get_uid_built (a : jvalue) (w : world) :
  uids (self w) <> [] ->
  get_uid http_get a w = (vdict_getitem (uids (self w)) a, w).
Proof.
  intros H. unfold get_uid, bind, get_state, ret, lift.
  destruct (uids (self w)) eqn:E; [congruence|]. now rewrite E.
Qed.

Lemma get_uid_steps (a : jvalue) (w : world) :
  steps w (snd (get_uid http_get a w)).
Proof.
  destruct (uids (self w)) as [|u us] eqn:Hu.
  - unfold get_uid, bind at 1, get_state. rewrite Hu.
    rewrite snd_bind_pure by (intros; reflexivity).
    unfold get, bind.
    pose proof (fetch_steps "nodes" w) as S.
    destruct (_fetch http_get "nodes" w) as [[nodes|e] w1] eqn:F; [|exact S].
    apply fetch_ok in F. destruct F as (Hc & Hu1 & _). rewrite Hu in Hu1.
    simpl in S. unfold lift.
    destruct (py_iter nodes) as [items|e] eqn:Hi; [|exact S].
    destruct (uids_of items []) as [d|e] eqn:Hd; [|exact S].
    simpl. eapply rtc_r; [exact S|].
    exact (step_build w1 nodes items d Hu1 Hc Hi Hd).
  - rewrite get_uid_built by (rewrite Hu; discriminate). apply rtc_refl.
Qed.

(** *** [check_connection] *)

Lemma check_connection_known (w : world) (b : bool) :
  connected (self w) = Some b ->
  check_connection http_get py_str w = (Ok tt, w).
Proof.
  intros H. unfold check_connection, bind, get_state, ret. now rewrite H.
Qed.

Lemma check_connection_steps (w : world) :
  steps w (snd (check_connection http_get py_str w)).
Proof.
  destruct (connected (self w)) as [b|] eqn:Hc.
  - rewrite (check_connection_known _ _ Hc). apply rtc_refl.
  - unfold check_connection, bind at 1, get_state. rewrite Hc.
    unfold bind at 1. unfold io at 1. simpl.
    set (w0 := {| self := self w; trace := _ |}).
    assert (S0 : steps w w0) by (apply rtc_once; apply step_print).
    unfold bind at 1, try_except, get_value. unfold bind at 1 2.
    pose proof (fetch_steps "cluster" w0) as S1.
    destruct (_fetch http_get "cluster" w0) as [[v|e] w1]; simpl in S1.
    + unfold lift at 1. destruct (py_getitem v "name") as [name|e]; simpl.
      * eapply rtc_trans; [exact S0|]. eapply rtc_trans; [exact S1|].
        eapply rtc_l; [apply step_print|]. eapply rtc_l; [apply step_connected|].
        eapply rtc_l; [apply step_print|]. apply rtc_refl.
      * unfold Printer.print_error, bind, lift, io.
        eapply rtc_trans; [exact S0|]. eapply rtc_trans; [exact S1|].
        destruct (Printer.print_error_parts _ _) as [parts|e']; simpl; [|apply rtc_refl].
        destruct (py_join " " parts) as [text|e']; simpl; [|apply rtc_refl].
        eapply rtc_l; [apply step_print|]. eapply rtc_l; [apply step_connected|].
        eapply rtc_l; [apply step_print|]. apply rtc_refl.
    + unfold Printer.print_error, bind, lift, io.
      eapply rtc_trans; [exact S0|]. eapply rtc_trans; [exact S1|].
      destruct (Printer.print_error_parts _ _) as [parts|e']; simpl; [|apply rtc_refl].
      destruct (py_join " " parts) as [text|e']; simpl; [|apply rtc_refl].
      eapply rtc_l; [apply step_print|]. eapply rtc_l; [apply step_connected|].
      eapply rtc_l; [apply step_print|]. apply rtc_refl.
Qed.

Lemma run_call_steps (c : call) (w : world) : steps w (run_call http_get py_str c w).
Proof.
  pose proof (reader_steps c w) as H.
  destruct c; try exact H; simpl.
  - apply get_uid_steps.
  - apply check_connection_steps.
Qed.

Lemma run_calls_steps (cs : list call) (w : world) :
  steps w (run_calls http_get py_str cs w).
Proof.
  revert w. induction cs as [|c cs IH]; intros w; simpl.
  - apply rtc_refl.
  - eapply rtc_trans; [apply run_call_steps | apply IH].
Qed.

Local Opaque Printer.print_error_parts py_join.

(** The first call: the flag is set when the read succeeds, and when it
    raises an exception that [print_error] can print; an error of
    [print_error] itself leaves [check_connection] with the flag unset. *)
Lemma check_connection_first (w : world) :
  connected (self w) = None ->
  let w0 := emit (Print Stderr (Color.white "checking API connection ...")) w in
  let r := check_connection http_get py_str w in
  match get_value http_get "cluster" "name" w0 with
  | (Ok name, w1) =>
      fst r = Ok tt /\ connected (self (snd r)) = Some true
  | (Raise e, w1) =>
      match (parts <- Printer.print_error_parts
                        "could not connect to Redis Enterprise REST-API:" (Some e) ;;
             py_join " " parts)%result with
      | Ok _ => fst r = Ok tt /\ connected (self (snd r)) = Some false
      | Raise e' => r = (Raise e', w1)
      end
  end.
Proof.
  intros Hc w0 r. subst r w0. unfold emit.
  destruct (get_value http_get "cluster" "name" _) as [[name|e] w1] eqn:G;
    unfold check_connection, bind, get_state, try_except; rewrite Hc;
    unfold io at 1; simpl; rewrite G.
  - split; reflexivity.
  - unfold Printer.print_error, bind, lift, io.
    destruct (Printer.print_error_parts _ _) as [parts|e']; simpl; [|reflexivity].
    destruct (py_join " " parts) as [text|e']; simpl; [|reflexivity].
    split; reflexivity.
Qed.

Local Transparent Printer.print_error_parts py_join.

(** *** What steps keep *)

Lemma append_inv_l (p a b : string) : p ++ a = p ++ b -> a = b.
Proof.
  induction p as [|c p IH]; simpl; [auto|]. intros H. injection H as H. auto.
Qed.

Lemma url_of_inj (a t t' : string) : url_of a t = url_of a t' -> t = t'.
Proof.
  unfold url_of. destruct (contains_char ":" a); intros H;
    repeat (apply append_inv_l in H); exact H.
Qed.

Lemma responses_snoc (u : string) (t : list event) (e : event) :
  responses_for u (t ++ [e])%list
  = responses_for u t + (if is_response_for u e then 1 else 0).
Proof.
  unfold responses_for. rewrite List.filter_app, List.length_app. simpl.
  destruct (is_response_for u e); reflexivity.
Qed.

Lemma requests_snoc (u : string) (t : list event) (e : event) :
  requests_for u (t ++ [e])%list
  = requests_for u t + (if is_request_for u e then 1 else 0).
Proof.
  unfold requests_for. rewrite List.filter_app, List.length_app. simpl.
  destruct (is_request_for u e); reflexivity.
Qed.

Lemma builds_snoc (t : list event) (e : event) :
  builds (t ++ [e])%list = builds t + (if is_build e then 1 else 0).
Proof.
  unfold builds. rewrite List.filter_app, List.length_app. simpl.
  destruct (is_build e); reflexivity.
Qed.

Lemma step_addr (w w' : world) : step w w' -> addr (self w') = addr (self w).
Proof. destruct 1; reflexivity. Qed.

Lemma step_cache_mono (w w' : world) (t : string) (v : jvalue) :
  step w w' -> cache (self w) !! t = Some v -> cache (self w') !! t = Some v.
Proof.
  destruct 1; simpl; auto. intros Hv.
  rewrite lookup_insert_ne; [exact Hv | congruence].
Qed.

Lemma step_requests_cached (w w' : world) (t : string) (v : jvalue) :
  step w w' -> cache (self w) !! t = Some v ->
  requests_for (url_of (addr (self w)) t) (trace w')
  = requests_for (url_of (addr (self w)) t) (trace w).
Proof.
  destruct 1 as [w t0 Hm|w t0 rsp Hm|w f line|w b|w nodes items d Hu Hn Hi Hd];
    simpl; intros Hv; try reflexivity;
    rewrite requests_snoc; simpl; try lia.
  - destruct (String.eqb_spec (url_of (addr (self w)) t0) (url_of (addr (self w)) t)) as [E|E];
      [apply url_of_inj in E; congruence | lia].
  - destruct (String.eqb_spec (url_of (addr (self w)) t0) (url_of (addr (self w)) t)) as [E|E];
      [apply url_of_inj in E; congruence | lia].
Qed.

Lemma step_cache_inv (w w' : world) : step w w' -> cache_inv w -> cache_inv w'.
Proof.
  unfold cache_inv.
  destruct 1 as [w t Hm|w t rsp Hm|w f line|w b|w nodes items d Hu Hn Hi Hd];
    simpl; intros Inv t'; specialize (Inv t');
    try exact Inv; rewrite responses_snoc; simpl; try (rewrite Inv; lia).
  - rewrite Bool.andb_false_r. rewrite Inv. lia.
  - rewrite Bool.andb_true_r.
    destruct (String.eqb_spec (url_of (addr (self w)) t) (url_of (addr (self w)) t')) as [E|E].
    + apply url_of_inj in E. subst t'. rewrite lookup_insert_eq. rewrite Inv, Hm. reflexivity.
    + rewrite lookup_insert_ne by congruence. rewrite Inv. lia.
Qed.

Lemma step_uids_kept (w w' : world) :
  step w w' -> uids (self w) <> [] ->
  uids (self w') = uids (self w) /\ builds (trace w') = builds (trace w).
Proof.
  destruct 1; simpl; intros Hu; try (split; [reflexivity|]);
    try rewrite builds_snoc; simpl; try lia; try congruence.
Qed.

Lemma step_uids_inv (w w' : world) : step w w' -> uids_inv w -> uids_inv w'.
Proof.
  unfold uids_inv.
  destruct 1 as [w t Hm|w t rsp Hm|w f line|w b|w nodes items d Hu Hn Hi Hd];
    simpl; try rewrite builds_snoc; simpl; try rewrite Nat.add_0_r; auto.
  - (* a response enters the cache *)
    destruct (uids (self w)); auto.
    intros [Hz|(nodes & items & Hc & Hi & Hd)]; [now left | right].
    exists nodes, items. split; [|auto].
    rewrite lookup_insert_ne; [exact Hc | congruence].
  - (* the index is assigned *)
    rewrite Hu. intros Inv. destruct d as [|p d].
    + right. now exists nodes, items.
    + destruct Inv as [Hz|(nodes' & items' & Hc & Hi' & Hd')]; [lia|].
      congruence.
Qed.

Lemma steps_addr (w w' : world) : steps w w' -> addr (self w') = addr (self w).
Proof.
  induction 1 as [|x y z Hxy _ IH]; [reflexivity|].
  rewrite IH. now apply step_addr.
Qed.

Lemma steps_cache_inv (w w' : world) : steps w w' -> cache_inv w -> cache_inv w'.
Proof. induction 1; eauto using step_cache_inv. Qed.

Lemma steps_uids_inv (w w' : world) : steps w w' -> uids_inv w -> uids_inv w'.
Proof. induction 1; eauto using step_uids_inv. Qed.

Lemma steps_cached (w w' : world) (t : string) (v : jvalue) :
  steps w w' -> cache (self w) !! t = Some v ->
  cache (self w') !! t = Some v /\
  requests_for (url_of (addr (self w)) t) (trace w')
  = requests_for (url_of (addr (self w)) t) (trace w).
Proof.
  induction 1 as [|x y z Hxy _ IH]; [auto|]. intros Hv.
  pose proof (step_cache_mono _ _ _ _ Hxy Hv) as Hy.
  destruct (IH Hy) as [Hz Hr]. split; [exact Hz|].
  rewrite (step_addr _ _ Hxy) in Hr. rewrite Hr.
  now apply (step_requests_cached _ _ _ v).
Qed.

Lemma steps_uids_kept (w w' : world) :
  steps w w' -> uids (self w) <> [] ->
  uids (self w') = uids (self w) /\ builds (trace w') = builds (trace w).
Proof.
  induction 1 as [|x y z Hxy _ IH]; [auto|]. intros Hu.
  destruct (step_uids_kept _ _ Hxy Hu) as [E1 E2].
  destruct IH as [E3 E4]; [congruence|]. split; congruence.
Qed.

Lemma start_cache_inv (c : config) : cache_inv (start c).
Proof. intros t. reflexivity. Qed.

Lemma start_uids_inv (c : config) : uids_inv (start c).
Proof. now left. Qed.

End ApiFacts.

(** C8, as the specification states it, fails: the address of a bracketed
    IPv6 literal carries no port, and the default port is not appended to
    it.  An address that does carry a port has a colon. *)
Lemma C8_counterexample :
  let w := Api.start (Api.mkConfig "[2001:db8::1]" "admin" "secret") in
  ~ (forall addr _topic : string,
       Api.has_explicit_port addr = false ->
       Api.url_of addr _topic = "https://" ++ addr ++ ":9443/v1/" ++ _topic) /\
  Api.has_explicit_port "[2001:db8::1]" = false /\
  Api.trace (snd (Api._fetch Api.one_node_net "nodes" w))
  = [HttpGet "https://[2001:db8::1]/v1/nodes" "admin" "secret" true] /\
  Api.has_explicit_port "[2001:db8::1]:8443" = true /\
  Api.has_explicit_port "cluster.local" = false /\
  Api.has_explicit_port "10.0.0.1:8443" = true.
Proof.
  intros w. split; [|repeat split].
  intros H. specialize (H "[2001:db8::1]" "nodes" eq_refl). discriminate.
Qed.

(** C8, amended.  On a cache miss [_fetch] asks [http_get] once, for
    [https://{addr}/v1/{topic}] when the configured address contains a colon
    anywhere and for [https://{addr}:9443/v1/{topic}] when it contains none,
    with the configured user name and password; whatever body the call
    returns is stored under the topic and returned.  When the call raises,
    nothing is stored. *)
Theorem C8_fetch_on_miss
    (http_get : nat -> string -> string -> string -> result jvalue)
    (w : Api.world) (_topic : string) :
  Api.cache (Api.self w) !! _topic = None ->
  let host := Api.addr (Api.self w) in
  let user := Api.username (Api.self w) in
  let pass := Api.password (Api.self w) in
  let url :=
    if contains_char ":" host
    then "https://" ++ host ++ "/v1/" ++ _topic
    else "https://" ++ host ++ ":9443/v1/" ++ _topic in
  let answer := http_get (List.length (Api.requests (Api.trace w))) url user pass in
  Api._fetch http_get _topic w =
  (answer,
   match answer with
   | Ok rsp =>
       Api.mkWorld
         (Api.mkApiFetcher host user pass
            (<[_topic := rsp]> (Api.cache (Api.self w)))
            (Api.uids (Api.self w)) (Api.connected (Api.self w)))
         (Api.trace w ++ [HttpGet url user pass true])%list
   | Raise _ =>
       Api.mkWorld (Api.self w) (Api.trace w ++ [HttpGet url user pass false])%list
   end).
Proof.
  intros H. simpl. rewrite (fetch_miss http_get _ _ H). simpl.
  unfold Api.url_of. destruct (http_get _ _ _ _); reflexivity.
Qed.

Lemma C8_witness :
  Api._fetch Api.one_node_net "cluster" (Api.start (Api.mkConfig "10.0.0.1:8443" "admin" "secret"))
  = (Ok (JArr [JObj [("addr", JStr "10.0.0.1"); ("uid", JNum 1)]]),
     Api.mkWorld
       (Api.mkApiFetcher "10.0.0.1:8443" "admin" "secret"
          (<["cluster" := JArr [JObj [("addr", JStr "10.0.0.1"); ("uid", JNum 1)]]]> ∅)
          [] None)
       [HttpGet "https://10.0.0.1:8443/v1/cluster" "admin" "secret" true]).
Proof.
  exact (C8_fetch_on_miss Api.one_node_net
           (Api.start (Api.mkConfig "10.0.0.1:8443" "admin" "secret")) "cluster" eq_refl).
Defined.

(** C1, as the specification states it, fails: when the first GET of a
    topic raises, nothing is cached and the next call for the topic performs
    a second GET. *)
Lemma C1_counterexample :
  let w := Api.run_calls Api.flaky_net Api.no_str
             [Api.Get "nodes"; Api.Get "nodes"] (Api.start Api.sample_config) in
  Api.requests_for "https://cluster.local:9443/v1/nodes" (Api.trace w) = 2 /\
  ~ Api.requests_for (Api.url_of (Api.api_addr Api.sample_config) "nodes") (Api.trace w) <= 1.
Proof.
  split; [reflexivity|].
  intros H. vm_compute in H. lia.
Qed.

(** C1, amended.  Over the lifetime of an instance at most one GET that
    returns a response is performed for a topic.  A [_fetch] of a topic that
    is not cached performs one GET for it; the response is cached when the
    GET returns, and nothing is cached when it raises.  Once the topic is
    cached, the trace holds exactly one GET with a response for it, each of
    the six readers returns what it computes from the cached value and
    leaves the world as it is, and whatever calls follow, the cached value
    stays and no further GET is made for the topic. *)
Theorem C1_one_response_per_topic
    (http_get : nat -> string -> string -> string -> result jvalue)
    (py_str : jvalue -> string)
    (_config : Api.config) (cs : list Api.call) (_topic : string) :
  let w := Api.run_calls http_get py_str cs (Api.start _config) in
  let url := Api.url_of (Api.api_addr _config) _topic in
  Api.responses_for url (Api.trace w) <= 1 /\
  (Api.cache (Api.self w) !! _topic = None ->
   let r := Api._fetch http_get _topic w in
   Api.requests_for url (Api.trace (snd r)) = Api.requests_for url (Api.trace w) + 1 /\
   Api.cache (Api.self (snd r)) !! _topic
   = match fst r with Ok rsp => Some rsp | Raise _ => None end) /\
  (forall v,
     Api.cache (Api.self w) !! _topic = Some v ->
     Api.responses_for url (Api.trace w) = 1 /\
     Api.served_from http_get _topic v w /\
     forall cs',
       let w' := Api.run_calls http_get py_str cs' w in
       Api.cache (Api.self w') !! _topic = Some v /\
       Api.requests_for url (Api.trace w') = Api.requests_for url (Api.trace w)).
Proof.
  intros w url.
  assert (S : Api.steps (Api.start _config) w) by apply run_calls_steps.
  pose proof (steps_cache_inv _ _ S (start_cache_inv _config)) as Inv.
  pose proof (steps_addr _ _ S) as Ha. simpl in Ha.
  specialize (Inv _topic). rewrite Ha in Inv. fold url in Inv.
  split; [|split].
  - rewrite Inv. destruct (Api.cache (Api.self w) !! _topic); lia.
  - intros Hn. simpl. rewrite (fetch_miss http_get _ _ Hn). rewrite Ha. fold url.
    simpl. destruct (http_get _ _ _ _) as [rsp|e]; simpl;
      rewrite requests_snoc; simpl; rewrite String.eqb_refl.
    + split; [reflexivity | apply lookup_insert_eq].
    + split; [reflexivity | exact Hn].
  - intros v Hv. rewrite Hv in Inv. split; [exact Inv|].
    split; [now apply readers_hit|].
    intros cs' w'.
    destruct (steps_cached w w' _topic v (run_calls_steps _ _ cs' w) Hv) as [H1 H2].
    rewrite Ha in H2. auto.
Qed.

Lemma C1_witness :
  let w0 := Api.start Api.sample_config in
  let w := Api.run_calls Api.flaky_net Api.no_str [Api.Get "nodes"; Api.Get "nodes"] w0 in
  let v := JArr [JObj [("addr", JStr "10.0.0.1"); ("uid", JNum 1)]] in
  let url := "https://cluster.local:9443/v1/nodes" in
  (Api.requests_for url (Api.trace (snd (Api._fetch Api.flaky_net "nodes" w0))) = 1 /\
   Api.cache (Api.self (snd (Api._fetch Api.flaky_net "nodes" w0))) !! "nodes" = None) /\
  (Api.responses_for url (Api.trace w) = 1 /\
   Api.served_from Api.flaky_net "nodes" v w /\
   forall cs',
     let w' := Api.run_calls Api.flaky_net Api.no_str cs' w in
     Api.cache (Api.self w') !! "nodes" = Some v /\
     Api.requests_for url (Api.trace w') = Api.requests_for url (Api.trace w)).
Proof.
  intros w0 w v url. split.
  - destruct (C1_one_response_per_topic Api.flaky_net Api.no_str Api.sample_config
                [] "nodes") as (_ & H & _).
    apply H. reflexivity.
  - destruct (C1_one_response_per_topic Api.flaky_net Api.no_str Api.sample_config
                [Api.Get "nodes"; Api.Get "nodes"] "nodes") as (_ & _ & H).
    apply (H v). reflexivity.
Defined.

(** C7, as the specification states it, fails: an empty index is what
    [get_uid] takes for an index not yet built.  When the [nodes] topic is
    the empty list, every call assigns the index again (from the cached
    topic: one GET, three builds). *)
Lemma C7_counterexample :
  let w := Api.run_calls Api.no_node_net Api.no_str
             [Api.GetUid (JStr "10.0.0.1"); Api.GetUid (JStr "10.0.0.1");
              Api.GetUid (JStr "10.0.0.2")]
             (Api.start Api.sample_config) in
  Api.builds (Api.trace w) = 3 /\
  List.length (Api.requests (Api.trace w)) = 1 /\
  ~ Api.builds (Api.trace w) <= 1.
Proof.
  split; [reflexivity|]. split; [reflexivity|].
  intros H. vm_compute in H. lia.
Qed.

(** C7, amended.  A call of [get_uid] that finds the index empty gets the
    [nodes] topic (through the cache) and assigns the mapping built from it;
    a call that finds the index non-empty looks the address up and does
    nothing else.  Over the lifetime of an instance, once the index is
    non-empty it has been built exactly once, and whatever calls follow, it
    stays as it is and is not built again. *)
Theorem C7_index_built_once_when_non_empty
    (http_get : nat -> string -> string -> string -> result jvalue)
    (py_str : jvalue -> string)
    (_config : Api.config) (cs : list Api.call) :
  let w := Api.run_calls http_get py_str cs (Api.start _config) in
  (forall a nodes w1 items d,
     Api.uids (Api.self w) = [] ->
     Api.get http_get "nodes" w = (Ok nodes, w1) ->
     py_iter nodes = Ok items ->
     Api.uids_of items [] = Ok d ->
     Api.get_uid http_get a w
     = (vdict_getitem d a, Api.emit BuildUids (Api.set_uids d w1))) /\
  (Api.uids (Api.self w) <> [] ->
   Api.builds (Api.trace w) = 1 /\
   (forall a,
      Api.get_uid http_get a w = (vdict_getitem (Api.uids (Api.self w)) a, w)) /\
   forall cs',
     let w' := Api.run_calls http_get py_str cs' w in
     Api.uids (Api.self w') = Api.uids (Api.self w) /\
     Api.builds (Api.trace w') = 1).
Proof.
  intros w. split.
  - intros a nodes w1 items d Hu Hg Hi Hd.
    unfold Api.get_uid, bind at 1, get_state. rewrite Hu.
    unfold bind, Api.get in *. rewrite Hg. unfold lift. rewrite Hi, Hd.
    reflexivity.
  - intros Hu.
    assert (S : Api.steps (Api.start _config) w) by apply run_calls_steps.
    pose proof (steps_uids_inv _ _ S (start_uids_inv _config)) as Inv.
    unfold Api.uids_inv in Inv.
    destruct (Api.uids (Api.self w)) as [|p us] eqn:E; [congruence|].
    split; [exact Inv|]. split.
    + intros a. rewrite get_uid_built by congruence. now rewrite E.
    + intros cs' w'.
      destruct (steps_uids_kept w w' (run_calls_steps _ _ cs' w)) as [H1 H2];
        [congruence|].
      rewrite E in H1. split; congruence.
Qed.

Lemma C7_witness :
  let w := Api.run_calls Api.one_node_net Api.no_str
             [Api.GetUid (JStr "10.0.0.1")] (Api.start Api.sample_config) in
  Api.builds (Api.trace w) = 1 /\
  (forall a,
     Api.get_uid Api.one_node_net a w = (vdict_getitem (Api.uids (Api.self w)) a, w)) /\
  forall cs',
    let w' := Api.run_calls Api.one_node_net Api.no_str cs' w in
    Api.uids (Api.self w') = Api.uids (Api.self w) /\
    Api.builds (Api.trace w') = 1.
Proof.
  intros w.
  destruct (C7_index_built_once_when_non_empty Api.one_node_net Api.no_str
              Api.sample_config [Api.GetUid (JStr "10.0.0.1")]) as [_ H].
  apply H. discriminate.
Defined.

(** C9, on a network whose requests end with [RemoteDisconnected].  The
    handler of [check_connection] hands the exception to [print_error], which
    takes its [strerror], the value [None], as a part of the message, and
    [join] raises [TypeError].  The error leaves [check_connection], the flag
    stays unset, and the next call asks the network again. *)
Theorem C9_check_connection_propagates :
  let w := Api.start Api.sample_config in
  let r1 := Api.check_connection Api.disconnecting_net Api.no_str w in
  let r2 := Api.check_connection Api.disconnecting_net Api.no_str (snd r1) in
  raises (fst r1) "TypeError" /\
  Api.connected (Api.self (snd r1)) = None /\
  List.length (Api.requests (Api.trace (snd r1))) = 1 /\
  raises (fst r2) "TypeError" /\
  Api.connected (Api.self (snd r2)) = None /\
  List.length (Api.requests (Api.trace (snd r2))) = 2.
Proof.
  repeat split; try reflexivity; eexists; split; reflexivity.
Qed.
(* ================================================================= *)
(** * Further properties                                              *)
(* ================================================================= *)

(** ** The aggregation blocks *)

Section MoreStatsFacts.

Import Stats MoreStats.

Variable F : arith.

Lemma block_stats_aggregate (b : block) (ints : list jobject) :
  block_stats F b ints
  = aggregate F (block_sample F b ints) (py_len (filtered (block_field b) ints)).
Proof. destruct b; reflexivity. Qed.

Lemma block_sample_length (b : block) (ints : list jobject) (xs : list Q) :
  block_sample F b ints = Ok xs ->
  List.length xs = List.length (filtered (block_field b) ints).
Proof. destruct b; apply mapM_length. Qed.

Lemma aggregate_ok (S : result (list Q)) (n : Q) (s : stats) :
  aggregate F S n = Ok s -> exists xs, S = Ok xs /\ xs <> [].
Proof.
  unfold aggregate. destruct S as [xs|e]; simpl; [|discriminate].
  destruct xs; simpl; [discriminate|]. intros _. eexists. split; [reflexivity | discriminate].
Qed.

Lemma aggregate_raise (S : result (list Q)) (n : Q) (e : pyexc) :
  S = Raise e -> aggregate F S n = Raise e.
Proof. now intros ->. Qed.

Lemma mapM_ok {A B} (f : A -> result B) (l : list A) (ys : list B) :
  mapM f l = Ok ys -> Forall (fun x => exists y, f x = Ok y) l.
Proof.
  revert ys. induction l as [|x l IH]; intros ys; simpl; [constructor|].
  destruct (f x) as [y|e] eqn:E; simpl; [|discriminate].
  destruct (mapM f l) as [ys'|e]; simpl; [|discriminate].
  intros _. constructor; eauto.
Qed.

Lemma mapM_raise {A B} (f : A -> result B) (l : list A) (e : pyexc) :
  mapM f l = Raise e -> exists x, In x l /\ f x = Raise e.
Proof.
  induction l as [|x l IH]; simpl; [discriminate|].
  destruct (f x) as [y|e'] eqn:E; simpl.
  - destruct (mapM f l) as [ys'|e'']; simpl; [discriminate|].
    intros [= ->]. destruct IH as (x' & Hin & Hx'); [reflexivity|]. eauto.
  - intros [= ->]. eauto.
Qed.

Lemma mapM_not_ok {A B} (f : A -> result B) (l : list A) (x : A) :
  In x l -> is_ok (f x) = false -> is_ok (mapM f l) = false.
Proof.
  induction l as [|y l IH]; simpl; [intros []|].
  intros [->|Hin] Hx.
  - destruct (f x); [discriminate | reflexivity].
  - destruct (f y); simpl; [|reflexivity].
    specialize (IH Hin Hx). destruct (mapM f l); [discriminate | reflexivity].
Qed.

Lemma filtered_has_field (field : string) (ints : list jobject) (r : jobject) :
  In r (filtered field ints) -> exists v, dict_get field r = Some v.
Proof. intros H. apply filtered_In in H. destruct H as (_ & v & Hv & _). eauto. Qed.

(** Reading the number of a field either returns, or raises [TypeError]. *)
Lemma read_field (field : string) (r : jobject) :
  (exists v, dict_get field r = Some v) ->
  ((exists y, (v <- dict_getitem r field ;; number v)%result = Ok y)
   <-> numeric_field field r) /\
  (forall e, (v <- dict_getitem r field ;; number v)%result = Raise e ->
             exc_class e = "TypeError").
Proof.
  intros (v & Hv). unfold dict_getitem, numeric_field. rewrite Hv. simpl.
  destruct v as [|bb|q|str|l|l]; simpl;
    (split; [split; [intros (y & Hy); try discriminate; eauto
                    | intros (v' & q' & [= <-] & Hq); try discriminate; eauto]
            | intros e [= <-]; reflexivity || discriminate]).
Qed.

(** What [1 - i['cpu_idle']] needs. *)
Lemma read_cpu_idle (r : jobject) (y : Q) :
  (v <- dict_getitem r "cpu_idle" ;; q <- number v ;; f_sub F 1 q)%result = Ok y ->
  numeric_field "cpu_idle" r.
Proof.
  unfold dict_getitem, numeric_field.
  destruct (dict_get "cpu_idle" r) as [v|]; simpl; [|discriminate].
  destruct (number v) as [q|] eqn:E; simpl; [|discriminate]. eauto.
Qed.

(** A block that returns has read a number from each record of its sample. *)
Lemma block_sample_numeric (b : block) (ints : list jobject) (xs : list Q) :
  block_sample F b ints = Ok xs ->
  Forall (numeric_field (block_field b)) (filtered (block_field b) ints).
Proof.
  intros HS. apply List.Forall_forall. intros r Hr.
  destruct b; cbn [block_sample block_field] in *;
    unfold field_sample, cpu_usage_sample in HS;
    apply mapM_ok in HS; rewrite List.Forall_forall in HS;
    destruct (HS r Hr) as (y & Hy);
    try (now apply (read_cpu_idle r y));
    (apply read_field; [now apply (filtered_has_field _ ints) | eauto]).
Qed.

End MoreStatsFacts.

(** X1.  Whenever one of the six min/avg/max/dev blocks returns, whatever
    the arithmetic, its minimum and its maximum are numbers of the sample
    it has read, every number of the sample lies between them, and the
    minimum is at most the maximum: [min] and [max] compare and select,
    they do not round. *)
Theorem stats_within_bounds
    (F : arith) (b : MoreStats.block) (ints : list jobject) (s : Stats.stats) :
  MoreStats.block_stats F b ints = Ok s ->
  exists xs,
    MoreStats.block_sample F b ints = Ok xs /\
    In (Stats.minimum s) xs /\ In (Stats.maximum s) xs /\
    (forall x, In x xs -> (Stats.minimum s <= x)%Q /\ (x <= Stats.maximum s)%Q) /\
    (Stats.minimum s <= Stats.maximum s)%Q.
Proof.
  intros H. pose proof H as H'. rewrite block_stats_aggregate in H'.
  destruct (aggregate_ok F _ _ _ H') as (xs & HS & Hne).
  assert (L : py_len (Stats.filtered (MoreStats.block_field b) ints) = py_len xs).
  { apply py_len_eq. symmetry. now apply (block_sample_length F). }
  destruct (block_summarises F _ _ xs s HS L H') as ((Hmin & Hle) & _ & (Hmax & Hge) & _).
  exists xs. repeat split; auto.
Qed.

Lemma stats_within_bounds_witness :
  exists xs,
    MoreStats.block_sample Stats.rational_arith MoreStats.FreeMemory
      [Stats.interval "free_memory" 4; Stats.interval "free_memory" 0;
       Stats.interval "free_memory" 9] = Ok xs /\
    In 4%Q xs /\ In 9%Q xs /\
    (forall x, In x xs -> (4 <= x)%Q /\ (x <= 9)%Q) /\
    (4 <= 9)%Q.
Proof.
  apply (stats_within_bounds Stats.rational_arith MoreStats.FreeMemory
           [Stats.interval "free_memory" 4; Stats.interval "free_memory" 0;
            Stats.interval "free_memory" 9]
           (Stats.mkStats 4 (13 # 2) 9 (2684354560 # 1073741824))).
  vm_compute. reflexivity.
Defined.

(** X2.  The blocks of [check_databases_usage_002], [check_ram_usage],
    [check_ephemeral_storage_usage] and [check_persistent_storage_usage]
    behave as those of [check_databases_usage_001] and [check_cpu_usage] do,
    whatever the arithmetic: with no record passing the filter of their
    field they raise [ValueError]; what they return for a sample is its
    minimum, its mean, its maximum and its population standard deviation in
    that arithmetic; and they return whenever the sample is not empty and
    the operations of the mean and of the deviation return. *)
Theorem blocks_summarise (F : arith) (b : MoreStats.block) (ints : list jobject) :
  (Stats.filtered (MoreStats.block_field b) ints = [] ->
   raises (MoreStats.block_stats F b ints) "ValueError") /\
  (forall xs,
     MoreStats.block_sample F b ints = Ok xs ->
     (forall s, MoreStats.block_stats F b ints = Ok s -> Stats.summarises F s xs) /\
     (xs <> [] -> is_ok (Stats.population_std_dev F xs) = true ->
      is_ok (MoreStats.block_stats F b ints) = true)).
Proof.
  rewrite block_stats_aggregate. split.
  - intros H. apply block_empty. destruct b; cbn; unfold MoreStats.field_sample,
      Stats.total_req_sample, Stats.cpu_usage_sample; cbn in H; now rewrite H.
  - intros xs HS.
    assert (L : py_len (Stats.filtered (MoreStats.block_field b) ints) = py_len xs).
    { apply py_len_eq. symmetry. now apply (block_sample_length F). }
    split.
    + intros s H. exact (block_summarises F _ _ xs s HS L H).
    + intros Hne Hok. exact (block_returns F _ _ xs HS L Hne Hok).
Qed.

Lemma blocks_summarise_witness :
  let ints := [Stats.interval "ephemeral_storage_avail" 3;
               Stats.interval "ephemeral_storage_avail" 5] in
  raises (MoreStats.block_stats Stats.rational_arith MoreStats.UsedMemory
            [Stats.interval "used_memory" 0])
         "ValueError" /\
  (forall s,
     MoreStats.block_stats Stats.rational_arith MoreStats.EphemeralAvail ints = Ok s ->
     Stats.summarises Stats.rational_arith s [3; 5]%Q) /\
  is_ok (MoreStats.block_stats Stats.rational_arith MoreStats.EphemeralAvail ints) = true.
Proof.
  intros ints.
  destruct (blocks_summarise Stats.rational_arith MoreStats.UsedMemory
              [Stats.interval "used_memory" 0]) as [Hempty _].
  destruct (blocks_summarise Stats.rational_arith MoreStats.EphemeralAvail ints)
    as [_ Hsample].
  destruct (Hsample [3; 5]%Q eq_refl) as [Hsum Hret].
  split; [|split].
  - apply Hempty. reflexivity.
  - exact Hsum.
  - apply Hret; [discriminate | reflexivity].
Defined.

(** X3.  A record that does not pass the filter of the field (the field is
    absent, zero, null or empty) has no influence on what a block returns
    or raises, wherever it stands in the list. *)
Theorem rejected_record_is_ignored
    (F : arith) (b : MoreStats.block) (l1 l2 : list jobject) (r : jobject) :
  get_truthy (MoreStats.block_field b) r = false ->
  MoreStats.block_stats F b (l1 ++ r :: l2) = MoreStats.block_stats F b (l1 ++ l2).
Proof.
  intros H.
  assert (E : Stats.filtered (MoreStats.block_field b) (l1 ++ r :: l2)
              = Stats.filtered (MoreStats.block_field b) (l1 ++ l2)).
  { unfold Stats.filtered. rewrite !List.filter_app. simpl. now rewrite H. }
  rewrite !block_stats_aggregate.
  destruct b; cbn [MoreStats.block_sample MoreStats.block_field] in *;
    unfold MoreStats.field_sample, Stats.cpu_usage_sample; now rewrite E.
Qed.

Lemma rejected_record_is_ignored_witness :
  MoreStats.block_stats Stats.rational_arith MoreStats.CpuUsage
    ([Stats.interval "cpu_idle" (1 # 2)] ++ Stats.interval "cpu_idle" 0
       :: [Stats.interval "cpu_idle" (1 # 4)])
  = MoreStats.block_stats Stats.rational_arith MoreStats.CpuUsage
      ([Stats.interval "cpu_idle" (1 # 2)] ++ [Stats.interval "cpu_idle" (1 # 4)]).
Proof.
  apply (rejected_record_is_ignored Stats.rational_arith MoreStats.CpuUsage). reflexivity.
Defined.

(** X4.  Whatever the arithmetic, a block returns only if at least one
    record passes the filter of its field and every record that passes
    holds a number under the field.  In the five blocks that aggregate the
    field itself, a record that passes with a value that is not a number
    makes the block raise [TypeError], whatever the other records hold. *)
Theorem block_outcome (F : arith) (b : MoreStats.block) (ints : list jobject) :
  let sample := Stats.filtered (MoreStats.block_field b) ints in
  (forall s,
     MoreStats.block_stats F b ints = Ok s ->
     sample <> [] /\ Forall (MoreStats.numeric_field (MoreStats.block_field b)) sample) /\
  (b <> MoreStats.CpuUsage ->
   (exists r, In r sample /\ ~ MoreStats.numeric_field (MoreStats.block_field b) r) ->
   raises (MoreStats.block_stats F b ints) "TypeError").
Proof.
  cbv zeta. split.
  - intros s H. rewrite block_stats_aggregate in H.
    destruct (aggregate_ok F _ _ _ H) as (xs & HS & Hne). split.
    + intros E. apply (block_sample_length F) in HS. rewrite E in HS.
      destruct xs; [congruence | discriminate].
    + exact (block_sample_numeric F b ints xs HS).
  - intros Hb (r & Hr & Hnum).
    assert (HS : MoreStats.block_sample F b ints
                 = MoreStats.field_sample (MoreStats.block_field b) ints)
      by (destruct b; [reflexivity | reflexivity | congruence | reflexivity
                      | reflexivity | reflexivity]).
    destruct (MoreStats.field_sample (MoreStats.block_field b) ints) as [xs|e] eqn:E.
    + exfalso. apply Hnum. unfold MoreStats.field_sample in E.
      apply mapM_ok in E. rewrite List.Forall_forall in E.
      destruct (E r Hr) as (y & Hy).
      apply read_field; [now apply (filtered_has_field _ ints) | eauto].
    + rewrite block_stats_aggregate, (aggregate_raise F _ _ e HS).
      exists e. split; [reflexivity|].
      unfold MoreStats.field_sample in E. apply mapM_raise in E.
      destruct E as (r' & Hr' & He).
      apply (read_field (MoreStats.block_field b) r'); [|exact He].
      now apply (filtered_has_field _ ints).
Qed.

Lemma block_outcome_witness :
  raises
    (MoreStats.block_stats Stats.rational_arith MoreStats.FreeMemory
       [Stats.interval "free_memory" 4; [("free_memory", JStr "n/a")]])
    "TypeError".
Proof.
  destruct (block_outcome Stats.rational_arith MoreStats.FreeMemory
              [Stats.interval "free_memory" 4; [("free_memory", JStr "n/a")]])
    as [_ H].
  apply H.
  - discriminate.
  - exists [("free_memory", JStr "n/a")]. split.
    + right. left. reflexivity.
    + intros (v & q & Hv & Hq). injection Hv as <-. discriminate.
Defined.


(** ** The cached client, further *)

Section MoreApiFacts.

Import Api ApiSpec.

Variable http_get : nat -> string -> string -> string -> result jvalue.
Variable py_str : jvalue -> string.



End MoreApiFacts.



Section UidFacts.

Import Api ApiSpec.

Lemma vdict_set_string_keyed (b : string) (u : jvalue) (d : list (jvalue * jvalue)) :
  string_keyed d -> string_keyed (vdict_set (JStr b) u d).
Proof.
  unfold string_keyed. induction d as [|[k v] d IH]; simpl; intros H.
  - constructor; [now exists b | constructor].
  - inversion H as [|? ? Hk Hd]; subst.
    destruct (py_eq k (JStr b)); constructor; simpl in *; auto.
Qed.

Lemma vdict_get_set (a b : string) (u : jvalue) (d : list (jvalue * jvalue)) :
  string_keyed d ->
  vdict_get (JStr a) (vdict_set (JStr b) u d)
  = if String.eqb b a then Some u else vdict_get (JStr a) d.
Proof.
  unfold string_keyed. induction d as [|[k v] d IH]; simpl; intros H.
  - reflexivity.
  - inversion H as [|? ? (c & Hc) Hd]; subst. simpl in Hc. subst k. simpl.
    destruct (String.eqb_spec c b) as [->|Hcb]; simpl.
    + destruct (String.eqb b a); reflexivity.
    + rewrite (IH Hd). destruct (String.eqb_spec c a) as [->|Hca]; [|reflexivity].
      destruct (String.eqb_spec b a) as [->|]; [congruence | reflexivity].
Qed.

Lemma uids_of_lookup (items : list jvalue) (d0 : list (jvalue * jvalue)) :
  Forall addressed items -> string_keyed d0 ->
  exists d,
    uids_of items d0 = Ok d /\ string_keyed d /\
    forall a,
      vdict_get (JStr a) d
      = match uid_of_addr a items with
        | Some u => Some u
        | None => vdict_get (JStr a) d0
        end.
Proof.
  intros Hitems. revert d0.
  induction Hitems as [|node rest (b & u & Hb & Hu) _ IH]; intros d0 Hd0.
  - exists d0. repeat split; auto.
  - destruct (IH (vdict_set (JStr b) u d0) (vdict_set_string_keyed b u d0 Hd0))
      as (d & Hd & Hk & Hget).
    exists d. split; [|split; [exact Hk|]].
    + simpl. rewrite Hb, Hu. simpl. exact Hd.
    + intros a. rewrite Hget. simpl. rewrite Hb, Hu.
      destruct (uid_of_addr a rest); [reflexivity|].
      rewrite (vdict_get_set a b u d0 Hd0). destruct (String.eqb b a); reflexivity.
Qed.

Lemma get_uid_builds
    (http_get : nat -> string -> string -> string -> result jvalue)
    (a nodes : jvalue) (w w1 : world) (items : list jvalue)
    (d : list (jvalue * jvalue)) :
  uids (self w) = [] ->
  get http_get "nodes" w = (Ok nodes, w1) ->
  py_iter nodes = Ok items ->
  uids_of items [] = Ok d ->
  get_uid http_get a w = (vdict_getitem d a, emit BuildUids (set_uids d w1)).
Proof.
  intros Hu Hg Hi Hd.
  unfold get_uid, bind at 1, get_state. rewrite Hu.
  unfold bind, get in *. rewrite Hg. unfold lift. rewrite Hi, Hd.
  reflexivity.
Qed.

End UidFacts.

(** X6.  With the [nodes] topic cached as a list of nodes that each have a
    string [addr] and a [uid], the first [get_uid] builds the index without
    a network call and returns the uid of the last node listed under the
    address; for an address that no node has it raises [KeyError] with that
    address. *)
Theorem get_uid_looks_up_last_node
    (http_get : nat -> string -> string -> string -> result jvalue)
    (w : Api.world) (items : list jvalue) (a : string) :
  Api.uids (Api.self w) = [] ->
  Api.cache (Api.self w) !! "nodes" = Some (JArr items) ->
  Forall ApiSpec.addressed items ->
  fst (Api.get_uid http_get (JStr a) w)
  = match ApiSpec.uid_of_addr a items with
    | Some u => Ok u
    | None => Raise (KeyError (JStr a))
    end /\
  Api.trace (snd (Api.get_uid http_get (JStr a) w)) = (Api.trace w ++ [BuildUids])%list.
Proof.
  intros Hu Hc Hitems.
  destruct (uids_of_lookup items [] Hitems) as (d & Hd & _ & Hget); [constructor|].
  rewrite (get_uid_builds http_get (JStr a) (JArr items) w w items d Hu
             (fetch_hit http_get _ _ _ Hc) eq_refl Hd).
  split; [|reflexivity].
  unfold vdict_getitem. simpl. rewrite Hget. simpl.
  destruct (ApiSpec.uid_of_addr a items); reflexivity.
Qed.

Lemma get_uid_looks_up_last_node_witness :
  let nodes := [JObj [("addr", JStr "10.0.0.1"); ("uid", JNum 1)];
                JObj [("addr", JStr "10.0.0.2"); ("uid", JNum 2)];
                JObj [("addr", JStr "10.0.0.1"); ("uid", JNum 3)]] in
  let w := Api.set_cache (<["nodes" := JArr nodes]> ∅) (Api.start Api.sample_config) in
  fst (Api.get_uid Api.no_node_net (JStr "10.0.0.1") w) = Ok (JNum 3) /\
  fst (Api.get_uid Api.no_node_net (JStr "10.0.0.9") w) = Raise (KeyError (JStr "10.0.0.9")).
Proof.
  intros nodes w.
  assert (Hn : Forall ApiSpec.addressed nodes).
  { repeat constructor; eexists; eexists; split; reflexivity. }
  split.
  - exact (proj1 (get_uid_looks_up_last_node Api.no_node_net w nodes "10.0.0.1"
                    eq_refl eq_refl Hn)).
  - exact (proj1 (get_uid_looks_up_last_node Api.no_node_net w nodes "10.0.0.9"
                    eq_refl eq_refl Hn)).
Defined.

Section ConnectionFacts.

Import Api ApiSpec.

Variable http_get : nat -> string -> string -> string -> result jvalue.
Variable py_str : jvalue -> string.

(** The exceptions of a failed subscript can be printed by [print_error]:
    their [args] start with a string and they have none of the three
    attributes. *)
Lemma getitem_error_printable (v : jvalue) (k msg : string) (e : pyexc) :
  py_getitem v k = Raise e ->
  exists text,
    (parts <- Printer.print_error_parts msg (Some e) ;; py_join " " parts)%result
    = Ok text.
Proof.
  destruct v; simpl; try (intros [= <-]; eexists; reflexivity).
  unfold dict_getitem. destruct (dict_get k l); [discriminate|].
  intros [= <-]. eexists. reflexivity.
Qed.

Lemma n_requests_emit (e : event) (w : world) :
  n_requests (emit e w) = n_requests w + (if is_request e then 1 else 0).
Proof.
  unfold n_requests, emit, requests. cbn [trace].
  rewrite List.filter_app, List.length_app. simpl.
  destruct (is_request e); reflexivity.
Qed.

Lemma n_requests_fetch (t : string) (w : world) :
  n_requests (snd (_fetch http_get t w))
  = n_requests w + match cache (self w) !! t with Some _ => 0 | None => 1 end.
Proof.
  destruct (cache (self w) !! t) as [v|] eqn:H.
  - rewrite (fetch_hit http_get _ _ _ H). simpl. lia.
  - rewrite (fetch_miss http_get _ _ H). simpl.
    destruct (http_get _ _ _ _); simpl.
    + change (n_requests (emit (HttpGet (url_of (addr (self w)) t)
                                  (username (self w)) (password (self w)) true) w)
              = n_requests w + 1).
      now rewrite n_requests_emit.
    + now rewrite n_requests_emit.
Qed.

Lemma one_more_fetch (t : string) (w : world) :
  at_most_one_more w (snd (_fetch http_get t w)).
Proof.
  exists (match cache (self w) !! t with Some _ => 0 | None => 1 end).
  split; [destruct (cache (self w) !! t); lia | apply n_requests_fetch].
Qed.

Lemma one_more_quiet (w w1 w2 : world) :
  at_most_one_more w w1 -> n_requests w2 = n_requests w1 -> at_most_one_more w w2.
Proof. intros (k & Hk & E) E2. exists k. split; [exact Hk | congruence]. Qed.

Lemma n_requests_get_uid (a : jvalue) (w : world) :
  at_most_one_more w (snd (get_uid http_get a w)).
Proof.
  destruct (uids (self w)) as [|u us] eqn:Hu.
  - unfold get_uid, bind at 1, get_state. rewrite Hu.
    rewrite snd_bind_pure by (intros; reflexivity).
    unfold get, bind.
    pose proof (one_more_fetch "nodes" w) as F.
    destruct (_fetch http_get "nodes" w) as [[nodes|e] w1]; simpl in F; [|exact F].
    unfold lift. destruct (py_iter nodes) as [items|e]; simpl; [|exact F].
    destruct (uids_of items []) as [d|e]; simpl; [|exact F].
    apply (one_more_quiet w w1); [exact F|].
    unfold n_requests, requests. simpl.
    rewrite List.filter_app, List.length_app. simpl. lia.
  - rewrite get_uid_built by (rewrite Hu; discriminate). exists 0. simpl. split; lia.
Qed.

Lemma n_requests_check_connection (w : world) :
  at_most_one_more w (snd (check_connection http_get py_str w)).
Proof.
  destruct (connected (self w)) as [b|] eqn:Hc.
  - rewrite (check_connection_known _ _ _ _ Hc). exists 0. simpl. split; lia.
  - unfold check_connection, bind at 1, get_state. rewrite Hc.
    unfold bind at 1. unfold io at 1. simpl.
    set (w0 := {| self := self w; trace := _ |}).
    assert (E0 : n_requests w0 = n_requests w).
    { unfold n_requests, requests, w0. cbn [trace].
      rewrite List.filter_app, List.length_app. simpl. lia. }
    unfold bind at 1, try_except, get_value. unfold bind at 1 2.
    assert (B : at_most_one_more w (snd (_fetch http_get "cluster" w0))).
    { destruct (one_more_fetch "cluster" w0) as (k & Hk & E).
      exists k. split; [exact Hk | congruence]. }
    clear E0.
    destruct (_fetch http_get "cluster" w0) as [[v|e] w1]; simpl in B.
    + unfold lift at 1. destruct (py_getitem v "name") as [name|e]; simpl.
      * apply (one_more_quiet w w1); [exact B|].
        unfold n_requests, requests. simpl.
        rewrite !List.filter_app, !List.length_app. simpl. lia.
      * unfold Printer.print_error, bind, lift, io.
        destruct (Printer.print_error_parts _ _) as [parts|e']; simpl; [|exact B].
        destruct (py_join " " parts) as [text|e']; simpl; [|exact B].
        apply (one_more_quiet w w1); [exact B|].
        unfold n_requests, requests. simpl.
        rewrite !List.filter_app, !List.length_app. simpl. lia.
    + unfold Printer.print_error, bind, lift, io.
      destruct (Printer.print_error_parts _ _) as [parts|e']; simpl; [|exact B].
      destruct (py_join " " parts) as [text|e']; simpl; [|exact B].
      apply (one_more_quiet w w1); [exact B|].
      unfold n_requests, requests. simpl.
      rewrite !List.filter_app, !List.length_app. simpl. lia.
Qed.

Lemma n_requests_run_call (c : call) (w : world) :
  at_most_one_more w (run_call http_get py_str c w).
Proof.
  destruct c; simpl;
    try apply n_requests_get_uid; try apply n_requests_check_connection;
    unfold get, get_with_value, get_value, get_values, get_number_of_values,
      get_sum_of_values;
    try apply one_more_fetch;
    (rewrite snd_bind_pure; [apply one_more_fetch|]);
    intros;
    repeat first [ apply snd_ret | apply snd_lift
                 | rewrite snd_bind_pure; [|intros] ].
Qed.

End ConnectionFacts.

(** X7.  No method of the client makes more than one GET request: a call of
    [get], [get_with_value], [get_value], [get_values],
    [get_number_of_values], [get_sum_of_values], [get_uid] or
    [check_connection] adds at most one request to those made before, so a
    client that makes [n] calls causes at most [n] requests. *)
Theorem each_call_makes_at_most_one_request
    (http_get : nat -> string -> string -> string -> result jvalue)
    (py_str : jvalue -> string) :
  (forall (c : Api.call) (w : Api.world),
     ApiSpec.n_requests w <= ApiSpec.n_requests (Api.run_call http_get py_str c w)
     <= ApiSpec.n_requests w + 1) /\
  (forall (cs : list Api.call) (w : Api.world),
     ApiSpec.n_requests w <= ApiSpec.n_requests (Api.run_calls http_get py_str cs w)
     <= ApiSpec.n_requests w + List.length cs).
Proof.
  assert (H1 : forall c w,
             ApiSpec.n_requests w <= ApiSpec.n_requests (Api.run_call http_get py_str c w)
             <= ApiSpec.n_requests w + 1).
  { intros c w. destruct (n_requests_run_call http_get py_str c w) as (k & Hk & E).
    rewrite E. lia. }
  split; [exact H1|].
  intros cs. induction cs as [|c cs IH]; intros w; [simpl; lia|].
  change (Api.run_calls http_get py_str (c :: cs) w)
    with (Api.run_calls http_get py_str cs (Api.run_call http_get py_str c w)).
  specialize (H1 c w). specialize (IH (Api.run_call http_get py_str c w)).
  cbn [List.length]. lia.
Qed.

(** X8.  When the read of the [cluster] topic returns a response, whatever
    it is, [check_connection] returns normally: the flag becomes [True] if
    the response is an object with a [name], and [False] otherwise (the
    [KeyError] or [TypeError] of the subscript is printed, not raised). *)
Theorem check_connection_on_response
    (http_get : nat -> string -> string -> string -> result jvalue)
    (py_str : jvalue -> string) (w w1 : Api.world) (v : jvalue) :
  Api.connected (Api.self w) = None ->
  Api.get http_get "cluster"
    (Api.emit (Print Stderr (Color.white "checking API connection ...")) w)
  = (Ok v, w1) ->
  fst (Api.check_connection http_get py_str w) = Ok tt /\
  Api.connected (Api.self (snd (Api.check_connection http_get py_str w)))
  = Some (is_ok (py_getitem v "name")).
Proof.
  intros Hc Hg. pose proof (check_connection_first http_get py_str w Hc) as F.
  cbv zeta in F. unfold Api.get_value, bind in F. unfold Api.get in Hg.
  rewrite Hg in F. unfold lift in F.
  destruct (py_getitem v "name") as [name|e] eqn:E; [exact F|].
  destruct (getitem_error_printable v "name"
              "could not connect to Redis Enterprise REST-API:" e E) as (text & Ht).
  rewrite Ht in F. exact F.
Qed.

Lemma check_connection_on_response_witness :
  let w := Api.start Api.sample_config in
  (fst (Api.check_connection Api.one_node_net Api.no_str w) = Ok tt /\
   Api.connected (Api.self (snd (Api.check_connection Api.one_node_net Api.no_str w)))
   = Some true) /\
  (fst (Api.check_connection Api.no_node_net Api.no_str w) = Ok tt /\
   Api.connected (Api.self (snd (Api.check_connection Api.no_node_net Api.no_str w)))
   = Some false).
Proof.
  intros w. split.
  - exact (check_connection_on_response Api.one_node_net Api.no_str w _
             (JObj [("name", JStr "cluster.local")]) eq_refl eq_refl).
  - exact (check_connection_on_response Api.no_node_net Api.no_str w _
             (JArr []) eq_refl eq_refl).
Defined.

(** X9.  [check_connection] is memoized by its own return: whenever a call
    returns normally the flag is set, and every later call returns at once
    and leaves the client, the trace and the network untouched. *)
Theorem check_connection_returns_once
    (http_get : nat -> string -> string -> string -> result jvalue)
    (py_str : jvalue -> string) (w w' : Api.world) :
  Api.check_connection http_get py_str w = (Ok tt, w') ->
  Api.connected (Api.self w') <> None /\
  Api.check_connection http_get py_str w' = (Ok tt, w').
Proof.
  intros H.
  assert (Hc : Api.connected (Api.self w') <> None).
  { destruct (Api.connected (Api.self w)) as [b|] eqn:Hc.
    - rewrite (check_connection_known http_get py_str w b Hc) in H.
      injection H as <-. congruence.
    - pose proof (check_connection_first http_get py_str w Hc) as F.
      cbv zeta in F. rewrite H in F. simpl in F.
      destruct (Api.get_value _ _ _ _) as [[name|e] w1].
      + destruct F as [_ F]. congruence.
      + destruct (rbind _ _) as [text|e'].
        * destruct F as [_ F]. congruence.
        * discriminate. }
  split; [exact Hc|].
  destruct (Api.connected (Api.self w')) as [b|] eqn:E; [|congruence].
  exact (check_connection_known http_get py_str w' b E).
Qed.

Lemma check_connection_returns_once_witness :
  let w' := snd (Api.check_connection Api.one_node_net Api.no_str
                   (Api.start Api.sample_config)) in
  Api.connected (Api.self w') <> None /\
  Api.check_connection Api.one_node_net Api.no_str w' = (Ok tt, w').
Proof.
  intros w'.
  apply (check_connection_returns_once Api.one_node_net Api.no_str
           (Api.start Api.sample_config) w').
  reflexivity.
Defined.

(** X10.  A failure of the network is handed to the caller as it is: when
    the topic is not cached and [http_get] raises, each of the six readers
    raises that same exception, the request is on the trace, and the topic
    stays out of the cache; so does [get_uid] when it has to fetch
    [nodes]. *)
Theorem network_failure_propagates
    (http_get : nat -> string -> string -> string -> result jvalue)
    (_topic : string) (w : Api.world) (e : pyexc) :
  Api.cache (Api.self w) !! _topic = None ->
  http_get (ApiSpec.n_requests w) (Api.url_of (Api.addr (Api.self w)) _topic)
           (Api.username (Api.self w)) (Api.password (Api.self w)) = Raise e ->
  let w' :=
    Api.emit (HttpGet (Api.url_of (Api.addr (Api.self w)) _topic)
                      (Api.username (Api.self w)) (Api.password (Api.self w)) false) w in
  Api.cache (Api.self w') !! _topic = None /\
  Api.get http_get _topic w = (Raise e, w') /\
  (forall k, Api.get_value http_get _topic k w = (Raise e, w')) /\
  (forall k, Api.get_values http_get _topic k w = (Raise e, w')) /\
  (forall k x, Api.get_with_value http_get _topic k x w = (Raise e, w')) /\
  Api.get_number_of_values http_get _topic w = (Raise e, w') /\
  (forall k, Api.get_sum_of_values http_get _topic k w = (Raise e, w')) /\
  (_topic = "nodes" -> Api.uids (Api.self w) = [] ->
   forall a, Api.get_uid http_get a w = (Raise e, w')).
Proof.
  intros Hc He w'.
  assert (F : Api._fetch http_get _topic w = (Raise e, w')).
  { rewrite (fetch_miss http_get _ _ Hc). unfold ApiSpec.n_requests in He.
    rewrite He. reflexivity. }
  split; [exact Hc|].
  unfold Api.get, Api.get_value, Api.get_values, Api.get_with_value,
    Api.get_number_of_values, Api.get_sum_of_values, bind.
  rewrite F. repeat split.
  intros -> Hu a. unfold Api.get_uid, bind at 1, get_state. rewrite Hu.
  unfold bind, Api.get. rewrite F. reflexivity.
Qed.

Lemma network_failure_propagates_witness :
  let w := Api.start Api.sample_config in
  Api.get_value Api.disconnecting_net "cluster" "name" w
  = (Raise Api.RemoteDisconnected,
     Api.emit (HttpGet "https://cluster.local:9443/v1/cluster" "admin" "secret" false) w).
Proof.
  intros w.
  destruct (network_failure_propagates Api.disconnecting_net "cluster" w
              Api.RemoteDisconnected eq_refl eq_refl) as (_ & _ & H & _).
  exact (H "name").
Defined.

(** X11.  [print_error] prints one line or nothing.  Without an exception
    it writes the message, in red, to the standard error stream.  With an
    exception it takes the detail from the exception by the precedence of
    [PrinterSpec.detail]: when the detail is a string it writes the
    message, a space and that string, in red, as one line, and returns; when
    the detail is there but is not a string it raises [TypeError], and when
    it is missing [AttributeError] or [IndexError]; whenever it raises it
    has written nothing. *)
Theorem print_error_prints_or_raises
    (_msg : string) (_ex : option pyexc) (t : list event) :
  match _ex with
  | None =>
      Printer.print_error _msg _ex t = (Ok tt, (t ++ [Print Stderr (Color.red _msg)])%list)
  | Some ex =>
      match PrinterSpec.detail ex with
      | Some (JStr d) =>
          Printer.print_error _msg _ex t
          = (Ok tt, (t ++ [Print Stderr (Color.red (_msg ++ " " ++ d))])%list)
      | Some _ =>
          exists e, Printer.print_error _msg _ex t = (Raise e, t) /\
                    exc_class e = "TypeError"
      | None =>
          exists e, Printer.print_error _msg _ex t = (Raise e, t) /\
                    (exc_class e = "AttributeError" \/ exc_class e = "IndexError")
      end
  end.
Proof.
  unfold Printer.print_error, bind, lift.
  destruct _ex as [ex|]; [|reflexivity].
  unfold PrinterSpec.detail, Printer.print_error_parts.
  destruct (exc_reason ex) as [[v|[v|]]|].
  - destruct v; simpl;
      first [reflexivity | eexists; split; [reflexivity | now left]].
  - destruct v; simpl; first [reflexivity | eexists; split; reflexivity].
  - simpl. eexists; split; [reflexivity | now left].
  - destruct (exc_strerror ex) as [v|]; [|destruct (exc_stderr ex) as [v|];
      [|destruct (exc_args ex) as [|v args]]];
      try (destruct v; simpl; first [reflexivity | eexists; split; reflexivity]).
    simpl. eexists; split; [reflexivity | now right].
Qed.

Lemma print_error_prints_or_raises_witness :
  Printer.print_error "could not connect" (Some PrinterSpec.connection_refused) []
  = (Ok tt, [Print Stderr (Color.red "could not connect Connection refused")]).
Proof.
  exact (print_error_prints_or_raises "could not connect"
           (Some PrinterSpec.connection_refused) []).
Defined.


(** ** The renderers, further *)

Section MoreRendererFacts.

Lemma upto_newline_no_newline (s : string) :
  contains_char newline (upto_newline s) = false.
Proof.
  induction s as [|c s IH]; [reflexivity|]. cbn [upto_newline].
  destruct (Ascii.eqb_spec c newline) as [->|Hc]; [reflexivity|].
  cbn [contains_char].
  destruct (Ascii.eqb_spec newline c) as [E|_]; [congruence | exact IH].
Qed.

(** [upto_newline] is the first line: the text is it alone, or it, a
    newline and the rest. *)
Lemma upto_newline_first_line (s : string) :
  s = upto_newline s \/ exists rest, s = upto_newline s ++ String newline rest.
Proof.
  induction s as [|c s IH]; [now left|]. cbn [upto_newline].
  destruct (Ascii.eqb_spec c newline) as [->|Hc].
  - right. now exists s.
  - destruct IH as [IH|(rest & IH)].
    + left. now rewrite <- IH.
    + right. exists rest.
      change (String c s = String c (upto_newline s ++ String newline rest)).
      f_equal. exact IH.
Qed.

End MoreRendererFacts.

(** X12.  For each of the five recognised markers both [render_result]
    return normally and print exactly one line on the standard output.  The
    JSON object has the keys [desc], [status], [info], in this order, with
    [remedy] between [status] and [info] when there is one, and holds the
    [info] of the outcome as it is; the text line has the four fields glyph,
    description, status, info, and the remedy as a fifth when there is
    one. *)
Theorem recognised_marker_is_rendered
    (json_dumps py_str : jvalue -> string) (o : outcome) (f : check)
    (t : list event) (st : status) :
  normalize (o_marker o) = Some st ->
  exists jp bp,
    JsonRenderer.render_result json_dumps o f t
    = (Ok tt, (t ++ [Print Stdout (json_dumps (JObj jp))])%list) /\
    BasicRenderer.render_result py_str o f t
    = (Ok tt, (t ++ [Print Stdout (join " " bp)])%list) /\
    JsonRenderer.to_print o f = Ok jp /\
    BasicRenderer.to_print py_str o f = Ok bp /\
    map fst jp = match json_remedy jp with
                 | Some _ => ["desc"; "status"; "remedy"; "info"]
                 | None => ["desc"; "status"; "info"]
                 end /\
    dict_get "info" jp = Some (JObj (o_info o)) /\
    List.length bp = match basic_remedy bp with Some _ => 5 | None => 4 end /\
    (json_remedy jp = None <-> basic_remedy bp = None).
Proof.
  intros Hst.
  unfold JsonRenderer.render_result, BasicRenderer.render_result, bind, lift.
  rewrite json_to_print_eq, basic_to_print_eq, Hst.
  eexists. eexists. split; [reflexivity|]. split; [reflexivity|].
  split; [reflexivity|]. split; [reflexivity|].
  destruct (remedy_of st (doc_text o f)); cbn; repeat split; congruence.
Qed.

Lemma recognised_marker_is_rendered_witness :
  let o := mkOutcome (MStr "") [] None in
  exists jp bp,
    JsonRenderer.render_result no_dumps o plain_check []
    = (Ok tt, [Print Stdout (no_dumps (JObj jp))]) /\
    BasicRenderer.render_result no_dumps o plain_check []
    = (Ok tt, [Print Stdout (join " " bp)]) /\
    jp = [("desc", JStr "check open TCP ports of each node");
          ("status", JStr "SKIPPED"); ("info", JObj [])].
Proof.
  intros o.
  destruct (recognised_marker_is_rendered no_dumps no_dumps o plain_check [] Skipped eq_refl)
    as (jp & bp & Hj & Hb & Hjp & _).
  exists jp, bp. split; [exact Hj|]. split; [exact Hb|].
  vm_compute in Hjp. now injection Hjp as <-.
Defined.

(** X13.  The description a renderer shows is the first line of the text it
    is taken from (the description of the outcome, or the documentation of
    the check): it has no newline in it, and the text is that line alone or
    that line followed by a newline and more.  A remedy has no newline
    either. *)
Theorem description_is_first_line
    (py_str : jvalue -> string) (o : outcome) (f : check)
    (jp : jobject) (bp : list string) :
  JsonRenderer.to_print o f = Ok jp ->
  BasicRenderer.to_print py_str o f = Ok bp ->
  exists d,
    dict_get "desc" jp = Some (JStr d) /\ nth_error bp 1 = Some d /\
    contains_char newline d = false /\
    (doc_text o f = d \/ exists rest, doc_text o f = d ++ String newline rest) /\
    (forall r, json_remedy jp = Some (JStr r) -> contains_char newline r = false).
Proof.
  rewrite json_to_print_eq, basic_to_print_eq.
  destruct (normalize (o_marker o)) as [st|]; [|discriminate].
  intros [= <-] [= <-].
  exists (upto_newline (doc_text o f)).
  split; [reflexivity|]. split; [reflexivity|].
  split; [apply upto_newline_no_newline|].
  split; [apply upto_newline_first_line|].
  intros r. destruct (remedy_of st (doc_text o f)) as [r0|] eqn:Hr; cbn;
    [|discriminate].
  intros [= <-]. apply remedy_of_some in Hr.
  destruct Hr as (_ & pre & post & _ & ->). apply upto_newline_no_newline.
Qed.

Lemma description_is_first_line_witness :
  let o := mkOutcome (MBool false) [] None in
  exists d,
    contains_char newline d = false /\
    (doc_text o shard_check = d \/
     exists rest, doc_text o shard_check = d ++ String newline rest).
Proof.
  intros o.
  destruct (description_is_first_line no_dumps o shard_check
              [("desc", JStr "check shard placement"); ("status", JStr "FAILED");
               ("remedy", JStr "move shards"); ("info", JObj [])]
              [Color.red "[-]"; "check shard placement"; Color.red "[FAILED]"; "";
               join " " [Color.cyan "Remedy:"; "move shards"]]
              eq_refl eq_refl) as (d & _ & _ & Hn & Hd & _).
  exists d. split; [exact Hn | exact Hd].
Defined.

(** ** Checks that use the client alone *)

Section CheckFacts.

Import Api ApiSpec Checks CheckSpec.

Variable http_get : nat -> string -> string -> string -> result jvalue.
Variable py_str : jvalue -> string.

(** A check that gets one topic and then computes leaves the world as the
    get left it. *)
Lemma get_then_pure {B} (t : string) (k : jvalue -> M world B) (w : world) :
  (forall a w', snd (k a w') = w') ->
  at_most_one_more w (snd (bind (get http_get t) k w)).
Proof.
  intros Hk. rewrite snd_bind_pure by exact Hk. apply one_more_fetch.
Qed.

Lemma py_eq_refl_hashable (k : jvalue) : hashable k = true -> py_eq k k = true.
Proof.
  destruct k; simpl; try discriminate; intros _; auto.
  - now destruct b.
  - apply Qeq_bool_iff. reflexivity.
  - apply String.eqb_refl.
Qed.

Lemma as_key_ok (v k : jvalue) : as_key v = Ok k -> k = v /\ hashable v = true.
Proof. unfold as_key. destruct (hashable v); [intros [= <-]; auto | discriminate]. Qed.

Lemma vdict_set_values (Q : jvalue -> Prop) (k v : jvalue) (d : list (jvalue * jvalue)) :
  Q v -> Forall (fun kv => Q (snd kv)) d -> Forall (fun kv => Q (snd kv)) (vdict_set k v d).
Proof.
  intros Hv. induction d as [|[k' v'] d IH]; simpl; intros H.
  - constructor; [exact Hv | constructor].
  - inversion H as [|? ? H1 H2]; subst.
    destruct (py_eq k' k); constructor; auto.
Qed.

Lemma vdict_set_keeps (k k2 v2 : jvalue) (d : list (jvalue * jvalue)) :
  vdict_get k d <> None -> vdict_get k (vdict_set k2 v2 d) <> None.
Proof.
  induction d as [|[k' v'] d IH]; simpl; [congruence|].
  destruct (py_eq k' k2) eqn:E2; simpl; destruct (py_eq k' k); auto; discriminate.
Qed.

Lemma vdict_set_present (k v : jvalue) (d : list (jvalue * jvalue)) :
  hashable k = true -> vdict_get k (vdict_set k v d) = Some v.
Proof.
  intros Hk. induction d as [|[k' v'] d IH]; simpl.
  - now rewrite py_eq_refl_hashable.
  - destruct (py_eq k' k) eqn:E; simpl; rewrite E; auto.
Qed.

(** *** [check_software_version] *)

Lemma software_version_world (w : world) :
  snd (check_software_version http_get py_str w) = snd (_fetch http_get "nodes" w).
Proof.
  unfold check_software_version, bind at 1.
  destruct (get_values http_get "nodes" "uid" w) as [[ids|e] w1] eqn:G.
  - unfold get_values, bind in G.
    destruct (_fetch http_get "nodes" w) as [[rsp|e] w0] eqn:F; [|discriminate].
    assert (w1 = w0) as ->.
    { unfold lift in G. destruct (py_iter rsp); [destruct (mapM _ _)|]; now inversion G. }
    apply fetch_ok in F. destruct F as (Hc & _).
    rewrite snd_bind_pure by (intros; reflexivity).
    unfold get_values. rewrite snd_bind_pure.
    + now rewrite (fetch_hit http_get _ _ _ Hc).
    + intros. rewrite snd_bind_pure; [apply snd_lift | intros; apply snd_lift].
  - unfold get_values, bind in G. simpl.
    destruct (_fetch http_get "nodes" w) as [[rsp|e'] w0]; simpl.
    + unfold lift in G. destruct (py_iter rsp); [destruct (mapM _ _)|]; now inversion G.
    + now inversion G.
Qed.

Lemma software_version_ok (w w' : world) (r : report) :
  check_software_version http_get py_str w = (Ok r, w') ->
  exists rsp items ids vers,
    get http_get "nodes" w = (Ok rsp, w') /\
    cache (self w') !! "nodes" = Some rsp /\
    py_iter rsp = Ok items /\
    mapM (fun node => py_getitem node "uid") items = Ok ids /\
    mapM (fun node => py_getitem node "software_version") items = Ok vers /\
    r = mkReport MNone (node_kwargs py_str (combine ids vers)) None.
Proof.
  unfold check_software_version, bind at 1.
  destruct (get_values http_get "nodes" "uid" w) as [[ids|e] w1] eqn:G; [|discriminate].
  unfold get_values, bind in G. unfold get.
  destruct (_fetch http_get "nodes" w) as [[rsp|e] w0] eqn:F; [|discriminate].
  unfold lift in G. destruct (py_iter rsp) as [items|e] eqn:Hi; [|discriminate].
  destruct (mapM _ items) as [ids'|e] eqn:Hm; [|discriminate].
  injection G as <- <-.
  pose proof (fetch_ok http_get _ _ _ _ F) as (Hc & _).
  unfold bind, get_values, bind. rewrite (fetch_hit http_get _ _ _ Hc).
  unfold lift. rewrite Hi.
  destruct (mapM (fun node => py_getitem node "software_version") items) as [vers|e] eqn:Hv;
    [|discriminate].
  unfold ret. intros [= <- <-].
  exists rsp, items, ids', vers. repeat split; auto.
Qed.

(** *** [check_database_config_004] *)

Lemma vdict_set_entries (R : jvalue * jvalue -> Prop) (k v : jvalue)
    (d : list (jvalue * jvalue)) :
  (forall k', py_eq k' k = true -> R (k', v)) -> R (k, v) ->
  Forall R d -> Forall R (vdict_set k v d).
Proof.
  intros Hr Hn. induction d as [|[k' v'] d IH]; simpl; intros H.
  - constructor; [exact Hn | constructor].
  - inversion H as [|? ? H1 H2]; subst.
    destruct (py_eq k' k) eqn:E; constructor; auto.
Qed.

Lemma modules_info_spec (all items : list jvalue) (d info : list (jvalue * jvalue)) :
  modules_info items d = Ok info ->
  (forall bdb, In bdb items -> In bdb all) ->
  Forall (from_database all) d ->
  Forall (from_database all) info /\
  (forall k, vdict_get k d <> None -> vdict_get k info <> None) /\
  Forall (listed info) items.
Proof.
  revert d. induction items as [|bdb rest IH]; intros d; simpl.
  - intros [= <-] _ Hd. repeat split; auto.
  - destruct (py_getitem bdb "name") as [name|e] eqn:Hn; simpl; [|discriminate].
    destruct (py_getitem bdb "module_list") as [ml|e] eqn:Hm; simpl; [|discriminate].
    destruct (as_key name) as [key|e] eqn:Hk; simpl; [|discriminate].
    apply as_key_ok in Hk. destruct Hk as [-> Hh].
    intros H Hall Hd.
    destruct (IH _ H) as (Hv & Hkeep & Hl).
    { intros b Hb. apply Hall. now right. }
    { apply vdict_set_entries; [| |exact Hd].
      - intros k' E. exists bdb, name, ml. repeat split; auto.
      - exists bdb, name, ml. repeat split; auto.
        simpl. now apply py_eq_refl_hashable. }
    split; [exact Hv|]. split.
    + intros k Hk. apply Hkeep. now apply vdict_set_keeps.
    + constructor; [|exact Hl].
      destruct (vdict_get name info) as [v|] eqn:E.
      * now exists name, v.
      * exfalso. apply (Hkeep name); [|exact E].
        rewrite vdict_set_present by exact Hh. discriminate.
Qed.

(** *** [check_databases_config_002] *)

Lemma oss_ok_iff (bdb : jvalue) (ok : bool) :
  (shards_placement <- py_getitem bdb "shards_placement" ;;
   ok <- (if py_eq shards_placement (JStr "sparse") then
            proxy_policy <- py_getitem bdb "proxy_policy" ;;
            Ok (py_eq proxy_policy (JStr "all-master-shards"))
          else Ok false) ;;
   Ok ok)%result = Ok ok ->
  (ok = true <-> oss_well_configured bdb).
Proof.
  unfold oss_well_configured.
  destruct (py_getitem bdb "shards_placement") as [sp|e]; simpl; [|discriminate].
  destruct (py_eq sp (JStr "sparse")) eqn:Es.
  - destruct (py_getitem bdb "proxy_policy") as [pp|e]; simpl; [|discriminate].
    intros [= <-]. split.
    + intros Hp. now exists sp, pp.
    + intros (sp' & pp' & [= <-] & _ & [= <-] & Hp). exact Hp.
  - simpl. intros [= <-]. split; [discriminate|].
    intros (sp' & pp' & [= <-] & Hs & _). congruence.
Qed.

Lemma oss_info_values (Q : jvalue -> Prop) (items : list jvalue)
    (d info : list (jvalue * jvalue)) :
  oss_info items d = Ok info ->
  Forall (fun kv => Q (snd kv)) d ->
  (forall bdb ok, In bdb items -> oss_enabled bdb ->
                  (ok = true <-> oss_well_configured bdb) -> Q (JBool ok)) ->
  Forall (fun kv => Q (snd kv)) info.
Proof.
  revert d. induction items as [|bdb rest IH]; intros d.
  - simpl. intros [= <-] Hd _. exact Hd.
  - cbn [oss_info].
    destruct (py_getitem bdb "oss_cluster") as [oc|e] eqn:Ho; [|discriminate].
    cbn [rbind]. destruct (truthy oc) eqn:T.
    + destruct (py_getitem bdb "shards_placement") as [sp|e] eqn:Hs; [|discriminate].
      cbn [rbind].
      destruct (if py_eq sp (JStr "sparse")
                then (proxy_policy <- py_getitem bdb "proxy_policy" ;;
                      Ok (py_eq proxy_policy (JStr "all-master-shards")))%result
                else Ok false) as [ok|e] eqn:Hok; [|discriminate].
      cbn [rbind].
      destruct (py_getitem bdb "name") as [name|e]; [|discriminate]. cbn [rbind].
      destruct (as_key name) as [key|e]; [|discriminate]. cbn [rbind].
      intros H Hd HQ. apply (IH _ H).
      * apply vdict_set_values; [|exact Hd].
        apply (HQ bdb ok); [now left | now exists oc |].
        apply oss_ok_iff. rewrite Hs. cbn [rbind]. rewrite Hok. reflexivity.
      * intros b ok' Hin. apply HQ. now right.
    + intros H Hd HQ. apply (IH _ H Hd). intros b ok' Hin. apply HQ. now right.
Qed.

Lemma vdict_set_not_nil (k v : jvalue) (d : list (jvalue * jvalue)) :
  vdict_set k v d <> [].
Proof. destruct d as [|[k' v'] d]; simpl; [|destruct (py_eq k' k)]; discriminate. Qed.

Lemma oss_info_keeps (items : list jvalue) (d info : list (jvalue * jvalue)) :
  oss_info items d = Ok info -> d <> [] -> info <> [].
Proof.
  revert d. induction items as [|bdb rest IH]; intros d.
  - simpl. now intros [= <-].
  - cbn [oss_info].
    destruct (py_getitem bdb "oss_cluster") as [oc|e]; [|discriminate].
    cbn [rbind]. destruct (truthy oc).
    + destruct (py_getitem bdb "shards_placement") as [sp|e]; [|discriminate].
      cbn [rbind].
      destruct (if py_eq sp (JStr "sparse") then _ else _) as [ok|e]; [|discriminate].
      cbn [rbind].
      destruct (py_getitem bdb "name") as [name|e]; [|discriminate]. cbn [rbind].
      destruct (as_key name) as [key|e]; [|discriminate]. cbn [rbind].
      intros H _. apply (IH _ H). apply vdict_set_not_nil.
    + intros H Hd. exact (IH _ H Hd).
Qed.

Lemma oss_info_empty (items : list jvalue) (info : list (jvalue * jvalue)) :
  oss_info items [] = Ok info ->
  (info = [] <-> Forall (fun bdb => ~ oss_enabled bdb) items).
Proof.
  induction items as [|bdb rest IH].
  - simpl. intros [= <-]. split; auto.
  - cbn [oss_info].
    destruct (py_getitem bdb "oss_cluster") as [oc|e] eqn:Ho; [|discriminate].
    cbn [rbind]. destruct (truthy oc) eqn:T.
    + destruct (py_getitem bdb "shards_placement") as [sp|e]; [|discriminate].
      cbn [rbind].
      destruct (if py_eq sp (JStr "sparse") then _ else _) as [ok|e]; [|discriminate].
      cbn [rbind].
      destruct (py_getitem bdb "name") as [name|e]; [|discriminate]. cbn [rbind].
      destruct (as_key name) as [key|e]; [|discriminate]. cbn [rbind].
      intros H. split.
      * intros E. exfalso. apply (oss_info_keeps _ _ _ H); [discriminate | exact E].
      * intros F. inversion F as [|? ? Hn _]; subst. exfalso. apply Hn. now exists oc.
    + intros H. rewrite (IH H). split.
      * intros F. constructor; [|exact F].
        intros (v & Hv & Tv). rewrite Ho in Hv. injection Hv as <-. congruence.
      * intros F. now inversion F.
Qed.

Lemma py_all_true (vs : list jvalue) :
  Forall (fun v => truthy v = true) vs -> py_all vs = true.
Proof. intros H. unfold py_all. apply forallb_forall. now apply List.Forall_forall. Qed.

Lemma py_all_false (vs : list jvalue) :
  py_all vs = false -> exists v, In v vs /\ truthy v = false.
Proof.
  unfold py_all. induction vs as [|v vs IH]; simpl; [discriminate|].
  destruct (truthy v) eqn:T; simpl.
  - intros H. destruct (IH H) as (x & Hx & Tx). exists x. auto.
  - intros _. exists v. auto.
Qed.

(** *** [check_databases_status_001] and [check_databases_status_002] *)

Lemma kdict_set_not_nil {A} (k : jvalue) (v : A) (d : list (jvalue * A)) :
  kdict_set k v d <> [].
Proof. destruct d as [|[k' v'] d]; simpl; [|destruct (py_eq k' k)]; discriminate. Qed.

Lemma kdict_set_values {A} (Q : A -> Prop) (k : jvalue) (v : A) (d : list (jvalue * A)) :
  Q v -> Forall (fun kv => Q (snd kv)) d -> Forall (fun kv => Q (snd kv)) (kdict_set k v d).
Proof.
  intros Hv. induction d as [|[k' v'] d IH]; simpl; intros H.
  - constructor; [exact Hv | constructor].
  - inversion H as [|? ? H1 H2]; subst.
    destruct (py_eq k' k); constructor; auto.
Qed.

Lemma dict_set_not_nil {A} (k : string) (v : A) (d : list (string * A)) :
  dict_set k v d <> [].
Proof. destruct d as [|[k' v'] d]; simpl; [|destruct (String.eqb k' k)]; discriminate. Qed.

(** The loop over the sources of one database keeps every entry of the info
    non-empty, and adds no database to it. *)
Lemma sources_loop_spec (bdb : jvalue) (sources : list jvalue)
    (info info' : list (jvalue * jobject)) :
  sources_loop bdb sources info = Ok info' ->
  (Forall (fun kv => snd kv <> []) info -> Forall (fun kv => snd kv <> []) info') /\
  (info' = [] <-> info = []) /\
  (info = [] -> sources = []).
Proof.
  revert info. induction sources as [|source rest IH]; intros info.
  - simpl. intros [= <-]. repeat split; auto.
  - cbn [sources_loop].
    destruct (py_getitem source "uri") as [uri|e]; [|discriminate]. cbn [rbind].
    destruct (after_at uri) as [address|e]; [|discriminate]. cbn [rbind].
    destruct (py_getitem source "status") as [st|e]; [|discriminate]. cbn [rbind].
    destruct (py_getitem source "lag") as [lag|e]; [|discriminate]. cbn [rbind].
    destruct (py_getitem source "compression") as [co|e]; [|discriminate]. cbn [rbind].
    destruct (py_getitem bdb "name") as [name|e]; [|discriminate]. cbn [rbind].
    destruct (as_key name) as [key|e]; [|discriminate]. cbn [rbind].
    destruct (kdict_get key info) as [entry|] eqn:Hg; [|discriminate].
    intros H. destruct (IH _ H) as (Hv & He & _).
    assert (Hne : info <> []) by (intros ->; discriminate).
    repeat split.
    + intros Hi. apply Hv. apply (kdict_set_values (fun e : jobject => e <> [])); [apply dict_set_not_nil | exact Hi].
    + intros E. apply He in E. exfalso. exact (kdict_set_not_nil _ _ _ E).
    + intros E. contradiction.
    + intros E. contradiction.
Qed.

Lemma sources_info_spec (sk yk : string) (items : list jvalue)
    (info info' : list (jvalue * jobject)) :
  sources_info sk yk items info = Ok info' ->
  (Forall (fun kv => snd kv <> []) info -> Forall (fun kv => snd kv <> []) info') /\
  (info' = [] <-> info = [] /\ Forall (fun bdb => ~ truthy_field sk bdb) items).
Proof.
  revert info. induction items as [|bdb rest IH]; intros info.
  - simpl. intros [= <-]. split; [auto|]. split; [auto | now intros [? _]].
  - cbn [sources_info].
    destruct (py_getitem bdb sk) as [sources|e] eqn:Hs; [|discriminate]. cbn [rbind].
    destruct (truthy sources) eqn:T.
    + destruct (py_getitem bdb yk) as [sync|e]; [|discriminate]. cbn [rbind].
      destruct (py_getitem bdb "name") as [name|e]; [|discriminate]. cbn [rbind].
      destruct (as_key name) as [key|e]; [|discriminate]. cbn [rbind].
      destruct (py_iter sources) as [ss|e]; [|discriminate]. cbn [rbind].
      destruct (sources_loop bdb ss _) as [info1|e] eqn:Hl; [|discriminate]. cbn [rbind].
      intros H. destruct (IH _ H) as (Hv & He).
      destruct (sources_loop_spec _ _ _ _ Hl) as (Lv & Le & _).
      split.
      * intros Hi. apply Hv, Lv. apply (kdict_set_values (fun e : jobject => e <> [])); [discriminate | exact Hi].
      * split.
        -- intros E. apply He in E. destruct E as [E _]. apply Le in E.
           exfalso. exact (kdict_set_not_nil _ _ _ E).
        -- intros [_ F]. inversion F as [|? ? Hn _]; subst.
           exfalso. apply Hn. now exists sources.
    + cbn [rbind].
      destruct (py_iter sources) as [ss|e]; [|discriminate]. cbn [rbind].
      destruct (sources_loop bdb ss info) as [info1|e] eqn:Hl; [|discriminate]. cbn [rbind].
      intros H. destruct (IH _ H) as (Hv & He).
      destruct (sources_loop_spec _ _ _ _ Hl) as (Lv & Le & _).
      split; [auto|]. rewrite He, Le. split.
      * intros [E F]. split; [exact E|]. constructor; [|exact F].
        intros (v & Hv' & Tv). rewrite Hs in Hv'. injection Hv' as <-. congruence.
      * intros [E F]. split; [exact E | now inversion F].
Qed.

Lemma filterM_In {A} (p : A -> result bool) (l kept : list A) :
  filterM p l = Ok kept -> forall x, In x kept -> In x l.
Proof.
  revert kept. induction l as [|a l IH]; intros kept; simpl.
  - intros [= <-]. auto.
  - destruct (p a) as [b|e]; [|discriminate]. cbn [rbind].
    destruct (filterM p l) as [xs|e]; [|discriminate]. cbn [rbind].
    specialize (IH xs eq_refl).
    intros [= <-] x. destruct b; simpl; intros Hx; [destruct Hx as [->|Hx]|]; auto.
Qed.

Lemma filterM_total {A} (p : A -> result bool) (l : list A) :
  Forall (fun x => exists b, p x = Ok b) l -> exists kept, filterM p l = Ok kept.
Proof.
  induction 1 as [|a l [b Hb] _ [kept IH]]; simpl.
  - now exists [].
  - rewrite Hb, IH. cbn [rbind]. eauto.
Qed.

(** Each [list(x.values())] is a non-empty list, hence truthy, whether the
    filter keeps it or not: [all] of what is kept holds. *)
Lemma in_sync_marker_spec (info : list (jvalue * jobject)) :
  Forall (fun kv => snd kv <> []) info ->
  in_sync_marker info = Ok (match info with [] => MStr "" | _ :: _ => MBool true end).
Proof.
  intros Hv. unfold in_sync_marker. destruct info as [|kv info]; [reflexivity|].
  set (l := map (fun kv => JArr (map snd (snd kv))) (kv :: info)).
  assert (Hl : Forall (fun x => exists a vs, x = JArr (a :: vs)) l).
  { unfold l. apply List.Forall_forall. intros x Hx. apply in_map_iff in Hx.
    destruct Hx as ([k d] & <- & Hin).
    rewrite List.Forall_forall in Hv. specialize (Hv _ Hin). simpl in Hv.
    destruct d as [|[k1 v1] d]; [contradiction|]. simpl. eauto. }
  destruct (filterM_total
              (fun x => (x0 <- py_index0 x ;; Ok (py_eq x0 (JStr "in-sync")))%result) l)
    as [kept Hk].
  { eapply List.Forall_impl; [|exact Hl]. intros x (a & vs & ->). simpl. eauto. }
  rewrite Hk. cbn [rbind]. do 2 f_equal. apply py_all_true.
  apply List.Forall_forall. intros x Hx.
  apply (filterM_In _ _ _ Hk) in Hx.
  rewrite List.Forall_forall in Hl. destruct (Hl _ Hx) as (a & vs & ->). reflexivity.
Qed.

(** *** The checks as a whole *)

Lemma bdbs_check_world {A} (f : list jvalue -> result A) (k : A -> M world report)
    (w : world) :
  (forall a w', snd (k a w') = w') ->
  snd ((bdbs <- get http_get "bdbs" ;;
        items <- lift (py_iter bdbs) ;;
        info <- lift (f items) ;;
        k info)%monad w)
  = snd (_fetch http_get "bdbs" w).
Proof.
  intros Hk. rewrite snd_bind_pure; [reflexivity|].
  intros. rewrite snd_bind_pure; [reflexivity|].
  intros. rewrite snd_bind_pure; [reflexivity|]. exact Hk.
Qed.

Lemma bdbs_check_ok {A} (f : list jvalue -> result A) (h : A -> report)
    (w w' : world) (r : report) :
  (bdbs <- get http_get "bdbs" ;;
   items <- lift (py_iter bdbs) ;;
   info <- lift (f items) ;;
   ret (h info))%monad w = (Ok r, w') ->
  exists bdbs items info,
    get http_get "bdbs" w = (Ok bdbs, w') /\ py_iter bdbs = Ok items /\
    f items = Ok info /\ r = h info.
Proof.
  unfold bind, lift, ret.
  destruct (get http_get "bdbs" w) as [[bdbs|e] w1]; [|discriminate].
  destruct (py_iter bdbs) as [items|e] eqn:Hi; [|discriminate].
  destruct (f items) as [info|e] eqn:Hf; [|discriminate].
  intros [= <- <-]. exists bdbs, items, info. repeat split; assumption.
Qed.

Lemma check_sources_ok (sk yk : string) (w w' : world) (r : report) :
  check_sources http_get sk yk w = (Ok r, w') ->
  exists bdbs items info m,
    get http_get "bdbs" w = (Ok bdbs, w') /\ py_iter bdbs = Ok items /\
    sources_info sk yk items [] = Ok info /\ in_sync_marker info = Ok m /\
    r = mkReport m (map (fun kv => (fst kv, JObj (snd kv))) info) None.
Proof.
  unfold check_sources, bind, lift, ret.
  destruct (get http_get "bdbs" w) as [[bdbs|e] w1]; [|discriminate].
  destruct (py_iter bdbs) as [items|e] eqn:Hi; [|discriminate].
  destruct (sources_info sk yk items []) as [info|e] eqn:Hs; [|discriminate].
  destruct (in_sync_marker info) as [m|e] eqn:Hm; [|discriminate].
  intros [= <- <-]. exists bdbs, items, info, m. repeat split; assumption.
Qed.

End CheckFacts.

(** X14.  [check_software_version] reads the [nodes] topic twice and pairs
    the two readings: when it returns, both the ids and the versions come
    from the one response that is in the cache afterwards, so that there are
    as many versions as ids and the [i]-th version belongs to the [i]-th id;
    the marker is [None] and there is no description. *)
Theorem software_version_one_snapshot
    (http_get : nat -> string -> string -> string -> result jvalue)
    (py_str : jvalue -> string) (w w' : Api.world) (r : Checks.report) :
  Checks.check_software_version http_get py_str w = (Ok r, w') ->
  exists rsp items ids vers,
    Api.get http_get "nodes" w = (Ok rsp, w') /\
    Api.cache (Api.self w') !! "nodes" = Some rsp /\
    py_iter rsp = Ok items /\
    mapM (fun node => py_getitem node "uid") items = Ok ids /\
    mapM (fun node => py_getitem node "software_version") items = Ok vers /\
    List.length ids = List.length items /\
    List.length vers = List.length items /\
    r = Checks.mkReport MNone (Checks.node_kwargs py_str (combine ids vers)) None.
Proof.
  intros H.
  destruct (software_version_ok http_get py_str w w' r H)
    as (rsp & items & ids & vers & Hg & Hc & Hi & Hu & Hv & Hr).
  exists rsp, items, ids, vers.
  repeat split; try assumption.
  - exact (mapM_length _ _ _ Hu).
  - exact (mapM_length _ _ _ Hv).
Qed.

Lemma software_version_one_snapshot_witness :
  let w := Api.start Api.sample_config in
  let w' := snd (Checks.check_software_version CheckSpec.two_version_net Api.no_str w) in
  exists rsp items ids vers,
    Api.get CheckSpec.two_version_net "nodes" w = (Ok rsp, w') /\
    Api.cache (Api.self w') !! "nodes" = Some rsp /\
    py_iter rsp = Ok items /\
    mapM (fun node => py_getitem node "uid") items = Ok ids /\
    mapM (fun node => py_getitem node "software_version") items = Ok vers /\
    List.length ids = List.length items /\
    List.length vers = List.length items /\
    Checks.mkReport MNone
      (Checks.node_kwargs Api.no_str
         [(JNum 1, JStr "6.2.4-54"); (JNum 2, JStr "6.0.20-97")]) None
    = Checks.mkReport MNone (Checks.node_kwargs Api.no_str (combine ids vers)) None.
Proof.
  intros w w'.
  apply (software_version_one_snapshot CheckSpec.two_version_net Api.no_str w w').
  reflexivity.
Defined.

(** X15.  [check_database_config_004] lists the modules of the databases:
    when it returns, the marker is [None], the name of every database of the
    [bdbs] topic is a key of the info, and every entry of the info was
    written for one of these databases, with its module list, or [None] in
    place of an empty one: no entry holds an empty list. *)
Theorem modules_are_listed
    (http_get : nat -> string -> string -> string -> result jvalue)
    (w w' : Api.world) (r : Checks.report) :
  Checks.check_database_config_004 http_get w = (Ok r, w') ->
  exists bdbs items,
    Api.get http_get "bdbs" w = (Ok bdbs, w') /\ py_iter bdbs = Ok items /\
    Checks.r_marker r = MNone /\ Checks.r_desc r = None /\
    Forall (CheckSpec.listed (Checks.r_info r)) items /\
    Forall (CheckSpec.from_database items) (Checks.r_info r) /\
    Forall (fun kv => snd kv <> JArr []) (Checks.r_info r).
Proof.
  intros H.
  destruct (bdbs_check_ok http_get (fun items => Checks.modules_info items [])
              (fun info => Checks.mkReport MNone info None) w w' r H)
    as (bdbs & items & info & Hg & Hi & Hm & ->).
  destruct (modules_info_spec items items [] info Hm) as (Hf & _ & Hl);
    [auto | constructor |].
  exists bdbs, items. repeat split; try assumption.
  simpl. eapply List.Forall_impl; [|exact Hf].
  intros kv (bdb & name & ml & _ & _ & _ & _ & ->).
  destruct ml as [| | | |l|]; simpl; try discriminate.
  - destruct b; discriminate.
  - destruct (is_zero q); discriminate.
  - destruct (String.eqb s ""); discriminate.
  - destruct l; discriminate.
  - destruct l; discriminate.
Qed.

Lemma modules_are_listed_witness :
  let w := Api.start Api.sample_config in
  let w' := snd (Checks.check_database_config_004 CheckSpec.stale_replica_net w) in
  let r := Checks.mkReport MNone [(JStr "db1", JNull)] None in
  exists bdbs items,
    Api.get CheckSpec.stale_replica_net "bdbs" w = (Ok bdbs, w') /\
    py_iter bdbs = Ok items /\
    Checks.r_marker r = MNone /\ Checks.r_desc r = None /\
    Forall (CheckSpec.listed (Checks.r_info r)) items /\
    Forall (CheckSpec.from_database items) (Checks.r_info r) /\
    Forall (fun kv => snd kv <> JArr []) (Checks.r_info r).
Proof.
  intros w w' r.
  apply (modules_are_listed CheckSpec.stale_replica_net w w' r).
  reflexivity.
Defined.

(** X16.  The verdict of [check_databases_config_002].  When the check
    returns, the info is empty, and the marker the empty string (skipped),
    exactly when no database has the OSS cluster API enabled; if some
    database has it enabled and every such database has sparse shards
    placement and the all-master-shards proxy policy, the marker is [True];
    and the marker is [False] only if some database with the OSS cluster API
    enabled is not configured that way. *)
Theorem oss_check_verdict
    (http_get : nat -> string -> string -> string -> result jvalue)
    (w w' : Api.world) (r : Checks.report) :
  Checks.check_databases_config_002 http_get w = (Ok r, w') ->
  exists bdbs items,
    Api.get http_get "bdbs" w = (Ok bdbs, w') /\ py_iter bdbs = Ok items /\
    (Checks.r_info r = [] <-> Forall (fun bdb => ~ CheckSpec.oss_enabled bdb) items) /\
    (Checks.r_marker r = MStr "" <->
     Forall (fun bdb => ~ CheckSpec.oss_enabled bdb) items) /\
    (Exists CheckSpec.oss_enabled items ->
     Forall (fun bdb => CheckSpec.oss_enabled bdb -> CheckSpec.oss_well_configured bdb)
            items ->
     Checks.r_marker r = MBool true) /\
    (Checks.r_marker r = MBool false ->
     Exists (fun bdb => CheckSpec.oss_enabled bdb /\ ~ CheckSpec.oss_well_configured bdb)
            items).
Proof.
  intros H.
  destruct (bdbs_check_ok http_get (fun items => Checks.oss_info items [])
              (fun info => Checks.mkReport (Checks.all_or_skip info) info None) w w' r H)
    as (bdbs & items & info & Hg & Hi & Ho & ->).
  exists bdbs, items. cbn [Checks.r_info Checks.r_marker].
  pose proof (oss_info_empty items info Ho) as He.
  repeat split; try assumption.
  - apply He.
  - apply He.
  - intros Hm. apply He. destruct info; [reflexivity | discriminate].
  - intros F. apply He in F. now subst.
  - intros Hex Hall.
    assert (Hv : Forall (fun kv => snd kv = JBool true) info).
    { apply (oss_info_values (fun v => v = JBool true) items [] info Ho); [constructor|].
      intros bdb ok Hin Hen [_ Hok].
      rewrite List.Forall_forall in Hall. now rewrite (Hok (Hall _ Hin Hen)). }
    destruct info as [|kv info].
    + exfalso. destruct He as [He _]. specialize (He eq_refl).
      rewrite List.Forall_forall in He. apply List.Exists_exists in Hex.
      destruct Hex as (bdb & Hin & Hen). exact (He _ Hin Hen).
    + unfold Checks.all_or_skip. f_equal. apply py_all_true.
      apply List.Forall_forall. intros v Hin. apply in_map_iff in Hin.
      destruct Hin as (kv' & <- & Hin').
      rewrite List.Forall_forall in Hv. now rewrite (Hv _ Hin').
  - intros Hm. destruct info as [|kv info]; [discriminate|].
    unfold Checks.all_or_skip in Hm. injection Hm as Hm.
    change (py_all (map snd (kv :: info)) = false) in Hm.
    destruct (py_all_false _ Hm) as (v & Hin & Tv).
    apply in_map_iff in Hin. destruct Hin as (kv' & <- & Hin').
    assert (Hv : Forall (fun kv0 =>
                   truthy (snd kv0) = true \/
                   Exists (fun bdb => CheckSpec.oss_enabled bdb /\
                                      ~ CheckSpec.oss_well_configured bdb) items)
                 (kv :: info)).
    { apply (oss_info_values
               (fun v => truthy v = true \/
                         Exists (fun bdb => CheckSpec.oss_enabled bdb /\
                                            ~ CheckSpec.oss_well_configured bdb) items)
               items [] _ Ho); [constructor|].
      intros bdb ok Hin Hen [Hok1 Hok2]. destruct ok; [now left|].
      right. apply List.Exists_exists. exists bdb. repeat split; auto.
      intros Hw. specialize (Hok2 Hw). discriminate. }
    rewrite List.Forall_forall in Hv. destruct (Hv _ Hin') as [T|E]; [congruence | exact E].
Qed.

Lemma oss_check_verdict_witness :
  let w := Api.start Api.sample_config in
  exists items,
    py_iter (JArr items) = Ok items /\
    Exists (fun bdb => CheckSpec.oss_enabled bdb /\ ~ CheckSpec.oss_well_configured bdb)
           items.
Proof.
  intros w.
  destruct (oss_check_verdict CheckSpec.stale_replica_net w
              (snd (Checks.check_databases_config_002 CheckSpec.stale_replica_net w))
              (Checks.mkReport (MBool false) [(JStr "db1", JBool false)] None)
              eq_refl)
    as (bdbs & items & Hg & Hi & _ & _ & _ & Hf).
  exists items. split.
  - reflexivity.
  - apply Hf. reflexivity.
Defined.

(** X17.  [check_databases_status_001] and [check_databases_status_002]
    never report a failure.  Each is [check_sources] at its two keys; when
    it returns, either no database has sources, the info is empty and the
    marker is the empty string (skipped), or the info is not empty and the
    marker is [True], whatever the status of the sources: every
    [list(x.values())] that the filter keeps is a non-empty list, which
    [all] takes as true. *)
Theorem sources_checks_never_fail
    (http_get : nat -> string -> string -> string -> result jvalue)
    (sources_key sync_key : string) (w w' : Api.world) (r : Checks.report) :
  Checks.check_sources http_get sources_key sync_key w = (Ok r, w') ->
  exists bdbs items,
    Api.get http_get "bdbs" w = (Ok bdbs, w') /\ py_iter bdbs = Ok items /\
    (Checks.r_info r = [] <->
     Forall (fun bdb => ~ CheckSpec.truthy_field sources_key bdb) items) /\
    Checks.r_marker r = (match Checks.r_info r with
                         | [] => MStr ""
                         | _ :: _ => MBool true
                         end) /\
    Checks.r_marker r <> MBool false.
Proof.
  intros H.
  destruct (check_sources_ok http_get sources_key sync_key w w' r H)
    as (bdbs & items & info & m & Hg & Hi & Hs & Hm & ->).
  destruct (sources_info_spec sources_key sync_key items [] info Hs) as (Hv & He).
  specialize (Hv (List.Forall_nil _)).
  rewrite (in_sync_marker_spec info Hv) in Hm. injection Hm as <-.
  exists bdbs, items. cbn [Checks.r_info Checks.r_marker].
  repeat split; try assumption.
  - intros E. apply He. destruct info; [reflexivity | discriminate].
  - intros F. destruct He as [_ He]. now rewrite He.
  - now destruct info.
  - destruct info; discriminate.
Qed.

Lemma sources_checks_never_fail_witness :
  let w := Api.start Api.sample_config in
  let r := fst (Checks.check_databases_status_001 CheckSpec.stale_replica_net w) in
  let r2 := fst (Checks.check_databases_status_002 CheckSpec.stale_replica_net w) in
  (exists info, r = Ok (Checks.mkReport (MBool true) info None) /\ info <> []) /\
  r2 = Ok (Checks.mkReport (MStr "") [] None).
Proof.
  intros w r r2. split.
  - destruct (sources_checks_never_fail CheckSpec.stale_replica_net
                "replica_sources" "replica_sync" w
                (snd (Checks.check_databases_status_001 CheckSpec.stale_replica_net w))
                (Checks.mkReport (MBool true)
                   [(JStr "db1",
                     JObj [("replica_sync", JStr "stopped");
                           ("10.0.0.5:12000",
                            JObj [("status", JStr "out-of-sync"); ("lag", JNum 100);
                                  ("compression", JNum 0)])])] None)
                eq_refl) as (_ & _ & _ & _ & _ & _).
    eexists. split; [reflexivity | discriminate].
  - reflexivity.
Defined.

(** X18.  Each of these checks makes at most one request, whether it returns
    or raises: what it does to the client is what its first read of the
    topic does, and the second read of [check_software_version] is served
    from the cache. *)
Theorem client_checks_make_at_most_one_request
    (http_get : nat -> string -> string -> string -> result jvalue)
    (py_str : jvalue -> string) (to_gb : jvalue -> result jvalue)
    (_params : option (list (string * jobject))) (w : Api.world) :
  let after_nodes := snd (Api._fetch http_get "nodes" w) in
  let after_bdbs := snd (Api._fetch http_get "bdbs" w) in
  snd (Checks.check_software_version http_get py_str w) = after_nodes /\
  snd (Checks.check_databases_config_001 http_get py_str to_gb _params w) = after_bdbs /\
  snd (Checks.check_databases_config_002 http_get w) = after_bdbs /\
  snd (Checks.check_database_config_004 http_get w) = after_bdbs /\
  snd (Checks.check_databases_status_001 http_get w) = after_bdbs /\
  snd (Checks.check_databases_status_002 http_get w) = after_bdbs /\
  ApiSpec.at_most_one_more w after_nodes /\
  ApiSpec.at_most_one_more w after_bdbs.
Proof.
  intros after_nodes after_bdbs.
  assert (E4 : forall sk yk, snd (Checks.check_sources http_get sk yk w) = after_bdbs).
  { intros sk yk.
    apply (bdbs_check_world http_get (fun items => Checks.sources_info sk yk items [])).
    intros a w0. apply snd_bind_pure. reflexivity. }
  repeat split.
  - apply software_version_world.
  - unfold Checks.check_databases_config_001.
    rewrite snd_bind_pure; [reflexivity|].
    intros a w0. rewrite snd_bind_pure; [reflexivity|].
    intros items w1. destruct _params as [[|p ps]|]; reflexivity.
  - apply (bdbs_check_world http_get (fun items => Checks.oss_info items [])).
    reflexivity.
  - apply (bdbs_check_world http_get (fun items => Checks.modules_info items [])).
    reflexivity.
  - apply E4.
  - apply E4.
  - apply one_more_fetch.
  - apply one_more_fetch.
Qed.

(** *** [check_databases_config_003] *)

Section DenseFacts.

Import Api ApiSpec Checks CheckSpec.

Variable http_get : nat -> string -> string -> string -> result jvalue.
Variable py_str : jvalue -> string.
Variable py_int : jvalue -> result jvalue.

Lemma bind_lift_ok {A B} (a : A) (k : A -> M world B) (w : world) :
  bind (lift (Ok a)) k w = k a w.
Proof. reflexivity. Qed.

Lemma bind_lift_raise {A B} (e : pyexc) (k : A -> M world B) (w : world) :
  bind (lift (Raise e)) k w = (Raise e, w).
Proof. reflexivity. Qed.

Lemma note_spec (bdb value : jvalue) (info info' : list (jvalue * jvalue)) :
  note bdb value info = Ok info' -> exists key, info' = vdict_set key value info.
Proof.
  unfold note. destruct (py_getitem bdb "name") as [name|e]; [|discriminate].
  cbn [rbind]. destruct (as_key name) as [key|e]; [|discriminate].
  cbn [rbind]. intros [= <-]. now exists key.
Qed.

(** What the body of the loop does for one dense database: it leaves the
    info as it is or writes one truthy value into it, and it leaves the
    world as it is or as one read of [shards] leaves it. *)
Lemma dense_body_spec (nodes bdb : jvalue) (info : list (jvalue * jvalue)) (w : world) :
  match dense_body http_get py_str py_int nodes bdb info w with
  | (Ok info', w') =>
      (info' = info \/
       exists key value, truthy value = true /\ info' = vdict_set key value info) /\
      (w' = w \/
       w' = snd (_fetch http_get "shards" w) /\ cache (self w') !! "shards" <> None)
  | (Raise _, w') => w' = w \/ w' = snd (_fetch http_get "shards" w)
  end.
Proof.
  unfold dense_body.
  destruct (py_getitem bdb "proxy_policy") as [pp|e] eqn:Hpp;
    [rewrite bind_lift_ok | rewrite bind_lift_raise; now left].
  destruct (negb (py_eq pp (JStr "single"))).
  - unfold lift. cbn [rbind].
    destruct (note bdb _ info) as [info'|e] eqn:Hn; [|now left].
    split; [|now left]. right.
    destruct (note_spec _ _ _ _ Hn) as [key ->]. exists key. eexists. split; [|reflexivity].
    reflexivity.
  - destruct (py_iter nodes) as [node_items|e];
      [rewrite bind_lift_ok | rewrite bind_lift_raise; now left].
    destruct (filterM (on_endpoint bdb) node_items) as [endpoint_nodes|e];
      [rewrite bind_lift_ok | rewrite bind_lift_raise; now left].
    destruct endpoint_nodes as [|endpoint_node rest].
    + unfold lift.
      destruct (note bdb _ info) as [info'|e] eqn:Hn; [|now left].
      split; [|now left]. right.
      destruct (note_spec _ _ _ _ Hn) as [key ->]. exists key. eexists. split; [|reflexivity].
      reflexivity.
    + unfold bind at 1, get.
      destruct (_fetch http_get "shards" w) as [[shards|e] w1] eqn:F; [|now right].
      cbn [snd].
      assert (Hc : cache (self w1) !! "shards" <> None).
      { destruct (fetch_ok http_get _ _ _ _ F) as [Hc _]. congruence. }
      destruct (py_iter shards) as [shard_items|e];
        [rewrite bind_lift_ok | rewrite bind_lift_raise; now right].
      destruct (shards_off_endpoint py_str py_int bdb endpoint_node shard_items)
        as [result|e] eqn:Hr;
        [rewrite bind_lift_ok | rewrite bind_lift_raise; now right].
      destruct result as [|l ls].
      * unfold ret. split; [now left | right; auto].
      * unfold lift.
        destruct (note bdb _ info) as [info'|e] eqn:Hn; [|now right].
        split; [|right; auto]. right.
        destruct (note_spec _ _ _ _ Hn) as [key ->]. exists key. eexists.
        split; [|reflexivity]. reflexivity.
Qed.

Lemma dense_loop_spec (nodes : jvalue) (bdbs : list jvalue)
    (info info' : list (jvalue * jvalue)) (w w' : world) :
  dense_loop http_get py_str py_int nodes bdbs info w = (Ok info', w') ->
  (Forall (fun kv => truthy (snd kv) = true) info ->
   Forall (fun kv => truthy (snd kv) = true) info') /\
  (Forall (fun bdb => ~ dense bdb) bdbs -> info' = info /\ w' = w).
Proof.
  revert info w. induction bdbs as [|bdb rest IH]; intros info w.
  - simpl. unfold ret. intros [= <- <-]. auto.
  - cbn [dense_loop].
    destruct (py_getitem bdb "shards_placement") as [sp|e] eqn:Hsp;
      [rewrite bind_lift_ok | rewrite bind_lift_raise; discriminate].
    destruct (py_eq sp (JStr "dense")) eqn:Hd.
    + unfold bind at 1.
      pose proof (dense_body_spec nodes bdb info w) as B.
      destruct (dense_body http_get py_str py_int nodes bdb info w) as [[info1|e] w1];
        [|discriminate].
      destruct B as [Hi _]. intros H. destruct (IH _ _ H) as (Hv & _).
      split.
      * intros Ht. apply Hv. destruct Hi as [->|(key & value & Tv & ->)]; [exact Ht|].
        apply (vdict_set_values (fun v => truthy v = true)); assumption.
      * intros F. inversion F as [|? ? Hn _]; subst. exfalso. apply Hn. now exists sp.
    + unfold bind at 1, ret. intros H. destruct (IH _ _ H) as (Hv & Hn).
      split; [exact Hv|]. intros F. apply Hn. now inversion F.
Qed.

Lemma dense_loop_requests (nodes : jvalue) (bdbs : list jvalue)
    (info : list (jvalue * jvalue)) (w : world) :
  n_requests (snd (dense_loop http_get py_str py_int nodes bdbs info w))
  <= n_requests w + match cache (self w) !! "shards" with Some _ => 0 | None => 1 end.
Proof.
  revert info w. induction bdbs as [|bdb rest IH]; intros info w.
  - simpl. lia.
  - cbn [dense_loop].
    destruct (py_getitem bdb "shards_placement") as [sp|e];
      [rewrite bind_lift_ok | rewrite bind_lift_raise; simpl; lia].
    destruct (py_eq sp (JStr "dense")).
    + unfold bind at 1.
      pose proof (dense_body_spec nodes bdb info w) as B.
      pose proof (n_requests_fetch http_get "shards" w) as N.
      destruct (dense_body http_get py_str py_int nodes bdb info w) as [[info1|e] w1].
      * destruct B as [_ [->|[-> Hc]]]; [apply IH|].
        specialize (IH info1 (snd (_fetch http_get "shards" w))).
        destruct (cache (self (snd (_fetch http_get "shards" w))) !! "shards");
          [|congruence].
        lia.
      * cbn [snd]. destruct B as [->| ->]; lia.
    + unfold bind at 1, ret. apply IH.
Qed.

Lemma config_003_ok (w w' : world) (r : report) :
  check_databases_config_003 http_get py_str py_int w = (Ok r, w') ->
  exists nodes bdbs items info w1 w2,
    get http_get "nodes" w = (Ok nodes, w1) /\
    get http_get "bdbs" w1 = (Ok bdbs, w2) /\
    py_iter bdbs = Ok items /\
    dense_loop http_get py_str py_int nodes items [] w2 = (Ok info, w') /\
    r = mkReport (MBool (negb (py_any (map snd info)))) info None.
Proof.
  unfold check_databases_config_003, bind at 1.
  destruct (get http_get "nodes" w) as [[nodes|e] w1] eqn:Hn; [|discriminate].
  unfold bind at 1.
  destruct (get http_get "bdbs" w1) as [[bdbs|e] w2] eqn:Hb; [|discriminate].
  destruct (py_iter bdbs) as [items|e] eqn:Hi;
    [rewrite bind_lift_ok | rewrite bind_lift_raise; discriminate].
  cbn [filter_object_truthy negb]. unfold bind at 1.
  destruct (dense_loop http_get py_str py_int nodes items [] w2) as [[info|e] w3] eqn:Hl;
    [|discriminate].
  unfold ret. intros [= <- <-].
  exists nodes, bdbs, items, info, w1, w2. repeat split; try assumption; reflexivity.
Qed.

Lemma py_any_truthy (vs : list jvalue) :
  Forall (fun v => truthy v = true) vs ->
  py_any vs = match vs with [] => false | _ :: _ => true end.
Proof.
  intros H. destruct H as [|v vs Hv _]; [reflexivity|].
  unfold py_any. simpl. now rewrite Hv.
Qed.

End DenseFacts.

(** X19.  The verdict of [check_databases_config_003].  When the check
    returns, the marker is a boolean, never the empty string: the early
    return for a cluster without dense databases tests a filter object,
    which is always true.  The marker is [True] exactly when the info is
    empty, every value of the info being truthy; and the info is empty when
    no database is dense. *)
Theorem dense_check_verdict
    (http_get : nat -> string -> string -> string -> result jvalue)
    (py_str : jvalue -> string) (py_int : jvalue -> result jvalue)
    (w w' : Api.world) (r : Checks.report) :
  Checks.check_databases_config_003 http_get py_str py_int w = (Ok r, w') ->
  Checks.r_marker r = MBool (match Checks.r_info r with [] => true | _ :: _ => false end) /\
  Checks.r_marker r <> MStr "" /\
  Forall (fun kv => truthy (snd kv) = true) (Checks.r_info r) /\
  exists nodes bdbs items w1 w2,
    Api.get http_get "nodes" w = (Ok nodes, w1) /\
    Api.get http_get "bdbs" w1 = (Ok bdbs, w2) /\
    py_iter bdbs = Ok items /\
    (Forall (fun bdb => ~ CheckSpec.dense bdb) items ->
     Checks.r_info r = [] /\ w' = w2).
Proof.
  intros H.
  destruct (config_003_ok http_get py_str py_int w w' r H)
    as (nodes & bdbs & items & info & w1 & w2 & Hn & Hb & Hi & Hl & ->).
  destruct (dense_loop_spec http_get py_str py_int nodes items [] info w2 w' Hl)
    as (Hv & Hd).
  specialize (Hv (List.Forall_nil _)).
  cbn [Checks.r_marker Checks.r_info].
  assert (Ha : py_any (map snd info) = match info with [] => false | _ :: _ => true end).
  { rewrite py_any_truthy.
    - now destruct info.
    - apply List.Forall_forall. intros v Hin. apply in_map_iff in Hin.
      destruct Hin as (kv & <- & Hin). rewrite List.Forall_forall in Hv. now apply Hv. }
  repeat split.
  - rewrite Ha. now destruct info.
  - discriminate.
  - exact Hv.
  - exists nodes, bdbs, items, w1, w2. repeat split; try assumption; now apply Hd.
Qed.

Lemma dense_check_verdict_witness :
  let w := Api.start Api.sample_config in
  let r := Checks.mkReport (MBool false) [(JStr "db1", JArr [JStr "shard:"])] None in
  let w' := snd (Checks.check_databases_config_003 CheckSpec.dense_net Api.no_str
                   CheckSpec.int_of_uid w) in
  Checks.r_marker r = MBool (match Checks.r_info r with [] => true | _ :: _ => false end) /\
  Checks.r_marker r <> MStr "" /\
  Forall (fun kv => truthy (snd kv) = true) (Checks.r_info r) /\
  exists nodes bdbs items w1 w2,
    Api.get CheckSpec.dense_net "nodes" w = (Ok nodes, w1) /\
    Api.get CheckSpec.dense_net "bdbs" w1 = (Ok bdbs, w2) /\
    py_iter bdbs = Ok items /\
    (Forall (fun bdb => ~ CheckSpec.dense bdb) items ->
     Checks.r_info r = [] /\ w' = w2).
Proof.
  intros w r w'.
  apply (dense_check_verdict CheckSpec.dense_net Api.no_str CheckSpec.int_of_uid w w' r).
  reflexivity.
Defined.

(** X20.  [check_databases_config_003] makes at most three requests,
    whether it returns or raises: one for [nodes], one for [bdbs], and one
    for [shards] however many dense databases there are, the later reads of
    [shards] being served from the cache. *)
Theorem dense_check_makes_at_most_three_requests
    (http_get : nat -> string -> string -> string -> result jvalue)
    (py_str : jvalue -> string) (py_int : jvalue -> result jvalue) (w : Api.world) :
  ApiSpec.n_requests (snd (Checks.check_databases_config_003 http_get py_str py_int w))
  <= ApiSpec.n_requests w + 3.
Proof.
  unfold Checks.check_databases_config_003, bind at 1, Api.get.
  pose proof (n_requests_fetch http_get "nodes" w) as N1.
  destruct (Api._fetch http_get "nodes" w) as [[nodes|e] w1]; cbn [snd] in *.
  2: { destruct (Api.cache (Api.self w) !! "nodes"); lia. }
  unfold bind at 1.
  pose proof (n_requests_fetch http_get "bdbs" w1) as N2.
  destruct (Api._fetch http_get "bdbs" w1) as [[bdbs|e] w2]; cbn [snd] in *.
  2: { destruct (Api.cache (Api.self w) !! "nodes");
       destruct (Api.cache (Api.self w1) !! "bdbs"); lia. }
  destruct (py_iter bdbs) as [items|e];
    [rewrite bind_lift_ok | rewrite bind_lift_raise; cbn [snd]].
  2: { destruct (Api.cache (Api.self w) !! "nodes");
       destruct (Api.cache (Api.self w1) !! "bdbs"); lia. }
  cbn [Checks.filter_object_truthy negb].
  rewrite snd_bind_pure by reflexivity.
  pose proof (dense_loop_requests http_get py_str py_int nodes items [] w2) as N3.
  destruct (Api.cache (Api.self w) !! "nodes");
    destruct (Api.cache (Api.self w1) !! "bdbs");
    destruct (Api.cache (Api.self w2) !! "shards"); lia.
Qed.

(** *** [check_databases_config_001] *)

Section CompareFacts.

Import Api ApiSpec Checks CheckSpec.

Variable http_get : nat -> string -> string -> string -> result jvalue.
Variable py_str : jvalue -> string.
Variable to_gb : jvalue -> result jvalue.

Lemma mapM_Forall2 {A B} (f : A -> result B) (l : list A) (ys : list B) :
  mapM f l = Ok ys -> Forall2 (fun x y => f x = Ok y) l ys.
Proof.
  revert ys. induction l as [|x l IH]; intros ys; simpl.
  - intros [= <-]. constructor.
  - destruct (f x) as [y|e] eqn:Hx; [|discriminate]. cbn [rbind].
    destruct (mapM f l) as [ys'|e]; [|discriminate]. cbn [rbind].
    intros [= <-]. constructor; auto.
Qed.

Lemma dict_set_entries {A} (R : string * A -> Prop) (k : string) (v : A)
    (d : list (string * A)) :
  R (k, v) -> Forall R d -> Forall R (dict_set k v d).
Proof.
  intros Hn. induction d as [|[k' v'] d IH]; simpl; intros H.
  - constructor; [exact Hn | constructor].
  - inversion H as [|? ? H1 H2]; subst.
    destruct (String.eqb_spec k' k) as [->|_]; constructor; auto.
Qed.

Lemma deviations_spec (bdb : jvalue) (all values info info' : jobject) :
  deviations bdb values info = Ok info' ->
  (forall kv, In kv values -> In kv all) ->
  (Forall (deviation bdb all) info -> Forall (deviation bdb all) info') /\
  (info' = [] <-> info = [] /\ Forall (agrees bdb) values).
Proof.
  revert info. induction values as [|[k v] rest IH]; intros info.
  - simpl. intros [= <-] _. split; [auto|]. split; [auto | now intros [? _]].
  - cbn [deviations].
    destruct (py_getitem bdb k) as [actual|e] eqn:Hk; [|discriminate]. cbn [rbind].
    destruct (py_eq v actual) eqn:E.
    + intros H Hall. destruct (IH _ H) as (Hd & He).
      { intros kv Hin. apply Hall. now right. }
      split; [exact Hd|]. rewrite He. split.
      * intros [Hi F]. split; [exact Hi|]. constructor; [|exact F]. now exists actual.
      * intros [Hi F]. split; [exact Hi | now inversion F].
    + intros H Hall. destruct (IH _ H) as (Hd & He).
      { intros kv Hin. apply Hall. now right. }
      split.
      * intros Hi. apply Hd. apply dict_set_entries; [|exact Hi].
        exists v. repeat split; auto. apply Hall. now left.
      * split.
        -- intros E'. apply He in E'. destruct E' as [E' _].
           exfalso. exact (dict_set_not_nil _ _ _ E').
        -- intros [_ F]. inversion F as [|? ? (a & Ha & Hv) _]; subst.
           simpl in Ha, Hv. congruence.
Qed.

Lemma compare_config_spec (_params : list (string * jobject)) (bdb : jvalue) (r : report) :
  compare_config py_str _params bdb = Ok r -> compared _params bdb r.
Proof.
  unfold compare_config.
  destruct (expected_values _params bdb) as [values|e] eqn:Hv; [|discriminate].
  cbn [rbind].
  destruct (deviations bdb values []) as [info|e] eqn:Hd; [|discriminate].
  cbn [rbind].
  destruct (py_getitem bdb "name") as [name|e]; [|discriminate].
  cbn [rbind]. intros [= <-].
  destruct (deviations_spec bdb values values [] info Hd) as (Hf & He); [auto|].
  exists values, info. repeat split; auto.
  - apply He.
  - intros F. apply He. auto.
Qed.

End CompareFacts.

(** X21.  [check_databases_config_001] with parameters compares every
    database with the values expected of it.  When it returns there is one
    result for each database of the [bdbs] topic, in their order; the result
    of a database is marked [True] exactly when its info is empty, which is
    exactly when the database has the expected value at every expected key;
    and each entry of the info is an expected key with the value that the
    database has in place of the expected one. *)
Theorem config_comparison_verdict
    (http_get : nat -> string -> string -> string -> result jvalue)
    (py_str : jvalue -> string) (to_gb : jvalue -> result jvalue)
    (_params : list (string * jobject)) (w w' : Api.world) (rs : list Checks.report) :
  _params <> [] ->
  Checks.check_databases_config_001 http_get py_str to_gb (Some _params) w = (Ok rs, w') ->
  exists bdbs items,
    Api.get http_get "bdbs" w = (Ok bdbs, w') /\ py_iter bdbs = Ok items /\
    Forall2 (CheckSpec.compared _params) items rs.
Proof.
  intros Hp. unfold Checks.check_databases_config_001, bind at 1.
  destruct (Api.get http_get "bdbs" w) as [[bdbs|e] w1] eqn:Hg; [|discriminate].
  destruct (py_iter bdbs) as [items|e] eqn:Hi;
    [rewrite bind_lift_ok | rewrite bind_lift_raise; discriminate].
  destruct _params as [|p ps]; [contradiction|].
  unfold lift.
  destruct (mapM _ items) as [rs'|e] eqn:Hm; [|discriminate].
  intros [= <- <-]. exists bdbs, items. repeat split; try assumption.
  apply mapM_Forall2 in Hm.
  eapply Forall2_impl; [exact Hm|].
  intros bdb r Hr. exact (compare_config_spec py_str _ _ _ Hr).
Qed.

Lemma config_comparison_verdict_witness :
  let w := Api.start Api.sample_config in
  let w' := snd (Checks.check_databases_config_001 CheckSpec.stale_replica_net Api.no_str
                   (fun v => Ok v) (Some CheckSpec.sample_params) w) in
  let rs := [Checks.mkReport (MBool false) [(JStr "oss_cluster", JBool true)]
               (Some "check configuration of 'db1'")] in
  exists bdbs items,
    Api.get CheckSpec.stale_replica_net "bdbs" w = (Ok bdbs, w') /\
    py_iter bdbs = Ok items /\
    Forall2 (CheckSpec.compared CheckSpec.sample_params) items rs.
Proof.
  intros w w' rs.
  apply (config_comparison_verdict CheckSpec.stale_replica_net Api.no_str (fun v => Ok v)
           CheckSpec.sample_params w w' rs).
  - discriminate.
  - reflexivity.
Defined.

(** *** [check_databases_usage_001] and [check_databases_usage_002] *)

Section UsageFacts.

Import Api ApiSpec Checks CheckSpec.

Variable http_get : nat -> string -> string -> string -> result jvalue.
Variable py_str : jvalue -> string.
Variable block : list jobject -> result Stats.stats.
Variable exceeded : jvalue -> Q -> result bool.
Variable line : Stats.stats -> string.
Variable desc : string -> string.

(** Equality of keys: a key equal to a hashable one is hashable, and equal
    keys equal the same values. *)
Lemma Qeq_bool_compat (p q r : Q) : Qeq_bool p q = true -> Qeq_bool p r = Qeq_bool q r.
Proof.
  intros H. apply Qeq_bool_iff in H.
  destruct (Qeq_bool p r) eqn:E1, (Qeq_bool q r) eqn:E2; try reflexivity.
  - apply Qeq_bool_iff in E1. assert (E : Qeq_bool q r = true).
    { apply Qeq_bool_iff. now rewrite <- H. }
    congruence.
  - apply Qeq_bool_iff in E2. assert (E : Qeq_bool p r = true).
    { apply Qeq_bool_iff. now rewrite H. }
    congruence.
Qed.

Lemma py_eq_key (a b c : jvalue) :
  hashable b = true -> py_eq a b = true -> py_eq a c = py_eq b c.
Proof.
  intros Hb Hab.
  destruct b as [|y|q|t| |]; try discriminate;
    destruct a as [|x|p|s| |]; try discriminate; simpl in Hab.
  - reflexivity.
  - apply Bool.eqb_prop in Hab. now subst.
  - destruct c as [|z|r|u| |]; simpl; try reflexivity.
    + rewrite (Qeq_bool_compat _ _ (num_of_bool z) Hab). destruct y, z; reflexivity.
    + exact (Qeq_bool_compat _ _ _ Hab).
  - destruct c as [|z|r|u| |]; simpl; try reflexivity.
    + rewrite <- (Qeq_bool_compat _ _ (num_of_bool z) Hab). destruct x, z; reflexivity.
    + exact (Qeq_bool_compat _ _ _ Hab).
  - destruct c as [|z|r|u| |]; simpl; try reflexivity;
      exact (Qeq_bool_compat _ _ _ Hab).
  - apply String.eqb_eq in Hab. now subst.
Qed.

Lemma kdict_get_set_same {A} (k : jvalue) (v : A) (d : list (jvalue * A)) :
  hashable k = true -> kdict_get k (kdict_set k v d) = Some v.
Proof.
  intros Hk. induction d as [|[k' v'] d IH]; simpl.
  - now rewrite py_eq_refl_hashable.
  - destruct (py_eq k' k) eqn:E; simpl; rewrite E; auto.
Qed.

Lemma kdict_get_set_other {A} (k k' : jvalue) (v : A) (d : list (jvalue * A)) :
  hashable k' = true -> py_eq k' k = false ->
  kdict_get k (kdict_set k' v d) = kdict_get k d.
Proof.
  intros Hk Hne. induction d as [|[k2 v2] d IH]; simpl.
  - now rewrite Hne.
  - destruct (py_eq k2 k') eqn:E; simpl.
    + now rewrite (py_eq_key k2 k' k Hk E), Hne.
    + now rewrite IH.
Qed.

Lemma kdict_get_In {A} (k : jvalue) (v : A) (d : list (jvalue * A)) :
  kdict_get k d = Some v -> exists k', In (k', v) d /\ py_eq k' k = true.
Proof.
  induction d as [|[k2 v2] d IH]; simpl; [discriminate|].
  destruct (py_eq k2 k) eqn:E.
  - intros [= <-]. exists k2. auto.
  - intros H. destruct (IH H) as (k' & Hin & Hk). exists k'. auto.
Qed.

Lemma kdict_set_entries {A} (R : jvalue * A -> Prop) (k : jvalue) (v : A)
    (d : list (jvalue * A)) :
  (forall k', py_eq k' k = true -> R (k', v)) -> R (k, v) ->
  Forall R d -> Forall R (kdict_set k v d).
Proof.
  intros Hr Hn. induction d as [|[k' v'] d IH]; simpl; intros H.
  - constructor; [exact Hn | constructor].
  - inversion H as [|? ? H1 H2]; subst.
    destruct (py_eq k' k) eqn:E; constructor; auto.
Qed.

Lemma name_key_hashable (bdb key : jvalue) : name_key bdb = Ok key -> hashable key = true.
Proof.
  unfold name_key. destruct (py_getitem bdb "name") as [name|e]; [|discriminate].
  cbn [rbind]. intros H. apply as_key_ok in H. destruct H as [-> H]. exact H.
Qed.

Lemma fetch_keeps (t t' : string) (v : jvalue) (w : world) :
  cache (self w) !! t = Some v -> cache (self (snd (_fetch http_get t' w))) !! t = Some v.
Proof. intros H. exact (proj1 (steps_cached _ _ _ _ (fetch_steps http_get t' w) H)). Qed.

(** One shard: the world is left as the read of the statistics leaves it,
    and on return the verdict on this shard stands under the name of the
    database, nothing else of the results having changed. *)
Lemma usage_shard_world (bdb u : jvalue) results info (w : world) :
  snd (usage_shard http_get py_str block exceeded line bdb u results info w)
  = snd (_fetch http_get (shard_topic py_str u) w).
Proof.
  unfold usage_shard. rewrite snd_bind_pure; [reflexivity|].
  intros shard_stats w0.
  destruct (py_getitem shard_stats "intervals") as [v|e];
    [rewrite bind_lift_ok | reflexivity].
  destruct (as_intervals v) as [ints|e]; [rewrite bind_lift_ok | reflexivity].
  destruct (block ints) as [s|e]; [rewrite bind_lift_ok | reflexivity].
  destruct (exceeded bdb (Stats.maximum s)) as [b|e]; [rewrite bind_lift_ok | reflexivity].
  destruct (name_key bdb) as [key|e]; [rewrite !bind_lift_ok | reflexivity].
  destruct (kdict_get key info) as [entry|]; cbv [bind lift ret].
  - destruct (kdict_getitem info key) as [entry'|e]; [|reflexivity].
    destruct (py_getitem shard_stats "role") as [role|e]; reflexivity.
  - destruct (kdict_getitem (kdict_set key [] info) key) as [entry'|e]; [|reflexivity].
    destruct (py_getitem shard_stats "role") as [role|e]; reflexivity.
Qed.

Lemma usage_shard_ok (bdb u : jvalue) results info results' info' (w w' : world) :
  usage_shard http_get py_str block exceeded line bdb u results info w
  = (Ok (results', info'), w') ->
  exists key b,
    name_key bdb = Ok key /\
    verdict_of py_str block exceeded bdb u w' b /\
    results' = kdict_set key b results.
Proof.
  unfold usage_shard, bind at 1, get.
  destruct (_fetch http_get ("shards/stats/" ++ format_value py_str u) w)
    as [[shard_stats|e] w1] eqn:F; [|discriminate].
  destruct (fetch_ok http_get _ _ _ _ F) as [Hc _].
  destruct (py_getitem shard_stats "intervals") as [v|e] eqn:Hv;
    [rewrite bind_lift_ok | discriminate].
  destruct (as_intervals v) as [ints|e] eqn:Hi; [rewrite bind_lift_ok | discriminate].
  destruct (block ints) as [s|e] eqn:Hs; [rewrite bind_lift_ok | discriminate].
  destruct (exceeded bdb (Stats.maximum s)) as [b|e] eqn:Hb;
    [rewrite bind_lift_ok | discriminate].
  destruct (name_key bdb) as [key|e] eqn:Hk; [rewrite !bind_lift_ok | discriminate].
  intros H.
  assert (E : results' = kdict_set key b results /\ w' = w1).
  { destruct (kdict_get key info) as [entry|]; cbv [bind lift ret] in H.
    - destruct (kdict_getitem info key) as [entry'|e]; [|discriminate].
      destruct (py_getitem shard_stats "role") as [role|e]; [|discriminate].
      now inversion H.
    - destruct (kdict_getitem (kdict_set key [] info) key) as [entry'|e]; [|discriminate].
      destruct (py_getitem shard_stats "role") as [role|e]; [|discriminate].
      now inversion H. }
  destruct E as [-> ->]. exists key, b. repeat split; auto.
  exists shard_stats, v, ints, s. repeat split; assumption.
Qed.

Lemma verdict_of_steps (bdb u : jvalue) (w w' : world) (b : bool) :
  steps w w' -> verdict_of py_str block exceeded bdb u w b ->
  verdict_of py_str block exceeded bdb u w' b.
Proof.
  intros Hs (shard_stats & v & ints & s & Hc & H).
  exists shard_stats, v, ints, s. split; [|exact H].
  exact (proj1 (steps_cached _ _ _ _ Hs Hc)).
Qed.

Lemma last_cons {A} (l : list A) (a d : A) : List.last (a :: l) d = List.last l a.
Proof.
  revert a d. induction l as [|b l IH]; intros a d; [reflexivity|].
  change (List.last (a :: b :: l) d) with (List.last (b :: l) d).
  now rewrite !IH.
Qed.

(** The shards of one database. *)
Lemma usage_shards_steps (bdb : jvalue) (us : list jvalue) results info (w : world) :
  steps w (snd (usage_shards http_get py_str block exceeded line bdb us results info w)).
Proof.
  revert results info w. induction us as [|u rest IH]; intros results info w.
  - apply rtc_refl.
  - cbn [usage_shards]. unfold bind at 1.
    pose proof (usage_shard_world bdb u results info w) as W.
    destruct (usage_shard http_get py_str block exceeded line bdb u results info w)
      as [[st|e] w1]; cbn [snd] in *; subst w1.
    + eapply rtc_trans; [apply fetch_steps | apply IH].
    + apply fetch_steps.
Qed.

Lemma usage_shards_ok (bdb : jvalue) (us : list jvalue) results info results' info'
    (w w' : world) :
  usage_shards http_get py_str block exceeded line bdb us results info w
  = (Ok (results', info'), w') ->
  match us with
  | [] => results' = results /\ w' = w
  | u0 :: rest =>
      exists key b,
        name_key bdb = Ok key /\
        verdict_of py_str block exceeded bdb (List.last rest u0) w' b /\
        kdict_get key results' = Some b /\
        (forall k, py_eq key k = false -> kdict_get k results' = kdict_get k results) /\
        (forall R : jvalue * bool -> Prop,
           (forall k' b', py_eq k' key = true -> R (k', b')) ->
           Forall R results -> Forall R results')
  end.
Proof.
  revert results info w. induction us as [|u rest IH]; intros results info w.
  - simpl. unfold ret. intros [= <- <- <-]. auto.
  - cbn [usage_shards]. unfold bind at 1.
    destruct (usage_shard http_get py_str block exceeded line bdb u results info w)
      as [[[results1 info1]|e] w1] eqn:Hu; [|discriminate].
    cbn [fst snd]. intros H.
    destruct (usage_shard_ok _ _ _ _ _ _ _ _ Hu) as (key & b & Hk & Hv & ->).
    pose proof (name_key_hashable _ _ Hk) as Hh.
    specialize (IH _ _ _ H).
    destruct rest as [|u1 rest'].
    + destruct IH as [-> ->]. exists key, b. repeat split; auto.
      * now apply kdict_get_set_same.
      * intros k Hne. now apply kdict_get_set_other.
      * intros R HR HF. apply kdict_set_entries; auto.
        apply HR. now apply py_eq_refl_hashable.
    + destruct IH as (key' & b' & Hk' & Hv' & Hg & Ho & HR').
      assert (key' = key) by congruence. subst key'.
      exists key, b'. repeat split; auto.
      * now rewrite last_cons.
      * intros k Hne. rewrite (Ho k Hne). now apply kdict_get_set_other.
      * intros R HR HF. apply (HR' R HR). apply kdict_set_entries; auto.
        apply HR. now apply py_eq_refl_hashable.
Qed.

(** The databases. *)
Lemma usage_bdbs_steps (bdbs : list jvalue) results info (w : world) :
  steps w (snd (usage_bdbs http_get py_str block exceeded line bdbs results info w)).
Proof.
  revert results info w. induction bdbs as [|bdb rest IH]; intros results info w.
  - apply rtc_refl.
  - cbn [usage_bdbs].
    destruct (py_getitem bdb "shard_list") as [sl|e];
      [rewrite bind_lift_ok | apply rtc_refl].
    destruct (py_iter sl) as [us|e]; [rewrite bind_lift_ok | apply rtc_refl].
    unfold bind at 1.
    pose proof (usage_shards_steps bdb us results info w) as S.
    destruct (usage_shards http_get py_str block exceeded line bdb us results info w)
      as [[st|e] w1]; cbn [snd] in *.
    + eapply rtc_trans; [exact S | apply IH].
    + exact S.
Qed.

Lemma usage_bdbs_app (pre post : list jvalue) results info (w : world) :
  usage_bdbs http_get py_str block exceeded line (pre ++ post) results info w
  = bind (usage_bdbs http_get py_str block exceeded line pre results info)
         (fun st => usage_bdbs http_get py_str block exceeded line post (fst st) (snd st)) w.
Proof.
  revert results info w. induction pre as [|bdb rest IH]; intros results info w.
  - reflexivity.
  - cbn [usage_bdbs app]. cbv [bind lift].
    destruct (py_getitem bdb "shard_list") as [sl|e]; [|reflexivity].
    destruct (py_iter sl) as [us|e]; [|reflexivity].
    destruct (usage_shards http_get py_str block exceeded line bdb us results info w)
      as [[st|e] w1]; [|reflexivity].
    exact (IH _ _ _).
Qed.

(** Databases of other names leave the verdict under [key] as it is. *)
Lemma usage_bdbs_other (key : jvalue) (bdbs : list jvalue) results info results' info'
    (w w' : world) :
  usage_bdbs http_get py_str block exceeded line bdbs results info w
  = (Ok (results', info'), w') ->
  Forall (other_name key) bdbs ->
  kdict_get key results' = kdict_get key results.
Proof.
  revert results info w. induction bdbs as [|bdb rest IH]; intros results info w.
  - simpl. unfold ret. now intros [= <- <- <-].
  - cbn [usage_bdbs].
    destruct (py_getitem bdb "shard_list") as [sl|e];
      [rewrite bind_lift_ok | discriminate].
    destruct (py_iter sl) as [us|e]; [rewrite bind_lift_ok | discriminate].
    unfold bind at 1.
    destruct (usage_shards http_get py_str block exceeded line bdb us results info w)
      as [[[results1 info1]|e] w1] eqn:Hs; [|discriminate].
    cbn [fst snd]. intros H F. inversion F as [|? ? (key' & Hk' & Hne) F']; subst.
    rewrite (IH _ _ _ H F').
    pose proof (usage_shards_ok _ _ _ _ _ _ _ _ Hs) as S.
    destruct us as [|u0 us'].
    + now destruct S as [-> _].
    + destruct S as (k2 & b & Hk2 & _ & _ & Ho & _).
      assert (k2 = key') by congruence. subst k2. now apply Ho.
Qed.

(** Every verdict of the results was written for a database that lists a
    shard. *)
Lemma usage_bdbs_written (all bdbs : list jvalue) results info results' info'
    (w w' : world) :
  usage_bdbs http_get py_str block exceeded line bdbs results info w
  = (Ok (results', info'), w') ->
  (forall bdb, In bdb bdbs -> In bdb all) ->
  Forall (fun kv => named_with_shards all (fst kv)) results ->
  Forall (fun kv => named_with_shards all (fst kv)) results'.
Proof.
  revert results info w. induction bdbs as [|bdb rest IH]; intros results info w.
  - simpl. unfold ret. now intros [= <- <- <-].
  - cbn [usage_bdbs].
    destruct (py_getitem bdb "shard_list") as [sl|e] eqn:Hsl;
      [rewrite bind_lift_ok | discriminate].
    destruct (py_iter sl) as [us|e] eqn:Hus; [rewrite bind_lift_ok | discriminate].
    unfold bind at 1.
    destruct (usage_shards http_get py_str block exceeded line bdb us results info w)
      as [[[results1 info1]|e] w1] eqn:Hs; [|discriminate].
    cbn [fst snd]. intros H Hall HF.
    apply (IH _ _ _ H); [intros b Hb; apply Hall; now right|].
    pose proof (usage_shards_ok _ _ _ _ _ _ _ _ Hs) as S.
    destruct us as [|u0 us'].
    + now destruct S as [-> _].
    + destruct S as (key & b & Hk & _ & _ & _ & HR).
      apply (HR (fun kv => named_with_shards all (fst kv))); [|exact HF].
      intros k' b' Hk'. exists bdb, key, u0, us'. repeat split; auto.
      * apply Hall. now left.
      * exists sl. auto.
Qed.

Lemma usage_result_marker (results : list (jvalue * bool)) info (bdb : jvalue) (r : report) :
  usage_result py_str desc results info bdb = Ok r ->
  exists key b,
    name_key bdb = Ok key /\ kdict_get key results = Some b /\
    r_marker r = MBool (negb b).
Proof.
  unfold usage_result.
  destruct (name_key bdb) as [key|e]; [|discriminate]. cbn [rbind].
  unfold kdict_getitem at 1.
  destruct (kdict_get key results) as [b|] eqn:Hb; [|discriminate]. cbn [rbind].
  destruct (kdict_getitem info key) as [entry|e]; [|discriminate]. cbn [rbind].
  destruct (py_getitem bdb "name") as [name|e]; [|discriminate]. cbn [rbind].
  intros [= <-]. exists key, b. auto.
Qed.

Lemma usage_check_ok (w w' : world) (rs : list report) :
  usage_check http_get py_str block exceeded line desc w = (Ok rs, w') ->
  exists bdbs items results info w1,
    get http_get "bdbs" w = (Ok bdbs, w1) /\ py_iter bdbs = Ok items /\
    usage_bdbs http_get py_str block exceeded line items [] [] w1
    = (Ok (results, info), w') /\
    Forall2 (fun bdb r => usage_result py_str desc results info bdb = Ok r) items rs.
Proof.
  unfold usage_check, bind at 1.
  destruct (get http_get "bdbs" w) as [[bdbs|e] w1] eqn:Hg; [|discriminate].
  destruct (py_iter bdbs) as [items|e] eqn:Hi; [rewrite bind_lift_ok | discriminate].
  unfold bind at 1.
  destruct (usage_bdbs http_get py_str block exceeded line items [] [] w1)
    as [[[results info]|e] w2] eqn:Hb; [|discriminate].
  cbn [fst snd]. unfold lift.
  destruct (mapM _ items) as [rs'|e] eqn:Hm; [|discriminate].
  intros [= <- <-].
  exists bdbs, items, results, info, w1. repeat split; try assumption.
  now apply mapM_Forall2.
Qed.

End UsageFacts.

Section UsageVerdict.

Import Api ApiSpec Checks CheckSpec.

Variable http_get : nat -> string -> string -> string -> result jvalue.
Variable py_str : jvalue -> string.
Variable block : list jobject -> result Stats.stats.
Variable exceeded : jvalue -> Q -> result bool.
Variable line : Stats.stats -> string.
Variable desc : string -> string.

Lemma Forall2_left {A B} (P : A -> B -> Prop) (l : list A) (k : list B) :
  Forall2 P l k -> Forall (fun x => exists y, P x y) l.
Proof. induction 1; constructor; eauto. Qed.

Lemma last_shard_decides (bdb key u : jvalue) (us post : list jvalue)
    results0 info0 results info (w w' : world) :
  usage_bdbs http_get py_str block exceeded line (bdb :: post) results0 info0 w
  = (Ok (results, info), w') ->
  name_key bdb = Ok key -> Forall (other_name key) post ->
  shards_of bdb (us ++ [u]) ->
  exists b,
    verdict_of py_str block exceeded bdb u w' b /\ kdict_get key results = Some b.
Proof.
  intros H Hk Hp (sl & Hsl & Hus). cbn [usage_bdbs] in H.
  rewrite Hsl, bind_lift_ok, Hus, bind_lift_ok in H. unfold bind at 1 in H.
  destruct (usage_shards http_get py_str block exceeded line bdb (us ++ [u]) results0 info0 w)
    as [[[results1 info1]|e] w1] eqn:Hs; [|discriminate].
  cbn [fst snd] in H.
  pose proof (usage_shards_ok _ _ _ _ _ _ _ _ _ _ _ _ _ Hs) as S.
  destruct (us ++ [u])%list as [|u0 rest] eqn:E.
  { destruct us; discriminate. }
  destruct S as (key' & b & Hk' & Hv & Hg & _).
  assert (key' = key) by congruence. subst key'.
  assert (El : List.last rest u0 = u).
  { rewrite <- (last_cons rest u0 u0), <- E. apply last_last. }
  rewrite El in Hv. exists b. split.
  - eapply verdict_of_steps; [|exact Hv].
    pose proof (usage_bdbs_steps http_get py_str block exceeded line post results1 info1 w1)
      as St.
    now rewrite H in St.
  - erewrite usage_bdbs_other; [exact Hg | exact H | exact Hp].
Qed.

(** A verdict that is found under the name of a database was written for a
    database of that name that lists a shard. *)
Lemma looked_up_has_shards (items : list jvalue) results info (w w' : world)
    (bdb key : jvalue) (b : bool) :
  usage_bdbs http_get py_str block exceeded line items [] [] w
  = (Ok (results, info), w') ->
  name_key bdb = Ok key -> kdict_get key results = Some b ->
  has_shards_by_name items bdb.
Proof.
  intros Hb Hk Hget.
  pose proof (usage_bdbs_written http_get py_str block exceeded line items items
                [] [] results info w w' Hb (fun _ h => h) (List.Forall_nil _)) as Hw.
  destruct (kdict_get_In key b results Hget) as (k2 & Hin & Hk2).
  rewrite List.Forall_forall in Hw. specialize (Hw _ Hin).
  destruct Hw as (bdb' & key' & u & us & Hin' & Hk' & He & Hs).
  exists bdb', key, key', u, us. repeat split; auto.
  simpl in He.
  rewrite <- (py_eq_key k2 key' key (name_key_hashable _ _ Hk') He). exact Hk2.
Qed.

(** What the look-up of one database raises. *)
Lemma usage_result_raises (results : list (jvalue * bool)) info (bdb key : jvalue)
    (e : pyexc) :
  name_key bdb = Ok key ->
  usage_result py_str desc results info bdb = Raise e -> e = KeyError key.
Proof.
  intros Hk. unfold usage_result. rewrite Hk. cbn [rbind].
  unfold kdict_getitem.
  destruct (kdict_get key results) as [b|]; cbn [rbind]; [|now intros [= <-]].
  destruct (kdict_get key info) as [entry|]; cbn [rbind]; [|now intros [= <-]].
  unfold name_key in Hk.
  destruct (py_getitem bdb "name") as [name|]; [|discriminate]. discriminate.
Qed.

End UsageVerdict.

(** X22.  The verdict of [check_databases_usage_001] and
    [check_databases_usage_002] on a database is the verdict on the shard
    the database lists last.  Both are [usage_check] with their block, their
    limits and their texts.  When the check returns, the result of a
    database whose name no later database has is marked with the negation
    of what the limit says about the maximum of its last shard; the maxima
    of its other shards have no part in the marker. *)
Theorem usage_verdict_is_last_shard
    (http_get : nat -> string -> string -> string -> result jvalue)
    (py_str : jvalue -> string)
    (block : list jobject -> result Stats.stats) (exceeded : jvalue -> Q -> result bool)
    (line : Stats.stats -> string) (desc : string -> string)
    (w w1 w' : Api.world) (rs : list Checks.report)
    (bdbs bdb key u : jvalue) (pre post us : list jvalue) :
  Checks.usage_check http_get py_str block exceeded line desc w = (Ok rs, w') ->
  Api.get http_get "bdbs" w = (Ok bdbs, w1) ->
  py_iter bdbs = Ok (pre ++ bdb :: post)%list ->
  Checks.name_key bdb = Ok key ->
  Forall (CheckSpec.other_name key) post ->
  CheckSpec.shards_of bdb (us ++ [u])%list ->
  exists rs1 r rs2 b,
    rs = (rs1 ++ r :: rs2)%list /\ List.length rs1 = List.length pre /\
    CheckSpec.verdict_of py_str block exceeded bdb u w' b /\
    Checks.r_marker r = MBool (negb b).
Proof.
  intros H Hg Hi Hk Hp Hs.
  destruct (usage_check_ok http_get py_str block exceeded line desc w w' rs H)
    as (bdbs' & items & results & info & w1' & Hg' & Hi' & Hb & Hr).
  rewrite Hg in Hg'. injection Hg' as <- <-. rewrite Hi in Hi'. injection Hi' as <-.
  rewrite usage_bdbs_app in Hb. unfold bind at 1 in Hb.
  destruct (Checks.usage_bdbs http_get py_str block exceeded line pre [] [] w1)
    as [[[results0 info0]|e] w2]; [|discriminate].
  cbn [fst snd] in Hb.
  destruct (last_shard_decides http_get py_str block exceeded line bdb key u us post
              _ _ _ _ _ _ Hb Hk Hp Hs) as (b & Hv & Hget).
  apply Forall2_app_inv_l in Hr. destruct Hr as (rs1 & rs' & Hr1 & Hr' & ->).
  inversion Hr' as [|? r ? rs2 Hrb _]; subst.
  destruct (usage_result_marker py_str desc results info bdb r Hrb) as (key' & b' & Hk' & Hg' & Hm).
  assert (key' = key) by congruence. subst key'.
  assert (b' = b) by congruence. subst b'.
  exists rs1, r, rs2, b. repeat split; auto.
  symmetry. exact (Forall2_length _ _ _ Hr1).
Qed.

Lemma usage_verdict_is_last_shard_witness :
  let w := Api.start Api.sample_config in
  let w' := snd (Checks.check_databases_usage_001 CheckSpec.hot_then_cool_net
                   CheckSpec.uid_str (fun _ => "") Stats.rational_arith w) in
  let bdb := JObj [("name", JStr "db1"); ("shard_list", JArr [JNum 1; JNum 2]);
                   ("bigstore", JBool false); ("crdt_sync", JStr "disabled")] in
  let rs := [Checks.mkReport (MBool true)
               [(JStr "shard:1 (master)", JStr "/// Kops");
                (JStr "shard:2 (slave)", JStr "/// Kops")]
               (Some "DU-001: Check throughput of 'db1' (min/avg/max/dev).")] in
  exists rs1 r rs2 b,
    rs = (rs1 ++ r :: rs2)%list /\ List.length rs1 = 0 /\
    CheckSpec.verdict_of CheckSpec.uid_str
      (Stats.check_databases_usage_001_stats Stats.rational_arith)
      Checks.throughput_exceeded bdb (JNum 2) w' b /\
    Checks.r_marker r = MBool (negb b).
Proof.
  intros w w' bdb rs.
  apply (usage_verdict_is_last_shard CheckSpec.hot_then_cool_net CheckSpec.uid_str
           (Stats.check_databases_usage_001_stats Stats.rational_arith)
           Checks.throughput_exceeded
           (Checks.kops_line (fun _ => ""))
           (fun name => "DU-001: Check throughput of '" ++ name ++ "' (min/avg/max/dev).")
           w (snd (Api.get CheckSpec.hot_then_cool_net "bdbs" w)) w' rs
           (JArr [bdb]) bdb (JStr "db1") (JNum 2) [] [] [JNum 1]).
  - reflexivity.
  - reflexivity.
  - reflexivity.
  - reflexivity.
  - constructor.
  - exists (JArr [JNum 1; JNum 2]). split; reflexivity.
Defined.

(** X23.  [check_databases_usage_001] and [check_databases_usage_002] look
    the verdicts up by name after the loops.  They return only for a
    cluster in which every database lists a shard, itself or through a
    database of the same name, and then with one result for each database.
    When the loops complete over databases that all have a name, and one of
    them neither lists a shard nor shares its name with one that does, the
    check raises [KeyError] with the name of a database. *)
Theorem usage_check_needs_shards
    (http_get : nat -> string -> string -> string -> result jvalue)
    (py_str : jvalue -> string)
    (block : list jobject -> result Stats.stats) (exceeded : jvalue -> Q -> result bool)
    (line : Stats.stats -> string) (desc : string -> string) :
  (forall (w w' : Api.world) (rs : list Checks.report),
     Checks.usage_check http_get py_str block exceeded line desc w = (Ok rs, w') ->
     exists bdbs items w1,
       Api.get http_get "bdbs" w = (Ok bdbs, w1) /\ py_iter bdbs = Ok items /\
       List.length rs = List.length items /\
       Forall (CheckSpec.has_shards_by_name items) items) /\
  (forall (w w1 w2 : Api.world) (bdbs : jvalue) (items : list jvalue)
          (st : list (jvalue * bool) * list (jvalue * jobject)),
     Api.get http_get "bdbs" w = (Ok bdbs, w1) -> py_iter bdbs = Ok items ->
     Checks.usage_bdbs http_get py_str block exceeded line items [] [] w1 = (Ok st, w2) ->
     Forall (fun bdb => is_ok (Checks.name_key bdb) = true) items ->
     Exists (fun bdb => ~ CheckSpec.has_shards_by_name items bdb) items ->
     exists bdb key,
       In bdb items /\ Checks.name_key bdb = Ok key /\
       Checks.usage_check http_get py_str block exceeded line desc w
       = (Raise (KeyError key), w2)).
Proof.
  split.
  - intros w w' rs H.
    destruct (usage_check_ok http_get py_str block exceeded line desc w w' rs H)
      as (bdbs & items & results & info & w1 & Hg & Hi & Hb & Hr).
    exists bdbs, items, w1. repeat split; try assumption.
    + symmetry. exact (Forall2_length _ _ _ Hr).
    + apply Forall2_left in Hr. eapply List.Forall_impl; [|exact Hr].
      intros bdb [r Hrb].
      destruct (usage_result_marker py_str desc results info bdb r Hrb)
        as (key & b & Hk & Hget & _).
      exact (looked_up_has_shards http_get py_str block exceeded line items
               results info w1 w' bdb key b Hb Hk Hget).
  - intros w w1 w2 bdbs items [results info] Hg Hi Hb Hnames Hex.
    assert (Hnot : is_ok (mapM (Checks.usage_result py_str desc results info) items)
                   = false).
    { apply List.Exists_exists in Hex. destruct Hex as (bdb & Hin & Hno).
      apply (mapM_not_ok _ _ bdb Hin).
      destruct (Checks.usage_result py_str desc results info bdb) as [r|] eqn:Er;
        [|reflexivity].
      exfalso. apply Hno.
      destruct (usage_result_marker py_str desc results info bdb r Er)
        as (key & b & Hk & Hget & _).
      exact (looked_up_has_shards http_get py_str block exceeded line items
               results info w1 w2 bdb key b Hb Hk Hget). }
    destruct (mapM (Checks.usage_result py_str desc results info) items) as [rs|e] eqn:Em;
      [discriminate|].
    destruct (mapM_raise _ _ _ Em) as (bdb & Hin & He).
    rewrite List.Forall_forall in Hnames. specialize (Hnames bdb Hin).
    destruct (Checks.name_key bdb) as [key|] eqn:Hk; [|discriminate].
    exists bdb, key. split; [exact Hin|]. split; [exact Hk|].
    rewrite (usage_result_raises py_str desc results info bdb key e Hk He) in Em.
    unfold Checks.usage_check, bind at 1. rewrite Hg, Hi, bind_lift_ok.
    unfold bind at 1. rewrite Hb. cbn [fst snd]. unfold lift. now rewrite Em.
Qed.

Lemma usage_check_needs_shards_witness :
  let w := Api.start Api.sample_config in
  let block := Stats.check_databases_usage_001_stats Stats.rational_arith in
  let line := Checks.kops_line (fun _ => "") in
  let desc := fun name => "DU-001: Check throughput of '" ++ name ++ "' (min/avg/max/dev)." in
  (exists bdbs items w1,
     Api.get CheckSpec.hot_then_cool_net "bdbs" w = (Ok bdbs, w1) /\
     py_iter bdbs = Ok items /\
     1 = List.length items /\
     Forall (CheckSpec.has_shards_by_name items) items) /\
  (exists bdb key,
     In bdb [CheckSpec.shardless_db] /\ Checks.name_key bdb = Ok key /\
     Checks.usage_check CheckSpec.shardless_net CheckSpec.uid_str block
       Checks.throughput_exceeded line desc w
     = (Raise (KeyError key),
        snd (Api.get CheckSpec.shardless_net "bdbs" w))).
Proof.
  intros w block line desc.
  destruct (usage_check_needs_shards CheckSpec.hot_then_cool_net CheckSpec.uid_str
              block Checks.throughput_exceeded line desc) as [Hret _].
  destruct (usage_check_needs_shards CheckSpec.shardless_net CheckSpec.uid_str
              block Checks.throughput_exceeded line desc) as [_ Hraise].
  split.
  - apply (Hret w
             (snd (Checks.usage_check CheckSpec.hot_then_cool_net CheckSpec.uid_str
                     block Checks.throughput_exceeded line desc w))
             [Checks.mkReport (MBool true)
                [(JStr "shard:1 (master)", JStr "/// Kops");
                 (JStr "shard:2 (slave)", JStr "/// Kops")]
                (Some "DU-001: Check throughput of 'db1' (min/avg/max/dev).")]).
    reflexivity.
  - apply (Hraise w (snd (Api.get CheckSpec.shardless_net "bdbs" w))
             (snd (Api.get CheckSpec.shardless_net "bdbs" w))
             (JArr [CheckSpec.shardless_db]) [CheckSpec.shardless_db] ([], [])).
    + reflexivity.
    + reflexivity.
    + reflexivity.
    + repeat constructor.
    + constructor. intros (bdb' & key & key' & u & us & Hin & _ & _ & _ & sl & Hsl & Hus).
      destruct Hin as [<-|[]]. injection Hsl as <-. discriminate.
Defined.
